(** * The CTC loss adapter (theano/tensor/nnet/ctc_wrapper.c)

    A shallow embedding of the C wrapper that marshals arrays into the flat
    layout of the external CTC library, calls its size query and its
    loss/gradient routine, and hands the results back.

    The C code works on three kinds of memory, each modelled explicitly:
    - the malloc heap: a finite map from block identifiers to blocks;
    - the Python object store: a finite map from object identifiers to
      array objects carrying their reference count;
    - the two output handles ([PyArrayObject **]) and the Python error
      indicator.
    Everything the function does to the outside world (allocation attempts,
    frees, reference drops, errors raised, calls into the CTC library) is
    also recorded, in order, in a trace.

    What the environment decides (whether an allocation succeeds, what the
    fresh context block contains, what the CTC library answers) is a
    parameter [Env] of the model.  Behaviour that C leaves undefined
    (dereferencing NULL, indexing outside an array, signed overflow, using a
    dead object) is the outcome [Undefined]. *)

From Stdlib Require Import ZArith Ascii String List Lia.
From stdpp Require Import base option list gmap strings.

Local Open Scope Z_scope.

(** ** Machine integers *)

Definition INT_MIN : Z := - 2 ^ 31.
Definition INT_MAX : Z := 2 ^ 31 - 1.

(** Conversion of an [npy_intp] (64 bits) to [int] / [npy_int] (32 bits):
    the low 32 bits, read as a signed number. *)
Definition to_int (z : Z) : Z := (z + 2 ^ 31) mod 2 ^ 32 - 2 ^ 31.

(** Conversion of a signed integer to [size_t] (64 bits, unsigned). *)
Definition to_size_t (z : Z) : Z := z mod 2 ^ 64.

Definition in_int_range (z : Z) : bool := (INT_MIN <=? z) && (z <=? INT_MAX).

Definition sizeof_int : Z := 4.

(** [sizeof(ctc_context_t)] on an LP64 target: the options (a location, a
    union of a thread count and a stream pointer, and a blank label: 24
    bytes with their padding), four data pointers and one object
    pointer. *)
Definition sizeof_ctc_context_t : Z := 64.

(** ** Declarations of the external CTC library *)

(** Modelled from the spec: the header of the external CTC library
    (its status codes, its compute locations and its options structure) is
    not among the sources.  The spec speaks of a success status and of
    non-success statuses, of CPU as opposed to GPU execution and of a thread
    count; these declarations give them the names the wrapper uses. *)
Inductive ctcStatus_t : Set :=
| CTC_STATUS_SUCCESS
| CTC_STATUS_MEMOPS_FAILED
| CTC_STATUS_INVALID_VALUE
| CTC_STATUS_EXECUTION_FAILED
| CTC_STATUS_UNKNOWN_ERROR.

Inductive ctcComputeLocation : Set := CTC_CPU | CTC_GPU.

Record ctcOptions : Set := mk_ctcOptions {
  loc : ctcComputeLocation;
  num_threads : Z;
  blank_label : Z
}.

Global Instance ctcStatus_eq_dec : EqDecision ctcStatus_t.
Proof. solve_decision. Defined.
Global Instance ctcComputeLocation_eq_dec : EqDecision ctcComputeLocation.
Proof. solve_decision. Defined.
Global Instance ctcOptions_eq_dec : EqDecision ctcOptions.
Proof. solve_decision. Defined.

(** [memset(&options, 0, sizeof(struct ctcOptions))]: every field zero, and
    zero is the first enumerator of the location. *)
Definition zeroed_options : ctcOptions :=
  {| loc := CTC_CPU; num_threads := 0; blank_label := 0 |}.

(** ** Arrays of the host framework *)

Inductive npy_type : Set := NPY_INT32 | NPY_FLOAT32.

(** An array object: its reference count, its shape, whether its memory is
    C-contiguous, its element type and its elements listed in row-major
    order of their indices (a float32 element is its 32-bit pattern). *)
Record PyArrayObject : Type := mk_array {
  ob_refcnt : nat;
  dims : list Z;
  c_contiguous : bool;
  descr : npy_type;
  items : list Z
}.

Definition product (l : list Z) : Z := foldr Z.mul 1 l.

(** ** The context structure *)

Record ctc_context_t : Type := mk_context {
  options : ctcOptions;
  workspace : option nat;
  input_lengths : option nat;
  flat_labels : option nat;
  label_lengths : option nat;
  activations_copy : option nat
}.

Definition set_workspace (p : option nat) (c : ctc_context_t) : ctc_context_t :=
  {| options := options c; workspace := p; input_lengths := input_lengths c;
     flat_labels := flat_labels c; label_lengths := label_lengths c;
     activations_copy := activations_copy c |}.

Definition set_input_lengths (p : option nat) (c : ctc_context_t) : ctc_context_t :=
  {| options := options c; workspace := workspace c; input_lengths := p;
     flat_labels := flat_labels c; label_lengths := label_lengths c;
     activations_copy := activations_copy c |}.

Definition set_labels (fl ll : option nat) (c : ctc_context_t) : ctc_context_t :=
  {| options := options c; workspace := workspace c;
     input_lengths := input_lengths c;
     flat_labels := fl; label_lengths := ll;
     activations_copy := activations_copy c |}.

Definition set_activations_copy (o : option nat) (c : ctc_context_t) : ctc_context_t :=
  {| options := options c; workspace := workspace c;
     input_lengths := input_lengths c;
     flat_labels := flat_labels c; label_lengths := label_lengths c;
     activations_copy := o |}.

(** ** Memory, events and the environment *)

(** The places where the wrapper asks for memory. *)
Inductive Site : Set :=
| SContext | SActivationsCopy | SInputLengths | SFlatLabels | SLabelLengths
| SCosts | SGradients | SWorkspace.

Global Instance Site_eq_dec : EqDecision Site.
Proof. solve_decision. Defined.

(** A malloc block: where it was requested, its size in bytes, and its
    contents seen as [int] cells ([None] is a cell never written). *)
Record block : Type := mk_block {
  b_site : Site;
  b_size : Z;
  b_cells : list (option Z)
}.

Inductive PyExc : Set := PyExc_MemoryError | PyExc_RuntimeError.

Global Instance PyExc_eq_dec : EqDecision PyExc.
Proof. solve_decision. Defined.

(** Arguments of [get_workspace_size] and of [compute_ctc_loss], in the
    order of the calls.  Data pointers of arrays are the identifiers of the
    objects they point into. *)
Record WsArgs : Type := mk_WsArgs {
  ws_label_lengths : option nat;
  ws_input_lengths : option nat;
  ws_alphabet_size : Z;
  ws_minibatch : Z;
  ws_options : ctcOptions
}.

Record LossArgs : Type := mk_LossArgs {
  ls_activations : nat;
  ls_gradients : nat;
  ls_flat_labels : option nat;
  ls_label_lengths : option nat;
  ls_input_lengths : option nat;
  ls_alphabet_size : Z;
  ls_minibatch : Z;
  ls_costs : nat;
  ls_workspace : option nat;
  ls_options : ctcOptions
}.

Inductive Event : Type :=
| EvMalloc (site : Site) (size : Z) (res : option nat)
| EvFree (p : nat)
| EvGetContiguous (src : nat) (res : option nat)
| EvZeros (site : Site) (shape : list Z) (res : option nat)
| EvDecref (ob : nat)
| EvErr (exc : PyExc) (msg : string)
| EvGetWorkspaceSize (args : WsArgs) (res : ctcStatus_t)
| EvComputeCtcLoss (args : LossArgs) (res : ctcStatus_t).

Record State : Type := mk_State {
  heap : gmap nat block;
  objs : gmap nat PyArrayObject;
  out_costs : option nat;
  out_gradients : option nat;
  err : option (PyExc * string);
  trace : list Event
}.

Definition upd_heap (f : gmap nat block → gmap nat block) (s : State) : State :=
  {| heap := f (heap s); objs := objs s; out_costs := out_costs s;
     out_gradients := out_gradients s; err := err s; trace := trace s |}.

Definition upd_objs (f : gmap nat PyArrayObject → gmap nat PyArrayObject)
    (s : State) : State :=
  {| heap := heap s; objs := f (objs s); out_costs := out_costs s;
     out_gradients := out_gradients s; err := err s; trace := trace s |}.

Definition set_out_costs (o : option nat) (s : State) : State :=
  {| heap := heap s; objs := objs s; out_costs := o;
     out_gradients := out_gradients s; err := err s; trace := trace s |}.

Definition set_out_gradients (o : option nat) (s : State) : State :=
  {| heap := heap s; objs := objs s; out_costs := out_costs s;
     out_gradients := o; err := err s; trace := trace s |}.

Definition set_err (e : PyExc * string) (s : State) : State :=
  {| heap := heap s; objs := objs s; out_costs := out_costs s;
     out_gradients := out_gradients s; err := Some e; trace := trace s |}.

Definition log (e : Event) (s : State) : State :=
  {| heap := heap s; objs := objs s; out_costs := out_costs s;
     out_gradients := out_gradients s; err := err s;
     trace := trace s ++ [e] |}.

(** A write of the values [new] through a data pointer into an array whose
    elements are [old]: the first elements are replaced, and the array has
    the length it had. *)
Definition overwrite (new old : list Z) : list Z :=
  take (length old) (new ++ drop (length new) old).

(** The store after such a write into the array [ob]. *)
Definition write_items (ob : nat) (new : list Z)
    (m : gmap nat PyArrayObject) : gmap nat PyArrayObject :=
  match m !! ob with
  | Some o =>
      <[ob := {| ob_refcnt := ob_refcnt o; dims := dims o;
                 c_contiguous := c_contiguous o; descr := descr o;
                 items := overwrite new (items o) |}]> m
  | None => m
  end.

(** What the surroundings of a call decide. *)
Record Env : Type := mk_Env {
  (** does the allocation requested at this site succeed? *)
  alloc_ok : Site → bool;
  (** the contents of the context block as [malloc] hands it out *)
  fresh_context : ctc_context_t;
  (** the answers of the CTC library *)
  get_workspace_size : gmap nat block → WsArgs → ctcStatus_t * Z;
  compute_ctc_loss : gmap nat block → LossArgs → ctcStatus_t;
  (** what the computation writes through its [costs] and [gradients]
      pointers, given the memory it is called in *)
  ctc_outputs : gmap nat block → gmap nat PyArrayObject → LossArgs
                → list Z * list Z;
  ctcGetStatusString : ctcStatus_t → string
}.

(** The identifier handed out for a new block or object: one above every
    identifier in use. *)
Definition fresh_key {V : Type} (m : gmap nat V) : nat :=
  map_fold (λ k _ acc, Nat.max (S k) acc) 0%nat m.

(** ** Outcomes and the monad of the wrapper's code *)

Inductive outcome (A : Type) : Type :=
| Undefined
| Return (rc : Z) (s : State)
| Next (a : A) (s : State).

Arguments Undefined {A}.
Arguments Return {A} rc s.
Arguments Next {A} a s.

Definition M (A : Type) : Type := State → outcome A.

Definition ret {A} (a : A) : M A := λ s, Next a s.

Definition bind {A B} (m : M A) (k : A → M B) : M B := λ s,
  match m s with
  | Undefined => Undefined
  | Return rc s' => Return rc s'
  | Next a s' => k a s'
  end.

Definition undefined {A} : M A := λ _, Undefined.

(** [return rc;] in the body of the entry point. *)
Definition return_ {A} (rc : Z) : M A := λ s, Return rc s.

Declare Scope ctc_scope.
Delimit Scope ctc_scope with ctc.
Notation "'let*' x ':=' m 'in' k" := (bind m (λ x, k))
  (at level 10, x pattern, m at level 100, k at level 200) : ctc_scope.
Notation "m ;;; k" := (bind m (λ _, k))
  (at level 100, k at level 200, right associativity) : ctc_scope.
Local Open Scope ctc_scope.

(** [for (i = start; i < start + n; ++i) acc = body(i, acc);] *)
Fixpoint for_loop {S : Type} (n : nat) (i : Z) (body : Z → S → M S) (acc : S)
    : M S :=
  match n with
  | O => ret acc
  | Datatypes.S n' => let* acc' := body i acc in for_loop n' (i + 1) body acc'
  end.

(** ** Primitive operations *)

Section Wrapper.

Variable env : Env.

(** [malloc(size)] requested at [site]: NULL when the environment refuses,
    otherwise a new block whose cells are not yet written. *)
Definition malloc (site : Site) (size : Z) : M (option nat) := λ s,
  if alloc_ok env site then
    let p := fresh_key (heap s) in
    let b := {| b_site := site; b_size := size;
                b_cells := replicate (Z.to_nat (size / sizeof_int)) None |} in
    Next (Some p) (log (EvMalloc site size (Some p)) (upd_heap <[p := b]> s))
  else Next None (log (EvMalloc site size None) s).

(** [free(p)] for a non-NULL [p]; freeing what is not a live block is
    undefined. *)
Definition free (p : nat) : M unit := λ s,
  match heap s !! p with
  | Some _ => Next () (log (EvFree p) (upd_heap (delete p) s))
  | None => Undefined
  end.

(** [p[idx] = v] on a block of ints. *)
Definition write_int (p : option nat) (idx : Z) (v : Z) : M unit := λ s,
  match p with
  | None => Undefined
  | Some a =>
      match heap s !! a with
      | None => Undefined
      | Some b =>
          if (0 <=? idx) && (idx <? Z.of_nat (length (b_cells b))) then
            Next () (upd_heap
              <[a := {| b_site := b_site b; b_size := b_size b;
                        b_cells := <[Z.to_nat idx := Some v]> (b_cells b) |}]> s)
          else Undefined
      end
  end.

(** Access to a live array object through a pointer to it. *)
Definition deref (ob : nat) : M PyArrayObject := λ s,
  match objs s !! ob with
  | Some a => Next a s
  | None => Undefined
  end.

Definition PyArray_NDIM (ob : nat) : M Z :=
  let* a := deref ob in ret (Z.of_nat (length (dims a))).

(** [PyArray_DIMS(ob)[i]] *)
Definition PyArray_DIMS (ob : nat) (i : nat) : M Z :=
  let* a := deref ob in
  match dims a !! i with
  | Some d => ret d
  | None => undefined
  end.

Definition PyArray_IS_C_CONTIGUOUS (ob : nat) : M bool :=
  let* a := deref ob in ret (c_contiguous a).

(** [PyArray_DATA(ob)]: the data pointer of a live array, named after the
    array it points into. *)
Definition PyArray_DATA (ob : nat) : M nat :=
  let* _ := deref ob in ret ob.

(** [*(int * ) PyArray_GETPTR1(ob, i)] on a 1-D array of ints; an index
    outside the array is undefined. *)
Definition PyArray_GETPTR1 (ob : nat) (i : Z) : M Z :=
  let* a := deref ob in
  match dims a with
  | [d0] =>
      if (0 <=? i) && (i <? d0) then
        match items a !! Z.to_nat i with
        | Some v => ret v
        | None => undefined
        end
      else undefined
  | _ => undefined
  end.

(** [*(int * ) PyArray_GETPTR2(ob, i, j)] on a 2-D array of ints. *)
Definition PyArray_GETPTR2 (ob : nat) (i j : Z) : M Z :=
  let* a := deref ob in
  match dims a with
  | [d0; d1] =>
      if (0 <=? i) && (i <? d0) && (0 <=? j) && (j <? d1) then
        match items a !! Z.to_nat (i * d1 + j) with
        | Some v => ret v
        | None => undefined
        end
      else undefined
  | _ => undefined
  end.

(** [PyArray_GETCONTIGUOUS(ob)] on an array that is not contiguous: NULL
    when the copy cannot be made, otherwise a new reference to a new
    contiguous array with the same shape and elements. *)
Definition PyArray_GETCONTIGUOUS (ob : nat) : M (option nat) :=
  let* a := deref ob in
  λ s,
    if alloc_ok env SActivationsCopy then
      let c := fresh_key (objs s) in
      let copy := {| ob_refcnt := 1; dims := dims a; c_contiguous := true;
                     descr := descr a; items := items a |} in
      Next (Some c) (log (EvGetContiguous ob (Some c)) (upd_objs <[c := copy]> s))
    else Next None (log (EvGetContiguous ob None) s).

(** [PyArray_ZEROS(nd, shape, NPY_FLOAT32, 0)] requested at [site]: NULL on
    failure, otherwise a new reference to a new zero-filled float32 array. *)
Definition PyArray_ZEROS (site : Site) (shape : list Z) : M (option nat) := λ s,
  if alloc_ok env site then
    let z := fresh_key (objs s) in
    let arr := {| ob_refcnt := 1; dims := shape; c_contiguous := true;
                  descr := NPY_FLOAT32;
                  items := replicate (Z.to_nat (product shape)) 0 |} in
    Next (Some z) (log (EvZeros site shape (Some z)) (upd_objs <[z := arr]> s))
  else Next None (log (EvZeros site shape None) s).

(** [Py_XDECREF(o)]: nothing for NULL; otherwise one reference less, and the
    object is deallocated when that was the last one. *)
Definition Py_XDECREF (o : option nat) : M unit :=
  match o with
  | None => ret ()
  | Some ob =>
      let* a := deref ob in
      λ s,
        Next () (log (EvDecref ob)
          (upd_objs
             (if (ob_refcnt a <=? 1)%nat then delete ob
              else <[ob := {| ob_refcnt := pred (ob_refcnt a); dims := dims a;
                              c_contiguous := c_contiguous a;
                              descr := descr a; items := items a |}]>) s))
  end.

(** Expansion of a format string whose only directives are [%s]. *)
Fixpoint format_s (fmt : string) (args : list string) : string :=
  match fmt with
  | EmptyString => EmptyString
  | String c rest =>
      match rest with
      | String c' rest' =>
          if (Ascii.eqb c "%"%char && Ascii.eqb c' "s"%char)%bool then
            match args with
            | a :: args' => String.append a (format_s rest' args')
            | [] => format_s rest' []
            end
          else String c (format_s rest args)
      | EmptyString => String c EmptyString
      end
  end.

(** [PyErr_Format(exc, fmt, args...)]: sets the error indicator. *)
Definition PyErr_Format (exc : PyExc) (fmt : string) (args : list string)
    : M unit := λ s,
  let msg := format_s fmt args in
  Next () (log (EvErr exc msg) (set_err (exc, msg) s)).

(** ** The functions of the wrapper *)

(** [ctc_context_init]: the options are copied into a local variable, and
    it is that local copy which is cleared and set up; the pointer fields of
    the context are reset. *)
Definition ctc_context_init (context : ctc_context_t) : ctc_context_t :=
  let options_local := options context in
  let options_local := zeroed_options in
  let options_local :=
    {| loc := CTC_CPU; num_threads := num_threads options_local;
       blank_label := blank_label options_local |} in
  let options_local :=
    {| loc := loc options_local; num_threads := 1;
       blank_label := blank_label options_local |} in
  {| options := options context;
     workspace := None;
     input_lengths := None;
     flat_labels := None;
     label_lengths := None;
     activations_copy := None |}.

Definition free_if_set (p : option nat) : M unit :=
  match p with
  | Some a => free a
  | None => ret ()
  end.

Definition ctc_context_destroy (context : ctc_context_t) : M unit :=
  free_if_set (workspace context) ;;;
  free_if_set (input_lengths context) ;;;
  free_if_set (flat_labels context) ;;;
  free_if_set (label_lengths context) ;;;
  Py_XDECREF (activations_copy context).

Definition ctc_check_result (retcode : ctcStatus_t) (msg : string) : M Z :=
  if decide (CTC_STATUS_SUCCESS ≠ retcode) then
    let ctc_msg := ctcGetStatusString env retcode in
    PyErr_Format PyExc_RuntimeError "%s | CTC library error message: %s"
      [msg; ctc_msg] ;;;
    ret 1
  else ret 0.

(** The body of the loop of [create_contiguous_input_lengths] (line 71). *)
Definition input_lengths_body (input_lengths_arr : nat)
    (input_lengths : option nat) (elem_idx : Z) (_ : unit) : M unit :=
  let* v := PyArray_GETPTR1 input_lengths_arr elem_idx in
  write_int input_lengths elem_idx v.

(** [create_contiguous_input_lengths]; the result is the value left in
    [*input_lengths]. *)
Definition create_contiguous_input_lengths (input_lengths_arr : nat)
    : M (option nat) :=
  let* d0 := PyArray_DIMS input_lengths_arr 0 in
  let num_elements := to_int d0 in
  let* input_lengths :=
    malloc SInputLengths (to_size_t num_elements * sizeof_int mod 2 ^ 64) in
  match input_lengths with
  | None => ret None
  | Some _ =>
      for_loop (Z.to_nat num_elements) 0
        (input_lengths_body input_lengths_arr input_lengths) () ;;;
      ret input_lengths
  end.

(** The body of the inner loop of [create_flat_labels] (lines 99-104), on
    the pair of locals [(label_index, label_length)]. *)
Definition flat_labels_col_body (label_matrix : nat) (flat_labels : option nat)
    (row_idx col_idx : Z) (locals : Z * Z) : M (Z * Z) :=
  let '(label_index, label_length) := locals in
  let* label := PyArray_GETPTR2 label_matrix row_idx col_idx in
  if 0 <=? label then
    write_int flat_labels label_index label ;;;
    ret (label_index + 1, label_length + 1)
  else ret (label_index, label_length).

(** The body of the outer loop (lines 96-106), on the local [label_index]. *)
Definition flat_labels_row_body (label_matrix : nat)
    (flat_labels label_lengths : option nat) (cols : Z)
    (row_idx : Z) (label_index : Z) : M Z :=
  let* (label_index, label_length) :=
    for_loop (Z.to_nat cols) 0
      (flat_labels_col_body label_matrix flat_labels row_idx)
      (label_index, 0) in
  write_int label_lengths row_idx label_length ;;;
  ret label_index.

(** [create_flat_labels]; [flat_labels0] and [label_lengths0] are the values
    of [*flat_labels] and [*label_lengths] on entry, the result is the pair
    of their values on exit. *)
Definition create_flat_labels (label_matrix : nat)
    (flat_labels0 label_lengths0 : option nat) : M (option nat * option nat) :=
  let* d0 := PyArray_DIMS label_matrix 0 in
  let rows := to_int d0 in
  let* d1 := PyArray_DIMS label_matrix 1 in
  let cols := to_int d1 in
  if negb (in_int_range (rows * cols)) then undefined else
  let* flat_labels :=
    malloc SFlatLabels (to_size_t (rows * cols) * sizeof_int mod 2 ^ 64) in
  match flat_labels with
  | None => ret (None, label_lengths0)
  | Some fl =>
      let* label_lengths :=
        malloc SLabelLengths (to_size_t rows * sizeof_int mod 2 ^ 64) in
      match label_lengths with
      | None => free fl ;;; ret (None, None)
      | Some _ =>
          let label_index := 0 in
          for_loop (Z.to_nat rows) 0
            (flat_labels_row_body label_matrix flat_labels label_lengths cols)
            label_index ;;;
          ret (flat_labels, label_lengths)
      end
  end.

(** Reading and writing the output handles [*out_costs], [*out_gradients]. *)
Definition get_out_costs : M (option nat) := λ s, Next (out_costs s) s.
Definition put_out_costs (o : option nat) : M unit := λ s,
  Next () (set_out_costs o s).
Definition get_out_gradients : M (option nat) := λ s, Next (out_gradients s) s.
Definition put_out_gradients (o : option nat) : M unit := λ s,
  Next () (set_out_gradients o s).

(** The calls into the CTC library. *)
Definition call_get_workspace_size (args : WsArgs) : M (ctcStatus_t * Z) := λ s,
  let r := get_workspace_size env (heap s) args in
  Next (r.1, to_size_t r.2) (log (EvGetWorkspaceSize args r.1) s).

(** [compute_ctc_loss] (lines 240-242) answers a status and writes the
    costs and the gradients into the arrays whose data pointers it was
    given; what it reads it leaves as it is.  The workspace is scratch
    memory of the library: its cells stay as [malloc] left them, and no
    statement below reads them. *)
Definition call_compute_ctc_loss (args : LossArgs) : M ctcStatus_t := λ s,
  let r := compute_ctc_loss env (heap s) args in
  let w := ctc_outputs env (heap s) (objs s) args in
  Next r
    (log (EvComputeCtcLoss args r)
       (upd_objs (λ m, write_items (ls_gradients args) w.2
                         (write_items (ls_costs args) w.1 m)) s)).

(** The condition of the first [if] on the costs output (lines 170-172),
    evaluated left to right with short-circuit. *)
Definition costs_mismatch (cost_size : Z) : M bool :=
  let* oc := get_out_costs in
  match oc with
  | None => ret true
  | Some c =>
      let* nd := PyArray_NDIM c in
      if negb (nd =? 1) then ret true else
      let* c0 := PyArray_DIMS c 0 in
      ret (negb (c0 =? cost_size))
  end.

(** The condition of the [if] on the gradients output (lines 191-195). *)
Definition gradients_mismatch (in_activations : nat) : M bool :=
  let* og := get_out_gradients in
  match og with
  | None => ret true
  | Some g =>
      let* nd := PyArray_NDIM g in
      if negb (nd =? 3) then ret true else
      let* g0 := PyArray_DIMS g 0 in
      let* a0 := PyArray_DIMS in_activations 0 in
      if negb (g0 =? a0) then ret true else
      let* g1 := PyArray_DIMS g 1 in
      let* a1 := PyArray_DIMS in_activations 1 in
      if negb (g1 =? a1) then ret true else
      let* g2 := PyArray_DIMS g 2 in
      let* a2 := PyArray_DIMS in_activations 2 in
      ret (negb (g2 =? a2))
  end.

Definition data_of_handle (o : option nat) : M nat :=
  match o with
  | Some ob => PyArray_DATA ob
  | None => undefined
  end.

(** *** The entry point [APPLY_SPECIFIC(ctc_cost_cpu)]

    The body is one C function; it is cut here into its consecutive blocks,
    each named after what it does and given with its source lines.  A block
    that executes [return 1;] ends the whole call. *)

(** Lines 121-140: the contiguous view of the activations.  The result is
    the context (with its [activations_copy] field possibly set) and the
    data pointer [activations]. *)
Definition obtain_activations (in_activations : nat) (context : ctc_context_t)
    : M (ctc_context_t * nat) :=
  let* contiguous := PyArray_IS_C_CONTIGUOUS in_activations in
  if contiguous : bool then
    let* data := PyArray_DATA in_activations in
    ret (context, data)
  else
    let* copy := PyArray_GETCONTIGUOUS in_activations in
    let context := set_activations_copy copy context in
    match activations_copy context with
    | Some c =>
        let* data := PyArray_DATA c in
        ret (context, data)
    | None =>
        PyErr_Format PyExc_MemoryError
          "Could not create a contiguous copy of activations array." [] ;;;
        return_ 1
    end.

(** Lines 142-149: the owned copy of the input lengths. *)
Definition obtain_input_lengths (in_input_lengths : nat)
    (context : ctc_context_t) : M ctc_context_t :=
  let* il := create_contiguous_input_lengths in_input_lengths in
  let context := set_input_lengths il context in
  match input_lengths context with
  | None =>
      PyErr_Format PyExc_MemoryError
        "Could not allocate storage for input lengths" [] ;;;
      return_ 1
  | Some _ => ret context
  end.

(** Lines 151-162: the flattened labels and their lengths. *)
Definition obtain_labels (in_labels : nat) (context : ctc_context_t)
    : M ctc_context_t :=
  let* (fl, ll) :=
    create_flat_labels in_labels (flat_labels context) (label_lengths context) in
  let context := set_labels fl ll context in
  if bool_decide (label_lengths context = None)
     || bool_decide (flat_labels context = None) then
    ctc_context_destroy context ;;;
    PyErr_Format PyExc_MemoryError
      "Could not allocate storage for labels and their lengths" [] ;;;
    return_ 1
  else ret context.

(** Lines 167-189: the costs output; the result is the data pointer
    [costs]. *)
Definition prepare_costs (cost_size : Z) (context : ctc_context_t) : M nat :=
  let* mismatch := costs_mismatch cost_size in
  (if mismatch : bool then
     let* old := get_out_costs in
     Py_XDECREF old ;;;
     let* fresh := PyArray_ZEROS SCosts [cost_size] in
     put_out_costs fresh ;;;
     match fresh with
     | None =>
         ctc_context_destroy context ;;;
         PyErr_Format PyExc_MemoryError
           "Could not allocate storage for CTC costs" [] ;;;
         return_ 1
     | Some _ => ret ()
     end
   else ret ()) ;;;
  let* oc := get_out_costs in
  data_of_handle oc.

(** Lines 191-215: the gradients output; the result is the data pointer
    [gradients]. *)
Definition prepare_gradients (in_activations : nat) (context : ctc_context_t)
    : M nat :=
  let* mismatch := gradients_mismatch in_activations in
  (if mismatch : bool then
     let* old := get_out_gradients in
     Py_XDECREF old ;;;
     let* a0 := PyArray_DIMS in_activations 0 in
     let* a1 := PyArray_DIMS in_activations 1 in
     let* a2 := PyArray_DIMS in_activations 2 in
     let* fresh := PyArray_ZEROS SGradients [a0; a1; a2] in
     put_out_gradients fresh ;;;
     match fresh with
     | None =>
         ctc_context_destroy context ;;;
         PyErr_Format PyExc_MemoryError
           "Could not allocate storage for CTC gradients!" [] ;;;
         return_ 1
     | Some _ => ret ()
     end
   else ret ()) ;;;
  let* og := get_out_gradients in
  data_of_handle og.

(** Lines 217-251: the size query, the workspace, the computation and the
    final clean-up. *)
Definition query_and_compute (context_p : nat) (context : ctc_context_t)
    (activations gradients costs : nat) (alphabet_size minibatch_size : Z)
    : M Empty_set :=
  let* (status, cpu_workspace_size) :=
    call_get_workspace_size
      {| ws_label_lengths := label_lengths context;
         ws_input_lengths := input_lengths context;
         ws_alphabet_size := alphabet_size;
         ws_minibatch := minibatch_size;
         ws_options := options context |} in
  let* ctc_error :=
    ctc_check_result status "Failed to obtain CTC workspace size!" in
  if negb (ctc_error =? 0) then return_ 1 else
  let* ws := malloc SWorkspace cpu_workspace_size in
  let context := set_workspace ws context in
  match workspace context with
  | None =>
      ctc_context_destroy context ;;;
      PyErr_Format PyExc_MemoryError
        "Failed to allocate memory for CTC workspace!" [] ;;;
      return_ 1
  | Some _ =>
      let* status :=
        call_compute_ctc_loss
          {| ls_activations := activations;
             ls_gradients := gradients;
             ls_flat_labels := flat_labels context;
             ls_label_lengths := label_lengths context;
             ls_input_lengths := input_lengths context;
             ls_alphabet_size := alphabet_size;
             ls_minibatch := minibatch_size;
             ls_costs := costs;
             ls_workspace := workspace context;
             ls_options := options context |} in
      let* ctc_error :=
        ctc_check_result status "Failed to compute CTC loss function!" in
      if negb (ctc_error =? 0) then return_ 1 else
      ctc_context_destroy context ;;;
      free context_p ;;;
      return_ 0
  end.

(** Lines 112-252.  [malloc] of the context is not checked: when it fails,
    [ctc_context_init] writes through NULL. *)
Definition ctc_cost_cpu (in_activations in_labels in_input_lengths : nat)
    : M Empty_set :=
  let* context_p := malloc SContext sizeof_ctc_context_t in
  match context_p with
  | None => undefined
  | Some context_p =>
      let context := ctc_context_init (fresh_context env) in
      let* (context, activations) :=
        obtain_activations in_activations context in
      let* context := obtain_input_lengths in_input_lengths context in
      let* context := obtain_labels in_labels context in
      let* a1 := PyArray_DIMS in_activations 1 in
      let minibatch_size := to_int a1 in
      let* a2 := PyArray_DIMS in_activations 2 in
      let alphabet_size := to_int a2 in
      let cost_size := minibatch_size in
      let* costs := prepare_costs cost_size context in
      let* gradients := prepare_gradients in_activations context in
      query_and_compute context_p context activations gradients costs
        alphabet_size minibatch_size
  end.

(** A call of the entry point from state [s]: the returned code and the
    state it leaves, or [None] when the behaviour is undefined. *)
Definition run_ctc_cost_cpu (in_activations in_labels in_input_lengths : nat)
    (s : State) : option (Z * State) :=
  match ctc_cost_cpu in_activations in_labels in_input_lengths s with
  | Return rc s' => Some (rc, s')
  | _ => None
  end.

End Wrapper.

(** ** What the spec says the label flattening produces

    These definitions follow the words of the spec, not the code: the label
    matrix is a list of rows, an entry is padding exactly when it is
    negative, the flat labels are the non-padding entries of every row in
    order, and the length of a row is the number of its non-padding
    entries. *)

Definition is_padding (v : Z) : bool := v <? 0.
Definition row_labels (row : list Z) : list Z :=
  List.filter (λ v, negb (is_padding v)) row.
Definition matrix_rows (R C : nat) (elems : list Z) : list (list Z) :=
  (λ r, take C (drop (r * C) elems)) <$> seq 0 R.
Definition spec_flat_labels (m : list (list Z)) : list Z :=
  concat (row_labels <$> m).
Definition spec_label_lengths (m : list (list Z)) : list Z :=
  (λ row, Z.of_nat (length (row_labels row))) <$> m.

(** The blocks that hold them: [R * C] cells were requested for the flat
    labels, of which only the first ones are written. *)
Definition flat_block (R C : nat) (m : list (list Z)) : block :=
  mk_block SFlatLabels (4 * Z.of_nat (R * C))
    ((Some <$> spec_flat_labels m) ++
     replicate (R * C - length (spec_flat_labels m)) None).

Definition lengths_block (R : nat) (m : list (list Z)) : block :=
  mk_block SLabelLengths (4 * Z.of_nat R) (Some <$> spec_label_lengths m).

(** The block that [create_contiguous_input_lengths] fills: the first [N]
    elements of the array, in order. *)
Definition input_lengths_block (N : nat) (elems : list Z) : block :=
  mk_block SInputLengths (4 * Z.of_nat N) (Some <$> take N elems).

(** ** The states the clean-up steps lead to *)

(** After [free_if_set p]. *)
Definition freed (p : option nat) (s : State) : State :=
  match p with
  | Some a => log (EvFree a) (upd_heap (delete a) s)
  | None => s
  end.

(** What [Py_XDECREF] does to the store for a live object [a] at [ob]. *)
Definition drop_ref (ob : nat) (a : PyArrayObject)
    : gmap nat PyArrayObject → gmap nat PyArrayObject :=
  if (ob_refcnt a <=? 1)%nat then delete ob
  else <[ob := {| ob_refcnt := pred (ob_refcnt a); dims := dims a;
                  c_contiguous := c_contiguous a;
                  descr := descr a; items := items a |}]>.

(** After [Py_XDECREF(o)]. *)
Definition released (o : option nat) (s : State) : State :=
  match o with
  | None => s
  | Some ob =>
      match objs s !! ob with
      | Some a => log (EvDecref ob) (upd_objs (drop_ref ob a) s)
      | None => s
      end
  end.

(** After [ctc_context_destroy(context)]. *)
Definition destroyed (context : ctc_context_t) (s : State) : State :=
  released (activations_copy context)
    (freed (label_lengths context)
       (freed (flat_labels context)
          (freed (input_lengths context)
             (freed (workspace context) s)))).

(** After [PyErr_Format(exc, msg)] with a message without directives. *)
Definition raised (exc : PyExc) (msg : string) (s : State) : State :=
  log (EvErr exc msg) (set_err (exc, msg) s).

(** The buffers a context points to. *)
Definition buffers (context : ctc_context_t) : list nat :=
  omap id [workspace context; input_lengths context;
           flat_labels context; label_lengths context].

(** The events by which memory is given back. *)
Definition is_release (e : Event) : bool :=
  match e with
  | EvFree _ | EvDecref _ => true
  | _ => false
  end.

(** ** Well-formed calls

    What the generated operator guarantees about the arguments of the entry
    point: the three inputs are live arrays of the declared ranks, the label
    matrix and the input lengths have sizes that fit an [int], and an output
    array that is present is a live object of its own (neither the
    activations array nor the other output). *)

Definition live (s : State) (ob : nat) : bool :=
  match objs s !! ob with
  | Some _ => true
  | None => false
  end.

Definition activations_ok (a : PyArrayObject) : bool :=
  Nat.eqb (length (dims a)) 3.

Definition labels_ok (l : PyArrayObject) : bool :=
  match dims l with
  | [r; c] =>
      (0 <=? r) && (r <=? INT_MAX) && (0 <=? c) && (c <=? INT_MAX)
      && (r * c <=? INT_MAX) && (Z.of_nat (length (items l)) =? r * c)
  | _ => false
  end.

Definition lengths_ok (i : PyArrayObject) : bool :=
  match dims i with
  | [n] => (0 <=? n) && (n <=? INT_MAX) && (Z.of_nat (length (items i)) =? n)
  | _ => false
  end.

Definition handles_ok (in_activations : nat) (s : State) : bool :=
  match out_costs s with
  | None => true
  | Some c =>
      live s c && negb (Nat.eqb c in_activations)
      && match out_gradients s with
         | Some g => negb (Nat.eqb c g)
         | None => true
         end
  end
  && match out_gradients s with
     | None => true
     | Some g => live s g && negb (Nat.eqb g in_activations)
     end.

Definition call_ok (in_activations in_labels in_input_lengths : nat)
    (s : State) : bool :=
  match objs s !! in_activations, objs s !! in_labels,
        objs s !! in_input_lengths with
  | Some a, Some l, Some i =>
      activations_ok a && labels_ok l && lengths_ok i
      && handles_ok in_activations s
  | _, _, _ => false
  end.

(** The rows of a label matrix. *)
Definition label_rows (l : PyArrayObject) : list (list Z) :=
  match dims l with
  | [r; c] => matrix_rows (Z.to_nat r) (Z.to_nat c) (items l)
  | _ => []
  end.

(** ** Objects and blocks the wrapper creates *)

(** The context block as [malloc] returns it. *)
Definition ctx_block : block :=
  mk_block SContext sizeof_ctc_context_t
    (replicate (Z.to_nat (sizeof_ctc_context_t / sizeof_int)) None).

(** The contiguous copy of an array. *)
Definition copy_of (a : PyArrayObject) : PyArrayObject :=
  {| ob_refcnt := 1; dims := dims a; c_contiguous := true;
     descr := descr a; items := items a |}.

(** A new zero-filled float32 array. *)
Definition zeros (shape : list Z) : PyArrayObject :=
  {| ob_refcnt := 1; dims := shape; c_contiguous := true;
     descr := NPY_FLOAT32; items := replicate (Z.to_nat (product shape)) 0 |}.

(** ** The order of the stages

    Every request for memory and every call into the CTC library belongs to
    one stage of the entry point; the stages are numbered in the order of
    the source.  Releases and error reports belong to no stage (0). *)

Definition site_stage (site : Site) : nat :=
  match site with
  | SContext => 1
  | SActivationsCopy => 2
  | SInputLengths => 3
  | SFlatLabels => 4
  | SLabelLengths => 5
  | SCosts => 6
  | SGradients => 7
  | SWorkspace => 9
  end.

Definition event_stage (e : Event) : nat :=
  match e with
  | EvMalloc site _ _ => site_stage site
  | EvGetContiguous _ _ => site_stage SActivationsCopy
  | EvZeros site _ _ => site_stage site
  | EvGetWorkspaceSize _ _ => 8
  | EvComputeCtcLoss _ _ => 10
  | EvFree _ | EvDecref _ | EvErr _ _ => 0
  end.

(** ** The sizes handed to the library

    The batch size and the alphabet size are dimensions 1 and 2 of the
    activations, converted to [npy_int]. *)

Definition minibatch_of (a : PyArrayObject) : Z := to_int (default 0 (dims a !! 1%nat)).
Definition alphabet_of (a : PyArrayObject) : Z := to_int (default 0 (dims a !! 2%nat)).

(** An event carries the sizes [batch] and [alphabet]: a call into the
    library has them as its sizes, and a costs array is requested with
    length [batch]. *)
Definition event_sizes_ok (batch alphabet : Z) (e : Event) : Prop :=
  match e with
  | EvZeros SCosts shape _ => shape = [batch]
  | EvGetWorkspaceSize args _ =>
      ws_minibatch args = batch ∧ ws_alphabet_size args = alphabet
  | EvComputeCtcLoss args _ =>
      ls_minibatch args = batch ∧ ls_alphabet_size args = alphabet
  | _ => True
  end.

(** ** When the spec says an output array is reused

    The costs output is reused when it is present, 1-dimensional and as long
    as the batch; the gradients output when it is present, 3-dimensional and
    of the shape of the activations. *)

Definition costs_reusable (cost_size : Z) (s : State) : bool :=
  match out_costs s with
  | Some c =>
      match objs s !! c with
      | Some oc => bool_decide (dims oc = [cost_size])
      | None => false
      end
  | None => false
  end.

Definition gradients_reusable (a : PyArrayObject) (s : State) : bool :=
  match out_gradients s with
  | Some g =>
      match objs s !! g with
      | Some og => Nat.eqb (length (dims og)) 3 && bool_decide (dims og = dims a)
      | None => false
      end
  | None => false
  end.

(** The states the two output blocks lead to when they replace the array:
    the old reference is dropped, then the new array is installed. *)
Definition costs_replaced (cost_size : Z) (s : State) : State :=
  let s1 := released (out_costs s) s in
  let z := fresh_key (objs s1) in
  set_out_costs (Some z)
    (log (EvZeros SCosts [cost_size] (Some z))
       (upd_objs <[z := zeros [cost_size]]> s1)).

Definition gradients_replaced (shape : list Z) (s : State) : State :=
  let s1 := released (out_gradients s) s in
  let z := fresh_key (objs s1) in
  set_out_gradients (Some z)
    (log (EvZeros SGradients shape (Some z))
       (upd_objs <[z := zeros shape]> s1)).

(** ... and when the new array cannot be allocated (before the clean-up). *)
Definition costs_lost (cost_size : Z) (s : State) : State :=
  set_out_costs None
    (log (EvZeros SCosts [cost_size] None) (released (out_costs s) s)).

Definition gradients_lost (shape : list Z) (s : State) : State :=
  set_out_gradients None
    (log (EvZeros SGradients shape None) (released (out_gradients s) s)).

(** ** The calls into the library, as the entry point makes them *)

Definition ws_args (context : ctc_context_t) (alphabet_size minibatch_size : Z)
    : WsArgs :=
  {| ws_label_lengths := label_lengths context;
     ws_input_lengths := input_lengths context;
     ws_alphabet_size := alphabet_size;
     ws_minibatch := minibatch_size;
     ws_options := options context |}.

Definition loss_args (context : ctc_context_t) (activations gradients costs : nat)
    (alphabet_size minibatch_size : Z) : LossArgs :=
  {| ls_activations := activations;
     ls_gradients := gradients;
     ls_flat_labels := flat_labels context;
     ls_label_lengths := label_lengths context;
     ls_input_lengths := input_lengths context;
     ls_alphabet_size := alphabet_size;
     ls_minibatch := minibatch_size;
     ls_costs := costs;
     ls_workspace := workspace context;
     ls_options := options context |}.

(** The message of [ctc_check_result] for a stage message and a status. *)
Definition library_error (env : Env) (msg : string) (status : ctcStatus_t)
    : string :=
  String.append msg
    (String.append " | CTC library error message: "
       (ctcGetStatusString env status)).

(** The state after the size query, and after the workspace was obtained. *)
Definition queried (env : Env) (context : ctc_context_t)
    (alphabet_size minibatch_size : Z) (s : State) : State :=
  log (EvGetWorkspaceSize (ws_args context alphabet_size minibatch_size)
         (get_workspace_size env (heap s)
            (ws_args context alphabet_size minibatch_size)).1) s.

Definition workspace_size (env : Env) (context : ctc_context_t)
    (alphabet_size minibatch_size : Z) (s : State) : Z :=
  to_size_t (get_workspace_size env (heap s)
               (ws_args context alphabet_size minibatch_size)).2.

(** The state once the workspace is allocated (line 228), the arguments of
    the computation, its status, and the state after it (line 240). *)
Definition with_workspace (env : Env) (context : ctc_context_t)
    (alphabet_size minibatch_size : Z) (s : State) : State :=
  let size := workspace_size env context alphabet_size minibatch_size s in
  let ws := fresh_key (heap s) in
  log (EvMalloc SWorkspace size (Some ws))
    (upd_heap
       <[ws := mk_block SWorkspace size
                 (replicate (Z.to_nat (size / sizeof_int)) None)]>
       (queried env context alphabet_size minibatch_size s)).

Definition compute_args (context : ctc_context_t)
    (activations gradients costs : nat) (alphabet_size minibatch_size : Z)
    (s : State) : LossArgs :=
  loss_args (set_workspace (Some (fresh_key (heap s))) context)
    activations gradients costs alphabet_size minibatch_size.

Definition compute_status (env : Env) (context : ctc_context_t)
    (activations gradients costs : nat) (alphabet_size minibatch_size : Z)
    (s : State) : ctcStatus_t :=
  compute_ctc_loss env
    (heap (with_workspace env context alphabet_size minibatch_size s))
    (compute_args context activations gradients costs
       alphabet_size minibatch_size s).

(** The state after the library wrote its outputs for the call [args]. *)
Definition written (env : Env) (args : LossArgs) (s : State) : State :=
  upd_objs
    (λ m, write_items (ls_gradients args)
            (ctc_outputs env (heap s) (objs s) args).2
            (write_items (ls_costs args)
               (ctc_outputs env (heap s) (objs s) args).1 m)) s.

Definition computed (env : Env) (context : ctc_context_t)
    (activations gradients costs : nat) (alphabet_size minibatch_size : Z)
    (s : State) : State :=
  log (EvComputeCtcLoss
         (compute_args context activations gradients costs
            alphabet_size minibatch_size s)
         (compute_status env context activations gradients costs
            alphabet_size minibatch_size s))
    (written env
       (compute_args context activations gradients costs
          alphabet_size minibatch_size s)
       (with_workspace env context alphabet_size minibatch_size s)).

(** ** The rest of the entry point from a given block on

    [entry_from_X] is the body of the entry point from block [X] to its
    end; the entry point itself is the allocation of the context followed
    by [entry_from_activations] (lemma [ctc_cost_cpu_eq]). *)

Section Rest.

Variable env : Env.
Variables (context_p in_activations in_labels in_input_lengths : nat).

Definition entry_from_gradients (context : ctc_context_t)
    (activations costs : nat) (alphabet_size minibatch_size : Z)
    : M Empty_set :=
  let* gradients := prepare_gradients env in_activations context in
  query_and_compute env context_p context activations gradients costs
    alphabet_size minibatch_size.

Definition entry_from_costs (context : ctc_context_t) (activations : nat)
    : M Empty_set :=
  let* a1 := PyArray_DIMS in_activations 1 in
  let minibatch_size := to_int a1 in
  let* a2 := PyArray_DIMS in_activations 2 in
  let alphabet_size := to_int a2 in
  let cost_size := minibatch_size in
  let* costs := prepare_costs env cost_size context in
  entry_from_gradients context activations costs alphabet_size minibatch_size.

Definition entry_from_labels (context : ctc_context_t) (activations : nat)
    : M Empty_set :=
  let* context := obtain_labels env in_labels context in
  entry_from_costs context activations.

Definition entry_from_input_lengths (context : ctc_context_t)
    (activations : nat) : M Empty_set :=
  let* context := obtain_input_lengths env in_input_lengths context in
  entry_from_labels context activations.

Definition entry_from_activations : M Empty_set :=
  let context := ctc_context_init (fresh_context env) in
  let* (context, activations) := obtain_activations env in_activations context in
  entry_from_input_lengths context activations.

End Rest.

(** ** Which allocations a call attempts

    Every site is attempted when the call gets that far, except the copy
    of the activations (only for an array that is not contiguous) and the
    two output arrays (only when the array provided cannot be reused). *)

Definition attempted (a : PyArrayObject) (s : State) (site : Site) : bool :=
  match site with
  | SActivationsCopy => negb (c_contiguous a)
  | SCosts => negb (costs_reusable (minibatch_of a) s)
  | SGradients => negb (gradients_reusable a s)
  | _ => true
  end.

Definition all_sites : list Site :=
  [SContext; SActivationsCopy; SInputLengths; SFlatLabels; SLabelLengths;
   SCosts; SGradients; SWorkspace].

(** Every allocation attempted before stage [k] succeeds. *)
Definition allocations_ok (env : Env) (a : PyArrayObject) (s : State)
    (k : nat) : bool :=
  forallb (λ site,
     implb (Nat.ltb (site_stage site) k && attempted a s site)
           (alloc_ok env site))
    all_sites.

(** ** The invariant of the entry point

    [Inv s0 in_act a ctx_p context k s] holds between two blocks of the
    entry point: [s0] is the state at the call, [a] the activations array at
    [in_act], [ctx_p] the context block, [context] the current value of the
    context and [k] the stage about to run.  It says that the activations
    are untouched, that the heap is the heap of the call plus the context
    block and the buffers of the context, that the copy of the activations
    (if any) is owned by the context alone, that the output handles point
    to live arrays, and that every event so far belongs to a stage before
    [k] and carries the sizes of the activations. *)

Record Inv (s0 : State) (in_act : nat) (a : PyArrayObject) (ctx_p : nat)
    (context : ctc_context_t) (k : nat) (s : State) : Prop := mk_Inv {
  inv_act : objs s !! in_act = Some a;
  inv_ctx0 : heap s0 !! ctx_p = None;
  inv_ctx : heap s !! ctx_p = Some ctx_block;
  inv_nodup : NoDup (buffers context);
  inv_live : ∀ p, p ∈ buffers context →
             is_Some (heap s !! p) ∧ heap s0 !! p = None ∧ p ≠ ctx_p;
  inv_frame : ∀ p, p ∉ buffers context → p ≠ ctx_p → heap s !! p = heap s0 !! p;
  inv_copy : ∀ c, activations_copy context = Some c →
             objs s !! c = Some (copy_of a) ∧ c ≠ in_act ∧
             out_costs s ≠ Some c ∧ out_gradients s ≠ Some c;
  inv_costs : ∀ x, out_costs s = Some x →
              is_Some (objs s !! x) ∧ x ≠ in_act ∧ out_gradients s ≠ Some x;
  inv_grads : ∀ x, out_gradients s = Some x →
              is_Some (objs s !! x) ∧ x ≠ in_act;
  inv_err : err s = err s0;
  inv_trace : ∃ evs, trace s = trace s0 ++ evs ∧
              Forall (λ e, (event_stage e < k)%nat) evs ∧
              Forall (event_sizes_ok (minibatch_of a) (alphabet_of a)) evs
}.

(** ** The course of a call

    The context in the course of the call: its options are whatever the
    fresh block contained, its buffers are set one after the other. *)
Definition context_at (env : Env) (copy il fl ll ws : option nat)
    : ctc_context_t :=
  mk_context (options (fresh_context env)) ws il fl ll copy.

(** What every block up to the costs output leaves in place: the invariant,
    the arrays of the caller and the two output handles. *)
Record Reached (s0 : State) (in_act : nat) (a : PyArrayObject)
    (context : ctc_context_t) (k : nat) (s : State) : Prop := mk_Reached {
  reached_inv : Inv s0 in_act a (fresh_key (heap s0)) context k s;
  reached_objs : ∀ y v, objs s0 !! y = Some v → objs s !! y = Some v;
  reached_costs : out_costs s = out_costs s0;
  reached_gradients : out_gradients s = out_gradients s0
}.

(** ** How an allocation failure shows

    The message of the out-of-memory error for each site, the events that
    are a failed attempt at a site, and what a call that ends on such a
    failure leaves: the error, and a trace in which the failed attempt is
    preceded by events of earlier stages only and followed by releases and
    by the error report only. *)

Definition oom_message (site : Site) : string :=
  match site with
  | SContext => ""
  | SActivationsCopy => "Could not create a contiguous copy of activations array."
  | SInputLengths => "Could not allocate storage for input lengths"
  | SFlatLabels | SLabelLengths =>
      "Could not allocate storage for labels and their lengths"
  | SCosts => "Could not allocate storage for CTC costs"
  | SGradients => "Could not allocate storage for CTC gradients!"
  | SWorkspace => "Failed to allocate memory for CTC workspace!"
  end.

Definition failed_attempt (site : Site) (e : Event) : bool :=
  match e with
  | EvMalloc st _ None => bool_decide (st = site)
  | EvGetContiguous _ None => bool_decide (site = SActivationsCopy)
  | EvZeros st _ None => bool_decide (st = site)
  | _ => false
  end.

Record OomExit (s0 : State) (a : PyArrayObject) (site : Site) (s' : State)
    : Prop := mk_OomExit {
  oom_err : err s' = Some (PyExc_MemoryError, oom_message site);
  oom_trace :
    ∃ pre fail rel,
      trace s' = trace s0 ++ pre ++ [fail] ++ rel
                   ++ [EvErr PyExc_MemoryError (oom_message site)] ∧
      failed_attempt site fail = true ∧
      Forall (λ e, (event_stage e < site_stage site)%nat) pre ∧
      Forall (event_sizes_ok (minibatch_of a) (alphabet_of a)) (pre ++ [fail]) ∧
      Forall (λ e, is_release e = true) rel
}.

(** The clean-up has run: of the blocks of the call only the context is
    left, and the copy of the activations (made when they are not
    contiguous, as the next object of the store) is gone. *)
Definition cleaned_up (s0 : State) (a : PyArrayObject) (s' : State) : Prop :=
  heap s' = <[fresh_key (heap s0) := ctx_block]> (heap s0) ∧
  (c_contiguous a = false → objs s' !! fresh_key (objs s0) = None).

(** ** How a failure of the library shows, and how a success does

    [LibraryExit] is what a call leaves that ends on a non-success status
    of the library call recorded by the event [e]; [Succeeded] is what a
    call leaves that returns 0. *)

Record LibraryExit (env : Env) (s0 : State) (a : PyArrayObject)
    (msg : string) (status : ctcStatus_t) (e : Event) (s' : State)
    : Prop := mk_LibraryExit {
  lib_err : err s' = Some (PyExc_RuntimeError, library_error env msg status);
  lib_trace :
    ∃ pre,
      trace s' = trace s0 ++ pre
                   ++ [e; EvErr PyExc_RuntimeError (library_error env msg status)] ∧
      Forall (λ x, (event_stage x < event_stage e)%nat) pre ∧
      Forall (event_sizes_ok (minibatch_of a) (alphabet_of a)) (pre ++ [e]);
  (* no clean-up has run: the context block and its buffers are still there *)
  lib_context : heap s' !! fresh_key (heap s0) = Some ctx_block;
  lib_copy : c_contiguous a = false →
             objs s' !! fresh_key (objs s0) = Some (copy_of a)
}.

Record Succeeded (s0 : State) (a : PyArrayObject) (s' : State) : Prop := mk_Succeeded {
  ok_heap : heap s' = heap s0;
  ok_copy : c_contiguous a = false → objs s' !! fresh_key (objs s0) = None;
  ok_err : err s' = err s0;
  ok_costs : costs_reusable (minibatch_of a) s' = true;
  ok_gradients : gradients_reusable a s' = true;
  ok_trace : ∃ evs, trace s' = trace s0 ++ evs ∧
             Forall (event_sizes_ok (minibatch_of a) (alphabet_of a)) evs
}.

(** The arguments of the computation are those of this call: the sizes of
    the activations, the options of the context, the data of the
    activations (or of their copy) and of the two output arrays. *)
Definition loss_args_of_call (env : Env) (s0 : State) (in_act : nat)
    (a : PyArrayObject) (args : LossArgs) (s' : State) : Prop :=
  ls_minibatch args = minibatch_of a ∧
  ls_alphabet_size args = alphabet_of a ∧
  ls_options args = options (fresh_context env) ∧
  ls_activations args =
    (if c_contiguous a then in_act else fresh_key (objs s0)) ∧
  out_costs s' = Some (ls_costs args) ∧
  out_gradients s' = Some (ls_gradients args).

(** ** A sample call

    Activations of shape [2, 2, 3] that are not contiguous, the label matrix
    of the spec's example (rows [3, 5, -1, -1] and [-1, -1, -1, -1]), two
    input lengths, and no output array yet.  The fresh context block holds
    left-over bytes. *)

Definition sample_activations : PyArrayObject :=
  {| ob_refcnt := 1; dims := [2; 2; 3]; c_contiguous := false;
     descr := NPY_FLOAT32; items := [1; 2; 3; 4; 5; 6; 7; 8; 9; 10; 11; 12] |}.

Definition sample_labels : PyArrayObject :=
  {| ob_refcnt := 1; dims := [2; 4]; c_contiguous := true;
     descr := NPY_INT32; items := [3; 5; -1; -1; -1; -1; -1; -1] |}.

Definition sample_lengths : PyArrayObject :=
  {| ob_refcnt := 1; dims := [2]; c_contiguous := true;
     descr := NPY_INT32; items := [2; 2] |}.

Definition sample_state : State :=
  {| heap := ∅;
     objs := <[0%nat := sample_activations]>
               (<[1%nat := sample_labels]> (<[2%nat := sample_lengths]> ∅));
     out_costs := None; out_gradients := None; err := None; trace := [] |}.

Definition leftover_context : ctc_context_t :=
  {| options := {| loc := CTC_GPU; num_threads := 8; blank_label := 77 |};
     workspace := Some 99%nat; input_lengths := Some 98%nat;
     flat_labels := None; label_lengths := Some 97%nat;
     activations_copy := None |}.

Definition status_text (status : ctcStatus_t) : string :=
  match status with
  | CTC_STATUS_SUCCESS => "no error"
  | CTC_STATUS_MEMOPS_FAILED => "cuda memcpy or memset failed"
  | CTC_STATUS_INVALID_VALUE => "invalid value"
  | CTC_STATUS_EXECUTION_FAILED => "execution failed"
  | CTC_STATUS_UNKNOWN_ERROR => "unknown error"
  end.

(** An environment in which the allocations at [failing] fail, the size
    query answers [query] with a workspace of 64 bytes, and the computation
    answers [compute] after writing 1 to every cost and 2 to every
    gradient. *)
Definition sample_env (failing : list Site) (query compute : ctcStatus_t) : Env :=
  {| alloc_ok := λ site, bool_decide (site ∉ failing);
     fresh_context := leftover_context;
     get_workspace_size := λ _ _, (query, 64);
     compute_ctc_loss := λ _ _, compute;
     ctc_outputs := λ _ _ _, (replicate 64 1, replicate 64 2);
     ctcGetStatusString := status_text |}.

(** ** Atomic outputs of the label flattening

    What it means for the two output pointers of [create_flat_labels] to be
    set together: from state [s] to state [s'] either both are new live
    blocks, or both are NULL. *)
Definition outputs_atomic (r : option nat * option nat) (s s' : State) : Prop :=
  (∃ fl ll, r = (Some fl, Some ll) ∧ fl ≠ ll ∧
            heap s !! fl = None ∧ heap s !! ll = None ∧
            is_Some (heap s' !! fl) ∧ is_Some (heap s' !! ll))
  ∨ r = (None, None).

(** ** The answers of the library in a trace

    For a call into the library, the message of its stage (lines 223 and
    243) and the status the library answered; [None] for every other
    event. *)
Definition library_answer (e : Event) : option (string * ctcStatus_t) :=
  match e with
  | EvGetWorkspaceSize _ status =>
      Some ("Failed to obtain CTC workspace size!", status)
  | EvComputeCtcLoss _ status =>
      Some ("Failed to compute CTC loss function!", status)
  | _ => None
  end.

(** What follows the size query in the trace of a call that ends with
    return code [rc] in state [s'], by the status of the query, the
    allocation of the workspace and the status of the computation. *)
Definition after_query (env : Env) (rc : Z) (s' : State)
    (status : ctcStatus_t) (post : list Event) : Prop :=
  (status ≠ CTC_STATUS_SUCCESS ∧ rc = 1 ∧
   err s' = Some (PyExc_RuntimeError,
                  library_error env "Failed to obtain CTC workspace size!" status) ∧
   post = [EvErr PyExc_RuntimeError
             (library_error env "Failed to obtain CTC workspace size!" status)])
  ∨ (status = CTC_STATUS_SUCCESS ∧ alloc_ok env SWorkspace = false ∧ rc = 1 ∧
     Forall (λ e, library_answer e = None) post)
  ∨ (status = CTC_STATUS_SUCCESS ∧ alloc_ok env SWorkspace = true ∧
     ∃ h' largs size ws post',
       post = EvMalloc SWorkspace size (Some ws)
                :: EvComputeCtcLoss largs (compute_ctc_loss env h' largs) :: post' ∧
       Forall (λ e, library_answer e = None) post' ∧
       ls_options largs = options (fresh_context env) ∧
       (compute_ctc_loss env h' largs ≠ CTC_STATUS_SUCCESS →
        rc = 1 ∧
        err s' = Some (PyExc_RuntimeError,
                       library_error env "Failed to compute CTC loss function!"
                         (compute_ctc_loss env h' largs))) ∧
       (compute_ctc_loss env h' largs = CTC_STATUS_SUCCESS → rc = 0)).

(** A call whose label matrix has three rows and whose input lengths are
    five, for activations with a batch of two. *)
Definition tall_labels : PyArrayObject :=
  {| ob_refcnt := 1; dims := [3; 2]; c_contiguous := true;
     descr := NPY_INT32; items := [1; -1; 2; 2; -1; -1] |}.

Definition long_lengths : PyArrayObject :=
  {| ob_refcnt := 1; dims := [5]; c_contiguous := true;
     descr := NPY_INT32; items := [2; 2; 1; 1; 2] |}.

Definition mismatched_state : State :=
  {| heap := ∅;
     objs := <[0%nat := sample_activations]>
               (<[1%nat := tall_labels]> (<[2%nat := long_lengths]> ∅));
     out_costs := None; out_gradients := None; err := None; trace := [] |}.

(** ** A context with buffers

    A state with two blocks on the heap and a context that owns them and
    the activations array of the sample call, to try the clean-up on. *)
Definition owning_state : State :=
  upd_heap (λ h, <[5%nat := mk_block SWorkspace 8 [None; None]]>
                   (<[6%nat := mk_block SFlatLabels 4 [Some 1]]> h))
    sample_state.

Definition owning_context : ctc_context_t :=
  {| options := zeroed_options;
     workspace := Some 5%nat; input_lengths := None;
     flat_labels := Some 6%nat; label_lengths := None;
     activations_copy := Some 0%nat |}.

(** ** What the call keeps and what it has marshalled

    [marshalled l i context h]: in the heap [h], the buffers of the context
    that are set hold what was made of the label matrix [l] and of the
    input lengths [i].  [inputs_kept a s0 s]: every array of the caller,
    except an output array that cannot be reused, is in [s] as it was in
    [s0]; this holds until the computation writes its results.
    [handles_kept a s0 s]: an output handle whose array can be reused is in
    [s] as it was in [s0].  [handles_apart s0 s]: an array of the caller
    that was not an output array in [s0] is not one in [s].
    [same_array v v']: [v'] is [v] up to the values of its elements, which
    is what the library may change of an output array.
    [arrays_kept a s0 s]: every array of the caller, except an output array
    that cannot be reused, is in [s] the same array up to its elements, and
    exactly as it was in [s0] when it is not an output array. *)
Definition marshalled (l i : PyArrayObject) (context : ctc_context_t)
    (h : gmap nat block) : Prop :=
  (∀ p, input_lengths context = Some p →
        b_cells <$> h !! p = Some (Some <$> items i)) ∧
  (∀ p, flat_labels context = Some p →
        b_cells <$> h !! p =
          Some ((Some <$> spec_flat_labels (label_rows l)) ++
                replicate (length (items l)
                           - length (spec_flat_labels (label_rows l))) None)) ∧
  (∀ p, label_lengths context = Some p →
        b_cells <$> h !! p = Some (Some <$> spec_label_lengths (label_rows l))).

Definition inputs_kept (a : PyArrayObject) (s0 s : State) : Prop :=
  ∀ y v, objs s0 !! y = Some v →
         (out_costs s0 = Some y → costs_reusable (minibatch_of a) s0 = true) →
         (out_gradients s0 = Some y → gradients_reusable a s0 = true) →
         objs s !! y = Some v.

Definition handles_kept (a : PyArrayObject) (s0 s : State) : Prop :=
  (costs_reusable (minibatch_of a) s0 = true → out_costs s = out_costs s0) ∧
  (gradients_reusable a s0 = true → out_gradients s = out_gradients s0).

Definition handles_apart (s0 s : State) : Prop :=
  ∀ y, is_Some (objs s0 !! y) →
       out_costs s0 ≠ Some y → out_gradients s0 ≠ Some y →
       out_costs s ≠ Some y ∧ out_gradients s ≠ Some y.

Definition same_array (v v' : PyArrayObject) : Prop :=
  ob_refcnt v' = ob_refcnt v ∧ dims v' = dims v ∧
  c_contiguous v' = c_contiguous v ∧ descr v' = descr v ∧
  length (items v') = length (items v).

Definition arrays_kept (a : PyArrayObject) (s0 s : State) : Prop :=
  ∀ y v, objs s0 !! y = Some v →
         (out_costs s0 = Some y → costs_reusable (minibatch_of a) s0 = true) →
         (out_gradients s0 = Some y → gradients_reusable a s0 = true) →
         ∃ v', objs s !! y = Some v' ∧ same_array v v' ∧
               (out_costs s0 ≠ Some y → out_gradients s0 ≠ Some y → v' = v).

(** ** The state a call leaves

    The three ways the entry point builds its final state from the state
    [s] it was in, with context [context]: an error raised without the
    clean-up (lines 138, 148, 226 and 246), an error raised after
    [ctc_context_destroy] (lines 157-161, 181-185, 207-211 and 233-237), or
    the clean-up followed by [free(context)] (lines 248-251). *)
Definition exit_state (ctx_p : nat) (context : ctc_context_t) (s : State)
    (rc : Z) (s' : State) : Prop :=
  (rc = 1 ∧ ∃ exc msg, s' = raised exc msg s)
  ∨ (rc = 1 ∧ ∃ exc msg, s' = raised exc msg (destroyed context s))
  ∨ (rc = 0 ∧
     s' = log (EvFree ctx_p) (upd_heap (delete ctx_p) (destroyed context s))).

(** A call from [s0] ends in such a state, built from a state in which the
    invariant holds, the arrays of the caller are kept and, once the costs
    block is passed, the costs output has the length of the batch. *)
Definition ends_as (env : Env) (s0 : State) (in_act in_lab in_il : nat)
    (a : PyArrayObject) : Prop :=
  ∃ rc s' context k s,
    run_ctc_cost_cpu env in_act in_lab in_il s0 = Some (rc, s') ∧
    Inv s0 in_act a (fresh_key (heap s0)) context k s ∧
    arrays_kept a s0 s ∧
    handles_kept a s0 s ∧
    (∀ c, activations_copy context = Some c → c = fresh_key (objs s0)) ∧
    (allocations_ok env a s0 7 = true →
     costs_reusable (minibatch_of a) s = true) ∧
    exit_state (fresh_key (heap s0)) context s rc s'.

(** The sample call with both output arrays already there, of the
    required shapes. *)
Definition ready_state : State :=
  set_out_gradients (Some 4%nat)
    (set_out_costs (Some 3%nat)
       (upd_objs (λ m, <[4%nat := zeros [2; 2; 3]]> (<[3%nat := zeros [2]]> m))
          sample_state)).

(** The sample call with a costs array of the wrong length that someone
    else holds too (two references). *)
Definition shared_costs : PyArrayObject :=
  {| ob_refcnt := 2; dims := [7]; c_contiguous := true;
     descr := NPY_FLOAT32; items := [0; 0; 0; 0; 0; 0; 0] |}.

Definition stale_state : State :=
  set_out_costs (Some 3%nat) (upd_objs <[3%nat := shared_costs]> sample_state).

(** * Properties *)

(** ** Fresh identifiers *)

Lemma fresh_key_above {V} (m : gmap nat V) (k : nat) (v : V) :
  m !! k = Some v → (k < fresh_key m)%nat.
Proof.
  unfold fresh_key. revert k v.
  apply (map_fold_weak_ind (λ r (m : gmap nat V), ∀ k v, m !! k = Some v → (k < r)%nat)).
  - intros k v H. rewrite lookup_empty in H. discriminate.
  - intros i x m' r Hi IH k v H.
    rewrite lookup_insert in H. case_decide.
    + subst. lia.
    + specialize (IH k v H). lia.
Qed.

Lemma fresh_key_lookup {V} (m : gmap nat V) : m !! fresh_key m = None.
Proof.
  destruct (m !! fresh_key m) eqn:E; [|done].
  apply fresh_key_above in E. lia.
Qed.

(** ** Steps of the monad and of the primitives *)

Lemma upd_heap_insert_insert p b1 b2 s :
  upd_heap <[p:=b2]> (upd_heap <[p:=b1]> s) = upd_heap <[p:=b2]> s.
Proof. unfold upd_heap; simpl. by rewrite insert_insert_eq. Qed.

Lemma upd_heap_insert_id p b s :
  heap s !! p = Some b → upd_heap <[p:=b]> s = s.
Proof. intros H. destruct s; unfold upd_heap; simpl in *. by rewrite insert_id. Qed.

Lemma bind_Next {A B} (m : M A) (k : A → M B) s a s' :
  m s = Next a s' → bind m k s = k a s'.
Proof. unfold bind. by intros ->. Qed.

Lemma bind_Return {A B} (m : M A) (k : A → M B) s rc s' :
  m s = Return rc s' → bind m k s = Return rc s'.
Proof. unfold bind. by intros ->. Qed.

Lemma deref_ok ob a s : objs s !! ob = Some a → deref ob s = Next a s.
Proof. unfold deref. by intros ->. Qed.

Lemma PyArray_DIMS_ok ob a i d s :
  objs s !! ob = Some a → dims a !! i = Some d → PyArray_DIMS ob i s = Next d s.
Proof.
  intros Ho Hd. unfold PyArray_DIMS. rewrite (bind_Next _ _ _ _ _ (deref_ok _ _ _ Ho)).
  by rewrite Hd.
Qed.

Lemma PyArray_GETPTR2_ok ob a d0 d1 i j v s :
  objs s !! ob = Some a → dims a = [d0; d1] →
  0 ≤ i < d0 → 0 ≤ j < d1 →
  items a !! Z.to_nat (i * d1 + j) = Some v →
  PyArray_GETPTR2 ob i j s = Next v s.
Proof.
  intros Ho Hd Hi Hj Hv. unfold PyArray_GETPTR2.
  rewrite (bind_Next _ _ _ _ _ (deref_ok _ _ _ Ho)), Hd.
  replace ((0 <=? i) && (i <? d0) && (0 <=? j) && (j <? d1)) with true.
  - by rewrite Hv.
  - symmetry. repeat (apply andb_true_intro; split); lia.
Qed.

Lemma write_int_ok p st sz cells idx v s :
  heap s !! p = Some (mk_block st sz cells) →
  0 ≤ idx < Z.of_nat (length cells) →
  write_int (Some p) idx v s =
    Next () (upd_heap <[p := mk_block st sz (<[Z.to_nat idx := Some v]> cells)]> s).
Proof.
  intros Hp Hi. unfold write_int. rewrite Hp. simpl.
  replace ((0 <=? idx) && (idx <? Z.of_nat (length cells))) with true; [done|].
  symmetry. apply andb_true_intro; split; lia.
Qed.

Lemma row_labels_cons v l :
  row_labels (v :: l) = if 0 <=? v then v :: row_labels l else row_labels l.
Proof.
  unfold row_labels, is_padding. simpl.
  destruct (0 <=? v) eqn:E.
  - by replace (v <? 0) with false by lia.
  - by replace (v <? 0) with true by lia.
Qed.

Lemma spec_flat_labels_cons row rest :
  spec_flat_labels (row :: rest) = row_labels row ++ spec_flat_labels rest.
Proof. reflexivity. Qed.

Lemma spec_label_lengths_cons row rest :
  spec_label_lengths (row :: rest) =
  Z.of_nat (length (row_labels row)) :: spec_label_lengths rest.
Proof. reflexivity. Qed.

Section FlatLabels.
Variables (lm fl : nat) (a : PyArrayObject) (R C : nat).
Hypothesis Hdims : dims a = [Z.of_nat R; Z.of_nat C].
Hypothesis Hlen : length (items a) = (R * C)%nat.

Lemma col_loop (r : nat) (n : nat) :
  ∀ (c : nat) (pre : list Z) (k : nat) (len : Z) (s : State) st sz,
  objs s !! lm = Some a → (r < R)%nat → (c + n ≤ C)%nat → (n ≤ k)%nat →
  heap s !! fl = Some (mk_block st sz ((Some <$> pre) ++ replicate k None)) →
  for_loop n (Z.of_nat c) (flat_labels_col_body lm (Some fl) (Z.of_nat r))
    (Z.of_nat (length pre), len) s
  = let new := row_labels (take n (drop (r * C + c) (items a))) in
    Next (Z.of_nat (length (pre ++ new)), len + Z.of_nat (length new))
      (upd_heap <[fl := mk_block st sz
                   ((Some <$> (pre ++ new)) ++ replicate (k - length new) None)]> s).
Proof.
  induction n as [|n IH]; intros c pre k len s st sz Ho Hr Hc Hk Hfl.
  - simpl. rewrite app_nil_r, Nat.sub_0_r, Z.add_0_r.
    by rewrite upd_heap_insert_id.
  - assert (Hidx : (r * C + c < length (items a))%nat) by nia.
    destruct (lookup_lt_is_Some_2 _ _ Hidx) as [v Hv].
    rewrite (drop_S _ _ _ Hv). rewrite firstn_cons.
    cbn [for_loop]. unfold flat_labels_col_body at 1.
    unfold bind at 1. unfold bind at 1.
    rewrite (PyArray_GETPTR2_ok lm a (Z.of_nat R) (Z.of_nat C) _ _ v); try done; try lia;
      last by replace (Z.to_nat (Z.of_nat r * Z.of_nat C + Z.of_nat c)) with (r * C + c)%nat by lia.
    cbv beta iota. cbn zeta. rewrite row_labels_cons.
    replace (Z.of_nat c + 1) with (Z.of_nat (S c)) by lia.
    set (new := row_labels (take n (drop (S (r * C + c)) (items a)))) in *.
    destruct (0 <=? v) eqn:Ev.
    + destruct k as [|k]; [lia|].
      unfold bind at 1.
      erewrite write_int_ok; [|exact Hfl|rewrite length_app, length_fmap, length_replicate; lia].
      cbv beta iota. unfold ret at 1.
      replace (Z.of_nat (length pre) + 1) with (Z.of_nat (length (pre ++ [v])))
        by (rewrite length_app; simpl; lia).
      rewrite (IH (S c) (pre ++ [v]) k (len + 1) _ st sz); try lia; try done.
      * cbn zeta. replace (r * C + S c)%nat with (S (r * C + c)) by lia.
        fold new. rewrite upd_heap_insert_insert.
        rewrite <- app_assoc. cbn [app length].
        f_equal. f_equal. lia.
      * simpl. rewrite lookup_insert_eq. do 2 f_equal.
        rewrite Nat2Z.id.
        replace (length pre) with (length (Some <$> pre) + 0)%nat at 1
          by (rewrite length_fmap; lia).
        rewrite insert_app_r. simpl. rewrite fmap_app. simpl. by rewrite <- app_assoc.
    + unfold ret at 1.
      rewrite (IH (S c) pre k len _ st sz); try lia; try done.
      cbn zeta. by replace (r * C + S c)%nat with (S (r * C + c)) by lia.
Qed.

Lemma row_labels_length l : (length (row_labels l) ≤ length l)%nat.
Proof.
  induction l as [|v l IH]; [done|].
  rewrite row_labels_cons. destruct (0 <=? v); simpl; lia.
Qed.

Lemma matrix_rows_lookup (r : nat) :
  (r < R)%nat → matrix_rows R C (items a) !! r = Some (take C (drop (r * C) (items a))).
Proof.
  intros Hr. unfold matrix_rows. rewrite list_lookup_fmap.
  rewrite lookup_seq_lt by done. done.
Qed.

Variable ll : nat.
Hypothesis Hne : fl ≠ ll.

Lemma inserts_absorb (h : gmap nat block) b1 b2 B1 B2 :
  <[ll:=B2]> (<[fl:=B1]> (<[ll:=b2]> (<[fl:=b1]> h))) = <[ll:=B2]> (<[fl:=B1]> h).
Proof.
  apply map_eq. intros i. rewrite !lookup_insert.
  repeat case_decide; congruence.
Qed.

Lemma row_loop (n : nat) :
  ∀ (r : nat) (pre lens : list Z) (k m : nat) (s : State) stf szf stl szl,
  objs s !! lm = Some a → (r + n ≤ R)%nat →
  (n * C ≤ k)%nat → (n ≤ m)%nat → length lens = r →
  heap s !! fl = Some (mk_block stf szf ((Some <$> pre) ++ replicate k None)) →
  heap s !! ll = Some (mk_block stl szl ((Some <$> lens) ++ replicate m None)) →
  for_loop n (Z.of_nat r)
    (flat_labels_row_body lm (Some fl) (Some ll) (Z.of_nat C))
    (Z.of_nat (length pre)) s
  = let rows := take n (drop r (matrix_rows R C (items a))) in
    let pre' := pre ++ spec_flat_labels rows in
    let lens' := lens ++ spec_label_lengths rows in
    Next (Z.of_nat (length pre'))
      (upd_heap
         (λ h, <[ll := mk_block stl szl ((Some <$> lens') ++ replicate (m - n) None)]>
                 (<[fl := mk_block stf szf
                      ((Some <$> pre') ++
                       replicate (k - length (spec_flat_labels rows)) None)]> h))
         s).
Proof.
  induction n as [|n IH]; intros r pre lens k m s stf szf stl szl Ho Hr Hk Hm Hl Hfl Hll.
  - simpl. rewrite !app_nil_r, !Nat.sub_0_r. unfold ret. f_equal.
    destruct s; unfold upd_heap; simpl in *. f_equal.
    rewrite (insert_id _ fl) by done. by rewrite insert_id.
  - rewrite (drop_S _ _ _ (matrix_rows_lookup r ltac:(lia))).
    rewrite firstn_cons.
    set (row := take C (drop (r * C) (items a))).
    set (rest := take n (drop (S r) (matrix_rows R C (items a)))).
    cbn [for_loop]. unfold flat_labels_row_body at 1.
    unfold bind at 1. unfold bind at 1.
    rewrite Nat2Z.id.
    pose proof (col_loop r C 0%nat pre k 0 s stf szf Ho
                  ltac:(lia) ltac:(lia) ltac:(simpl in Hk; lia) Hfl) as Hcol.
    change (Z.of_nat 0) with 0 in Hcol. rewrite Hcol. clear Hcol.
    cbn zeta. rewrite Nat.add_0_r. fold row.
    cbv beta iota.
    pose proof (row_labels_length row) as Hrl.
    assert (length row ≤ C)%nat as HrC by (unfold row; rewrite length_take; lia).
    destruct m as [|m]; [lia|].
    unfold bind at 1.
    rewrite (write_int_ok ll stl szl ((Some <$> lens) ++ replicate (S m) None));
      [ | simpl; rewrite lookup_insert_ne by done; exact Hll
        | rewrite length_app, length_fmap, length_replicate; lia ].
    cbv beta iota. unfold ret at 1.
    replace (Z.of_nat r + 1) with (Z.of_nat (S r)) by lia.
    rewrite (IH (S r) (pre ++ row_labels row)
               (lens ++ [Z.of_nat (length (row_labels row))])
               (k - length (row_labels row))%nat m _ stf szf stl szl);
      try done; try lia.
    + cbn zeta. fold rest.
      rewrite spec_flat_labels_cons, spec_label_lengths_cons.
      rewrite !app_assoc. f_equal.
      destruct s; unfold upd_heap; simpl. f_equal.
      rewrite inserts_absorb. rewrite <- !app_assoc. simpl.
      do 5 f_equal. rewrite length_app. lia.
    + rewrite length_app. simpl. lia.
    + simpl. rewrite lookup_insert_ne by done. rewrite lookup_insert_eq. done.
    + simpl. rewrite lookup_insert_eq. do 2 f_equal.
      rewrite Z.add_0_l, Nat2Z.id.
      replace r with (length (Some <$> lens) + 0)%nat at 1
        by (rewrite length_fmap; lia).
      rewrite insert_app_r. simpl. rewrite fmap_app, <- app_assoc. done.
Qed.
End FlatLabels.

Lemma to_int_id z : INT_MIN ≤ z ≤ INT_MAX → to_int z = z.
Proof.
  unfold to_int, INT_MIN, INT_MAX. intros H.
  rewrite Z.mod_small by lia. lia.
Qed.

Lemma in_int_range_true z : INT_MIN ≤ z ≤ INT_MAX → in_int_range z = true.
Proof.
  unfold in_int_range. intros H. apply andb_true_intro. split; lia.
Qed.

Lemma malloc_bytes (n : Z) :
  0 ≤ n ≤ INT_MAX → to_size_t n * sizeof_int mod 2 ^ 64 = 4 * n.
Proof.
  unfold to_size_t, sizeof_int, INT_MAX. intros H.
  rewrite (Z.mod_small n) by lia. rewrite Z.mod_small by lia. lia.
Qed.

Lemma malloc_ok env site size s :
  alloc_ok env site = true →
  malloc env site size s =
    let p := fresh_key (heap s) in
    Next (Some p)
      (log (EvMalloc site size (Some p))
         (upd_heap <[p := mk_block site size
                            (replicate (Z.to_nat (size / sizeof_int)) None)]> s)).
Proof. unfold malloc. by intros ->. Qed.

Lemma malloc_fail env site size s :
  alloc_ok env site = false →
  malloc env site size s = Next None (log (EvMalloc site size None) s).
Proof. unfold malloc. by intros ->. Qed.

Lemma matrix_rows_length R C l : length (matrix_rows R C l) = R.
Proof. unfold matrix_rows. by rewrite length_fmap, length_seq. Qed.

Lemma spec_label_lengths_length m : length (spec_label_lengths m) = length m.
Proof. unfold spec_label_lengths. by rewrite length_fmap. Qed.

Lemma create_flat_labels_ok env lm a R C fl0 ll0 s :
  objs s !! lm = Some a →
  dims a = [Z.of_nat R; Z.of_nat C] →
  length (items a) = (R * C)%nat →
  Z.of_nat R ≤ INT_MAX → Z.of_nat C ≤ INT_MAX → Z.of_nat (R * C) ≤ INT_MAX →
  alloc_ok env SFlatLabels = true →
  alloc_ok env SLabelLengths = true →
  let m := matrix_rows R C (items a) in
  let fl := fresh_key (heap s) in
  let ll := fresh_key (<[fl := mk_block SFlatLabels (4 * Z.of_nat (R * C))
                              (replicate (R * C) None)]> (heap s)) in
  create_flat_labels env lm fl0 ll0 s =
    Next (Some fl, Some ll)
      (log (EvMalloc SLabelLengths (4 * Z.of_nat R) (Some ll))
         (log (EvMalloc SFlatLabels (4 * Z.of_nat (R * C)) (Some fl))
            (upd_heap (λ h, <[ll := lengths_block R m]> (<[fl := flat_block R C m]> h))
               s))).
Proof.
  intros Ho Hd Hlen HR HC HRC Hfl Hll m fl ll.
  assert (INT_MIN ≤ 0) by (unfold INT_MIN; lia).
  unfold create_flat_labels.
  unfold bind at 1. rewrite (PyArray_DIMS_ok lm a 0 (Z.of_nat R)); [|done|by rewrite Hd].
  cbv beta iota.
  unfold bind at 1. rewrite (PyArray_DIMS_ok lm a 1 (Z.of_nat C)); [|done|by rewrite Hd].
  cbv beta iota.
  rewrite !to_int_id by lia.
  replace (Z.of_nat R * Z.of_nat C) with (Z.of_nat (R * C)) by lia.
  rewrite in_int_range_true by lia. cbn [negb].
  rewrite !malloc_bytes by lia.
  unfold bind at 1. rewrite malloc_ok by done. cbv beta iota zeta.
  unfold bind at 1. rewrite malloc_ok by done. cbv beta iota zeta.
  replace (Z.to_nat (4 * Z.of_nat (R * C) / sizeof_int)) with (R * C)%nat
    by (unfold sizeof_int; rewrite Z.mul_comm, Z.div_mul by lia; lia).
  replace (Z.to_nat (4 * Z.of_nat R / sizeof_int)) with R
    by (unfold sizeof_int; rewrite Z.mul_comm, Z.div_mul by lia; lia).
  cbn [heap log upd_heap]. fold fl. fold ll.
  assert (Hne : fl ≠ ll).
  { intros E. pose proof (fresh_key_lookup
      (<[fl := mk_block SFlatLabels (4 * Z.of_nat (R * C)) (replicate (R * C) None)]> (heap s))) as F.
    fold ll in F. rewrite <- E, lookup_insert_eq in F. discriminate. }
  unfold bind at 1. rewrite Nat2Z.id.
  pose proof (λ s', row_loop lm fl a R C Hd Hlen ll Hne R 0%nat [] [] (R * C)%nat R s'
    SFlatLabels (4 * Z.of_nat (R * C)) SLabelLengths (4 * Z.of_nat R)) as Hloop.
  change (Z.of_nat 0) with 0 in Hloop. change (Z.of_nat (length [])) with 0 in Hloop.
  erewrite Hloop; clear Hloop; try done; try lia.
  - cbn zeta. rewrite drop_0, firstn_all2 by (rewrite matrix_rows_length; lia).
    fold m. cbv beta iota. unfold ret, log, upd_heap. cbn. f_equal. f_equal.
    rewrite inserts_absorb by done.
    unfold lengths_block, flat_block.
    replace (R - R)%nat with 0%nat by lia. simpl. by rewrite app_nil_r.
  - cbn. rewrite lookup_insert_ne by done. rewrite lookup_insert_eq. done.
  - cbn. rewrite lookup_insert_eq. done.
Qed.

(** ** The copy of the input lengths *)

Lemma PyArray_GETPTR1_ok ob a d0 i v s :
  objs s !! ob = Some a → dims a = [d0] → 0 ≤ i < d0 →
  items a !! Z.to_nat i = Some v →
  PyArray_GETPTR1 ob i s = Next v s.
Proof.
  intros Ho Hd Hi Hv. unfold PyArray_GETPTR1.
  rewrite (bind_Next _ _ _ _ _ (deref_ok _ _ _ Ho)), Hd.
  replace ((0 <=? i) && (i <? d0)) with true.
  - by rewrite Hv.
  - symmetry. apply andb_true_intro; split; lia.
Qed.

Lemma lengths_loop (ia p : nat) (a : PyArrayObject) (N : nat) :
  dims a = [Z.of_nat N] → length (items a) = N →
  ∀ (n j k : nat) (s : State) st sz,
  objs s !! ia = Some a → (j + n ≤ N)%nat → (n ≤ k)%nat →
  heap s !! p = Some (mk_block st sz ((Some <$> take j (items a)) ++ replicate k None)) →
  for_loop n (Z.of_nat j) (input_lengths_body ia (Some p)) () s =
    Next () (upd_heap <[p := mk_block st sz
                        ((Some <$> take (j + n) (items a)) ++ replicate (k - n) None)]> s).
Proof.
  intros Hd Hlen. induction n as [|n IH]; intros j k s st sz Ho Hj Hk Hp.
  - simpl. rewrite Nat.add_0_r, Nat.sub_0_r. by rewrite upd_heap_insert_id.
  - assert (Hidx : (j < length (items a))%nat) by lia.
    destruct (lookup_lt_is_Some_2 _ _ Hidx) as [v Hv].
    cbn [for_loop]. unfold input_lengths_body at 1.
    unfold bind at 1. unfold bind at 1.
    rewrite (PyArray_GETPTR1_ok ia a (Z.of_nat N) _ v); try done; try lia;
      last by rewrite Nat2Z.id.
    cbv beta iota.
    destruct k as [|k]; [lia|].
    rewrite (write_int_ok p st sz ((Some <$> take j (items a)) ++ replicate (S k) None));
      [ | done | rewrite length_app, length_fmap, length_take, length_replicate; lia ].
    replace (Z.of_nat j + 1) with (Z.of_nat (S j)) by lia.
    rewrite (IH (S j) k _ st sz); try done; try lia.
    + rewrite upd_heap_insert_insert.
      replace (S j + n)%nat with (j + S n)%nat by lia. done.
    + simpl. rewrite lookup_insert_eq. do 2 f_equal.
      rewrite Nat2Z.id.
      replace j with (length (Some <$> take j (items a)) + 0)%nat at 1
        by (rewrite length_fmap, length_take; lia).
      rewrite insert_app_r. simpl.
      rewrite (take_S_r _ _ _ Hv), fmap_app, <- app_assoc. done.
Qed.

Lemma create_contiguous_input_lengths_ok env ia a N s :
  objs s !! ia = Some a → dims a = [Z.of_nat N] → length (items a) = N →
  Z.of_nat N ≤ INT_MAX →
  alloc_ok env SInputLengths = true →
  let p := fresh_key (heap s) in
  create_contiguous_input_lengths env ia s =
    Next (Some p)
      (log (EvMalloc SInputLengths (4 * Z.of_nat N) (Some p))
         (upd_heap <[p := input_lengths_block N (items a)]> s)).
Proof.
  intros Ho Hd Hlen HN Hok p.
  assert (INT_MIN ≤ 0) by (unfold INT_MIN; lia).
  unfold create_contiguous_input_lengths.
  unfold bind at 1. rewrite (PyArray_DIMS_ok ia a 0 (Z.of_nat N)); [|done|by rewrite Hd].
  cbv beta iota. rewrite to_int_id by lia. rewrite malloc_bytes by lia.
  unfold bind at 1. rewrite malloc_ok by done. cbv beta iota zeta.
  replace (Z.to_nat (4 * Z.of_nat N / sizeof_int)) with N
    by (unfold sizeof_int; rewrite Z.mul_comm, Z.div_mul by lia; lia).
  fold p. unfold bind at 1. rewrite Nat2Z.id.
  pose proof (lengths_loop ia p a N Hd Hlen N 0%nat N) as Hloop.
  change (Z.of_nat 0) with 0 in Hloop.
  rewrite (Hloop _ SInputLengths (4 * Z.of_nat N)); try done; try lia.
  - cbv beta iota. unfold ret, log, upd_heap. cbn. f_equal. f_equal.
    rewrite insert_insert_eq. unfold input_lengths_block.
    replace (N - N)%nat with 0%nat by lia. simpl. by rewrite app_nil_r.
  - cbn. rewrite lookup_insert_eq. done.
Qed.

Lemma create_contiguous_input_lengths_fail env ia a d0 rest s :
  objs s !! ia = Some a → dims a = d0 :: rest →
  alloc_ok env SInputLengths = false →
  create_contiguous_input_lengths env ia s =
    Next None
      (log (EvMalloc SInputLengths (to_size_t (to_int d0) * sizeof_int mod 2 ^ 64) None) s).
Proof.
  intros Ho Hd Hok.
  unfold create_contiguous_input_lengths.
  unfold bind at 1. rewrite (PyArray_DIMS_ok ia a 0 d0); [|done|by rewrite Hd].
  cbv beta iota.
  unfold bind at 1. rewrite malloc_fail by done. done.
Qed.

(** ** Clean-up *)

Lemma free_ok p b s :
  heap s !! p = Some b → free p s = Next () (log (EvFree p) (upd_heap (delete p) s)).
Proof. unfold free. by intros ->. Qed.

Lemma free_if_set_ok p s :
  (∀ a, p = Some a → is_Some (heap s !! a)) →
  free_if_set p s = Next () (freed p s).
Proof.
  intros H. destruct p as [a|]; [|done].
  destruct (H a eq_refl) as [b Hb]. simpl. by rewrite (free_ok _ b).
Qed.

Lemma Py_XDECREF_ok o s :
  (∀ ob, o = Some ob → is_Some (objs s !! ob)) →
  Py_XDECREF o s = Next () (released o s).
Proof.
  intros H. destruct o as [ob|]; [|done].
  destruct (H ob eq_refl) as [a Ha]. simpl.
  unfold bind. rewrite (deref_ok _ _ _ Ha). by rewrite Ha.
Qed.

Lemma heap_freed p s :
  heap (freed p s) = match p with Some a => delete a (heap s) | None => heap s end.
Proof. by destruct p. Qed.

Lemma objs_freed p s : objs (freed p s) = objs s.
Proof. by destruct p. Qed.

Lemma heap_released o s : heap (released o s) = heap s.
Proof. destruct o as [ob|]; [|done]. simpl. by destruct (objs s !! ob). Qed.

Lemma lookup_heap_freed p s q :
  heap (freed p s) !! q = if decide (p = Some q) then None else heap s !! q.
Proof.
  rewrite heap_freed. destruct p as [a|].
  - rewrite lookup_delete. repeat case_decide; congruence.
  - by case_decide.
Qed.

Lemma buffers_elem context p :
  p ∈ buffers context ↔
  workspace context = Some p ∨ input_lengths context = Some p ∨
  flat_labels context = Some p ∨ label_lengths context = Some p.
Proof.
  unfold buffers. rewrite list_elem_of_omap. split.
  - intros (o & Ho & Hp). simpl in Hp. subst o.
    rewrite !elem_of_cons, elem_of_nil in Ho. intuition congruence.
  - intros H. exists (Some p). split; [|done].
    rewrite !elem_of_cons. intuition congruence.
Qed.

Lemma buffers_distinct context :
  NoDup (buffers context) →
  ∀ p,
    (workspace context = Some p → input_lengths context ≠ Some p ∧
       flat_labels context ≠ Some p ∧ label_lengths context ≠ Some p) ∧
    (input_lengths context = Some p →
       flat_labels context ≠ Some p ∧ label_lengths context ≠ Some p) ∧
    (flat_labels context = Some p → label_lengths context ≠ Some p).
Proof.
  destruct context as [opts [w|] [i|] [f|] [l|] ac]; unfold buffers; simpl;
    intros Hnd p;
    repeat match goal with
           | H : NoDup (_ :: _) |- _ => apply NoDup_cons in H as [? ?]
           end;
    rewrite ?not_elem_of_cons in *;
    intuition congruence.
Qed.

Lemma lookup_heap_destroyed context s q :
  heap (destroyed context s) !! q =
  if decide (q ∈ buffers context) then None else heap s !! q.
Proof.
  unfold destroyed. rewrite heap_released, !lookup_heap_freed.
  pose proof (buffers_elem context q) as Hb.
  repeat case_decide; try done; exfalso; intuition congruence.
Qed.

Lemma ctc_context_destroy_ok context s :
  NoDup (buffers context) →
  (∀ p, p ∈ buffers context → is_Some (heap s !! p)) →
  (∀ c, activations_copy context = Some c → is_Some (objs s !! c)) →
  ctc_context_destroy context s = Next () (destroyed context s).
Proof.
  intros Hnd Hlive Hcopy. unfold ctc_context_destroy, destroyed.
  pose proof (buffers_distinct context Hnd) as Hd.
  assert (Hl : ∀ p, workspace context = Some p ∨ input_lengths context = Some p ∨
    flat_labels context = Some p ∨ label_lengths context = Some p →
    is_Some (heap s !! p)).
  { intros p Hp. by apply Hlive, buffers_elem. }
  unfold bind at 1. rewrite free_if_set_ok; last first.
  { intros a Ha. apply Hl. auto. }
  unfold bind at 1. rewrite free_if_set_ok; last first.
  { intros a Ha. rewrite lookup_heap_freed. specialize (Hd a).
    case_decide; [exfalso; intuition congruence|]. apply Hl. auto. }
  unfold bind at 1. rewrite free_if_set_ok; last first.
  { intros a Ha. rewrite !lookup_heap_freed. specialize (Hd a).
    repeat case_decide; try (exfalso; intuition congruence). apply Hl. auto. }
  unfold bind at 1. rewrite free_if_set_ok; last first.
  { intros a Ha. rewrite !lookup_heap_freed. specialize (Hd a).
    repeat case_decide; try (exfalso; intuition congruence). apply Hl. auto. }
  rewrite Py_XDECREF_ok; [done|].
  intros c Hc. rewrite !objs_freed. by apply Hcopy.
Qed.

(** ** The invariant moves with the stages *)

Section Invariant.

Variable s0 : State.
Variable in_act : nat.
Variable a : PyArrayObject.
Variable ctx_p : nat.

Lemma Inv_mono context k k' s : (k ≤ k')%nat → Inv s0 in_act a ctx_p context k s → Inv s0 in_act a ctx_p context k' s.
Proof.
  intros Hk [? ? ? ? ? ? ? ? ? ? (evs & Ht & Hf & Hs)]. constructor; try done.
  exists evs. split; [done|]. split; [|done].
  eapply Forall_impl; [exact Hf|]. simpl. lia.
Qed.

Lemma Inv_log context k s e :
  (event_stage e < k)%nat → event_sizes_ok (minibatch_of a) (alphabet_of a) e →
  Inv s0 in_act a ctx_p context k s → Inv s0 in_act a ctx_p context k (log e s).
Proof.
  intros He Hok [? ? ? ? ? ? ? ? ? ? (evs & Ht & Hf & Hs)]. constructor; try done.
  exists (evs ++ [e]). simpl. rewrite Ht, app_assoc. split; [done|].
  split; apply Forall_app; (split; [done|]); by constructor.
Qed.

End Invariant.

Lemma PyArray_IS_C_CONTIGUOUS_ok ob a s :
  objs s !! ob = Some a → PyArray_IS_C_CONTIGUOUS ob s = Next (c_contiguous a) s.
Proof.
  intros Ho. unfold PyArray_IS_C_CONTIGUOUS. by rewrite (bind_Next _ _ _ _ _ (deref_ok _ _ _ Ho)).
Qed.

Lemma PyArray_DATA_ok ob a s : objs s !! ob = Some a → PyArray_DATA ob s = Next ob s.
Proof.
  intros Ho. unfold PyArray_DATA. by rewrite (bind_Next _ _ _ _ _ (deref_ok _ _ _ Ho)).
Qed.

Lemma PyArray_GETCONTIGUOUS_ok env ob a s :
  objs s !! ob = Some a → alloc_ok env SActivationsCopy = true →
  PyArray_GETCONTIGUOUS env ob s =
    let c := fresh_key (objs s) in
    Next (Some c) (log (EvGetContiguous ob (Some c)) (upd_objs <[c := copy_of a]> s)).
Proof.
  intros Ho Hok. unfold PyArray_GETCONTIGUOUS.
  rewrite (bind_Next _ _ _ _ _ (deref_ok _ _ _ Ho)). by rewrite Hok.
Qed.

Lemma PyArray_GETCONTIGUOUS_fail env ob a s :
  objs s !! ob = Some a → alloc_ok env SActivationsCopy = false →
  PyArray_GETCONTIGUOUS env ob s = Next None (log (EvGetContiguous ob None) s).
Proof.
  intros Ho Hok. unfold PyArray_GETCONTIGUOUS.
  rewrite (bind_Next _ _ _ _ _ (deref_ok _ _ _ Ho)). by rewrite Hok.
Qed.

Lemma PyErr_Format_plain exc msg s :
  format_s msg [] = msg →
  PyErr_Format exc msg [] s = Next () (raised exc msg s).
Proof. unfold PyErr_Format, raised. by intros ->. Qed.

(** *** Lines 121-140 *)

Lemma obtain_activations_contiguous env in_act a context s :
  objs s !! in_act = Some a → c_contiguous a = true →
  obtain_activations env in_act context s = Next (context, in_act) s.
Proof.
  intros Ho Hc. unfold obtain_activations.
  rewrite (bind_Next _ _ _ _ _ (PyArray_IS_C_CONTIGUOUS_ok _ _ _ Ho)), Hc.
  by rewrite (bind_Next _ _ _ _ _ (PyArray_DATA_ok _ _ _ Ho)).
Qed.

Lemma obtain_activations_copy env in_act a context s :
  objs s !! in_act = Some a → c_contiguous a = false →
  alloc_ok env SActivationsCopy = true →
  let c := fresh_key (objs s) in
  obtain_activations env in_act context s =
    Next (set_activations_copy (Some c) context, c)
      (log (EvGetContiguous in_act (Some c)) (upd_objs <[c := copy_of a]> s)).
Proof.
  intros Ho Hc Hok c. unfold obtain_activations.
  rewrite (bind_Next _ _ _ _ _ (PyArray_IS_C_CONTIGUOUS_ok _ _ _ Ho)), Hc.
  rewrite (bind_Next _ _ _ _ _ (PyArray_GETCONTIGUOUS_ok env _ _ _ Ho Hok)).
  cbn zeta. fold c. cbn [activations_copy set_activations_copy].
  erewrite bind_Next; [done|].
  eapply PyArray_DATA_ok. cbn. apply lookup_insert_eq.
Qed.

Lemma obtain_activations_fail env in_act a context s :
  objs s !! in_act = Some a → c_contiguous a = false →
  alloc_ok env SActivationsCopy = false →
  obtain_activations env in_act context s =
    Return 1
      (raised PyExc_MemoryError
         "Could not create a contiguous copy of activations array."
         (log (EvGetContiguous in_act None) s)).
Proof.
  intros Ho Hc Hok. unfold obtain_activations.
  rewrite (bind_Next _ _ _ _ _ (PyArray_IS_C_CONTIGUOUS_ok _ _ _ Ho)), Hc.
  rewrite (bind_Next _ _ _ _ _ (PyArray_GETCONTIGUOUS_fail env _ _ _ Ho Hok)).
  cbn [activations_copy set_activations_copy].
  by rewrite (bind_Next _ _ _ _ _ (PyErr_Format_plain _ _ _ eq_refl)).
Qed.

(** *** What a well-formed call provides *)

Lemma live_true s ob : live s ob = true → is_Some (objs s !! ob).
Proof. unfold live. destruct (objs s !! ob); [eauto|done]. Qed.

Lemma handles_ok_costs in_act s x :
  handles_ok in_act s = true → out_costs s = Some x →
  is_Some (objs s !! x) ∧ x ≠ in_act ∧ out_gradients s ≠ Some x.
Proof.
  unfold handles_ok. intros H Hx. rewrite Hx in H.
  apply andb_prop in H as [H _].
  apply andb_prop in H as [H Hg]. apply andb_prop in H as [Hl Hne].
  split; [by apply live_true|]. split.
  - apply negb_true_iff, Nat.eqb_neq in Hne. done.
  - destruct (out_gradients s) as [g|]; [|done].
    apply negb_true_iff, Nat.eqb_neq in Hg. congruence.
Qed.

Lemma handles_ok_gradients in_act s x :
  handles_ok in_act s = true → out_gradients s = Some x →
  is_Some (objs s !! x) ∧ x ≠ in_act.
Proof.
  unfold handles_ok. intros H Hx. rewrite Hx in H.
  apply andb_prop in H as [_ H]. apply andb_prop in H as [Hl Hne].
  split; [by apply live_true|].
  apply negb_true_iff, Nat.eqb_neq in Hne. done.
Qed.

Lemma call_ok_elim in_act in_lab in_il s :
  call_ok in_act in_lab in_il s = true →
  ∃ a l i,
    objs s !! in_act = Some a ∧ objs s !! in_lab = Some l ∧
    objs s !! in_il = Some i ∧
    activations_ok a = true ∧ labels_ok l = true ∧ lengths_ok i = true ∧
    handles_ok in_act s = true.
Proof.
  unfold call_ok. intros H.
  destruct (objs s !! in_act) as [a|]; [|done].
  destruct (objs s !! in_lab) as [l|]; [|done].
  destruct (objs s !! in_il) as [i|]; [|done].
  repeat (apply andb_prop in H as [H ?]).
  exists a, l, i. done.
Qed.

Lemma activations_ok_dims a :
  activations_ok a = true → ∃ t b n, dims a = [t; b; n].
Proof.
  unfold activations_ok. intros H. apply Nat.eqb_eq in H.
  destruct (dims a) as [|t [|b [|n [|]]]]; try done. eauto.
Qed.

Lemma labels_ok_dims l :
  labels_ok l = true →
  ∃ R C : nat,
    dims l = [Z.of_nat R; Z.of_nat C] ∧ length (items l) = (R * C)%nat ∧
    Z.of_nat R ≤ INT_MAX ∧ Z.of_nat C ≤ INT_MAX ∧ Z.of_nat (R * C) ≤ INT_MAX ∧
    label_rows l = matrix_rows R C (items l).
Proof.
  unfold labels_ok, label_rows. intros H.
  destruct (dims l) as [|r [|c [|]]]; try done.
  repeat (apply andb_prop in H as [H ?]).
  exists (Z.to_nat r), (Z.to_nat c).
  rewrite !Z2Nat.id by lia. repeat split; try lia.
Qed.

Lemma lengths_ok_dims i :
  lengths_ok i = true →
  ∃ N : nat, dims i = [Z.of_nat N] ∧ length (items i) = N ∧ Z.of_nat N ≤ INT_MAX.
Proof.
  unfold lengths_ok. intros H.
  destruct (dims i) as [|n [|]]; try done.
  repeat (apply andb_prop in H as [H ?]).
  exists (Z.to_nat n). rewrite !Z2Nat.id by lia. repeat split; lia.
Qed.

(** *** How the invariant moves through the stages *)

Section Stages.

Variable env : Env.
Variable s0 : State.
Variable in_act : nat.
Variable a : PyArrayObject.
Variable ctx_p : nat.

Lemma Inv_fresh_buffer context k s p :
  Inv s0 in_act a ctx_p context k s → heap s !! p = None →
  (p ∉ buffers context) ∧ p ≠ ctx_p ∧ heap s0 !! p = None.
Proof.
  intros HI Hp.
  assert (p ∉ buffers context) as Hnb.
  { intros Hin. destruct (inv_live _ _ _ _ _ _ _ HI p Hin) as ([b Hb] & _). congruence. }
  assert (p ≠ ctx_p) as Hnc.
  { intros ->. rewrite (inv_ctx _ _ _ _ _ _ _ HI) in Hp. done. }
  repeat split; try done.
  by rewrite <- (inv_frame _ _ _ _ _ _ _ HI p Hnb Hnc).
Qed.

(** A new block becomes a buffer of the context. *)
Lemma Inv_add_buffer context context' k s p b :
  Inv s0 in_act a ctx_p context k s → heap s !! p = None →
  (∀ q, q ∈ buffers context' ↔ q = p ∨ q ∈ buffers context) →
  NoDup (buffers context') →
  activations_copy context' = activations_copy context →
  Inv s0 in_act a ctx_p context' k (upd_heap <[p := b]> s).
Proof.
  intros HI Hp Hb Hnd Hac.
  destruct (Inv_fresh_buffer _ _ _ _ HI Hp) as (Hnb & Hnc & H0).
  destruct HI as [? ? ? ? Hlive Hframe Hcopy ? ? ? ?].
  constructor; try done; simpl.
  - by rewrite lookup_insert_ne.
  - intros q Hq. apply Hb in Hq as [->|Hq].
    + rewrite lookup_insert_eq. eauto.
    + destruct (Hlive q Hq) as (Hl & ? & ?). repeat split; try done.
      rewrite lookup_insert_ne; [done|]. intros ->. done.
  - intros q Hq Hqc. rewrite lookup_insert_ne.
    + apply Hframe; [|done]. intros Hin. apply Hq, Hb. by right.
    + intros ->. apply Hq, Hb. by left.
  - intros c Hc. rewrite Hac in Hc. by apply Hcopy.
Qed.

(** The contents of a buffer change. *)
Lemma Inv_write_buffer context k s p b :
  Inv s0 in_act a ctx_p context k s → p ∈ buffers context →
  Inv s0 in_act a ctx_p context k (upd_heap <[p := b]> s).
Proof.
  intros HI Hp.
  destruct HI as [? ? ? ? Hlive Hframe Hcopy ? ? ? ?].
  destruct (Hlive p Hp) as (_ & _ & Hpc).
  constructor; try done; simpl.
  - by rewrite lookup_insert_ne.
  - intros q Hq. destruct (Hlive q Hq) as (Hl & ? & ?). repeat split; try done.
    rewrite lookup_insert. case_decide; eauto.
  - intros q Hq Hqc. rewrite lookup_insert_ne; [by apply Hframe|].
    intros ->. done.
Qed.

(** The context block is allocated (line 118) and initialised. *)
Lemma Inv_init s :
  s = s0 → ctx_p = fresh_key (heap s0) →
  objs s0 !! in_act = Some a → handles_ok in_act s0 = true →
  Inv s0 in_act a ctx_p (ctc_context_init (fresh_context env)) 2
    (log (EvMalloc SContext sizeof_ctc_context_t (Some ctx_p))
       (upd_heap <[ctx_p := ctx_block]> s)).
Proof.
  intros -> Hp Ha Hh. constructor; simpl; try done.
  - rewrite Hp. apply fresh_key_lookup.
  - apply lookup_insert_eq.
  - apply NoDup_nil_2.
  - intros p Hin. unfold buffers in Hin. simpl in Hin. by apply elem_of_nil in Hin.
  - intros p _ Hne. by rewrite lookup_insert_ne.
  - intros x. by apply handles_ok_costs.
  - intros x. by apply handles_ok_gradients.
  - exists [EvMalloc SContext sizeof_ctc_context_t (Some ctx_p)].
    split; [done|]. split; repeat constructor.
Qed.

(** The copy of the activations is made (line 129). *)
Lemma Inv_copy context s :
  Inv s0 in_act a ctx_p context 2 s →
  Inv s0 in_act a ctx_p (set_activations_copy (Some (fresh_key (objs s))) context) 3
    (log (EvGetContiguous in_act (Some (fresh_key (objs s))))
       (upd_objs <[fresh_key (objs s) := copy_of a]> s)).
Proof.
  intros HI. set (c := fresh_key (objs s)).
  assert (Hc : objs s !! c = None) by apply fresh_key_lookup.
  apply Inv_log; [simpl; lia|exact I|]. apply (Inv_mono _ _ _ _ _ 2%nat 3%nat); [lia|].
  destruct HI as [Hact ? ? ? Hlive Hframe Hcopy Hcosts Hgrads ? ?].
  assert (c ≠ in_act) by (intros E; rewrite E in Hc; congruence).
  constructor; try done; cbn [objs heap out_costs out_gradients upd_objs log activations_copy set_activations_copy].
  - by rewrite lookup_insert_ne.
  - intros c' [= <-]. rewrite lookup_insert_eq. repeat split; try done.
    + intros E. destruct (Hcosts c E) as ([? ?] & _). congruence.
    + intros E. destruct (Hgrads c E) as ([? ?] & _). congruence.
  - intros x Hx. destruct (Hcosts x Hx) as ([v Hv] & ? & ?). repeat split; try done.
    rewrite lookup_insert. case_decide; eauto.
  - intros x Hx. destruct (Hgrads x Hx) as ([v Hv] & ?). repeat split; try done.
    rewrite lookup_insert. case_decide; eauto.
Qed.

End Stages.

(** *** Lines 142-149 *)

Lemma obtain_input_lengths_ok env in_il i N context s :
  objs s !! in_il = Some i → dims i = [Z.of_nat N] → length (items i) = N →
  Z.of_nat N ≤ INT_MAX →
  alloc_ok env SInputLengths = true →
  let p := fresh_key (heap s) in
  obtain_input_lengths env in_il context s =
    Next (set_input_lengths (Some p) context)
      (log (EvMalloc SInputLengths (4 * Z.of_nat N) (Some p))
         (upd_heap <[p := input_lengths_block N (items i)]> s)).
Proof.
  intros Ho Hd Hl HN Hok p. unfold obtain_input_lengths.
  by rewrite (bind_Next _ _ _ _ _
    (create_contiguous_input_lengths_ok env _ _ _ _ Ho Hd Hl HN Hok)).
Qed.

Lemma obtain_input_lengths_fail env in_il i d0 rest context s :
  objs s !! in_il = Some i → dims i = d0 :: rest →
  alloc_ok env SInputLengths = false →
  obtain_input_lengths env in_il context s =
    Return 1
      (raised PyExc_MemoryError "Could not allocate storage for input lengths"
         (log (EvMalloc SInputLengths
                 (to_size_t (to_int d0) * sizeof_int mod 2 ^ 64) None) s)).
Proof.
  intros Ho Hd Hok. unfold obtain_input_lengths.
  rewrite (bind_Next _ _ _ _ _
    (create_contiguous_input_lengths_fail env _ _ _ _ _ Ho Hd Hok)).
  cbn [input_lengths set_input_lengths].
  by rewrite (bind_Next _ _ _ _ _ (PyErr_Format_plain _ _ _ eq_refl)).
Qed.

(** *** Lines 75-108, when an allocation fails *)

Lemma create_flat_labels_fail_flat env lm l r c fl0 ll0 s :
  objs s !! lm = Some l → dims l = [r; c] →
  in_int_range (to_int r * to_int c) = true →
  alloc_ok env SFlatLabels = false →
  create_flat_labels env lm fl0 ll0 s =
    Next (None, ll0)
      (log (EvMalloc SFlatLabels
              (to_size_t (to_int r * to_int c) * sizeof_int mod 2 ^ 64) None) s).
Proof.
  intros Ho Hd Hr Hok. unfold create_flat_labels.
  unfold bind at 1. rewrite (PyArray_DIMS_ok lm l 0 r); [|done|by rewrite Hd].
  cbv beta iota.
  unfold bind at 1. rewrite (PyArray_DIMS_ok lm l 1 c); [|done|by rewrite Hd].
  cbv beta iota. rewrite Hr. cbn [negb].
  unfold bind at 1. by rewrite malloc_fail.
Qed.

Lemma create_flat_labels_fail_lengths env lm l r c fl0 ll0 s :
  objs s !! lm = Some l → dims l = [r; c] →
  in_int_range (to_int r * to_int c) = true →
  alloc_ok env SFlatLabels = true →
  alloc_ok env SLabelLengths = false →
  let fl := fresh_key (heap s) in
  let size_fl := to_size_t (to_int r * to_int c) * sizeof_int mod 2 ^ 64 in
  let size_ll := to_size_t (to_int r) * sizeof_int mod 2 ^ 64 in
  create_flat_labels env lm fl0 ll0 s =
    Next (None, None)
      (log (EvFree fl)
         (log (EvMalloc SLabelLengths size_ll None)
            (log (EvMalloc SFlatLabels size_fl (Some fl)) s))).
Proof.
  intros Ho Hd Hr Hfl Hll fl size_fl size_ll. unfold create_flat_labels.
  unfold bind at 1. rewrite (PyArray_DIMS_ok lm l 0 r); [|done|by rewrite Hd].
  cbv beta iota.
  unfold bind at 1. rewrite (PyArray_DIMS_ok lm l 1 c); [|done|by rewrite Hd].
  cbv beta iota. rewrite Hr. cbn [negb].
  unfold bind at 1. rewrite malloc_ok by done. cbv beta iota zeta.
  unfold bind at 1. rewrite malloc_fail by done. cbv beta iota.
  unfold bind at 1. fold fl size_fl size_ll.
  erewrite free_ok; last by (cbn; apply lookup_insert_eq).
  cbv beta iota. unfold ret, log, upd_heap. cbn. do 2 f_equal.
  rewrite delete_insert_id; [by destruct s|]. apply fresh_key_lookup.
Qed.

(** *** Lines 167-189 and 191-215 *)

Lemma PyArray_NDIM_ok ob a s :
  objs s !! ob = Some a → PyArray_NDIM ob s = Next (Z.of_nat (length (dims a))) s.
Proof.
  intros Ho. unfold PyArray_NDIM. by rewrite (bind_Next _ _ _ _ _ (deref_ok _ _ _ Ho)).
Qed.

Lemma PyArray_ZEROS_ok env site shape s :
  alloc_ok env site = true →
  PyArray_ZEROS env site shape s =
    let z := fresh_key (objs s) in
    Next (Some z) (log (EvZeros site shape (Some z)) (upd_objs <[z := zeros shape]> s)).
Proof. unfold PyArray_ZEROS. by intros ->. Qed.

Lemma PyArray_ZEROS_fail env site shape s :
  alloc_ok env site = false →
  PyArray_ZEROS env site shape s = Next None (log (EvZeros site shape None) s).
Proof. unfold PyArray_ZEROS. by intros ->. Qed.

Lemma costs_mismatch_ok cost_size s :
  (∀ c, out_costs s = Some c → is_Some (objs s !! c)) →
  costs_mismatch cost_size s = Next (negb (costs_reusable cost_size s)) s.
Proof.
  intros Hl. unfold costs_mismatch, costs_reusable.
  unfold bind at 1. unfold get_out_costs.
  destruct (out_costs s) as [c|]; [|done].
  destruct (Hl c eq_refl) as [oc Hoc]. rewrite Hoc.
  rewrite (bind_Next _ _ _ _ _ (PyArray_NDIM_ok _ _ _ Hoc)).
  destruct (Nat.eq_dec (length (dims oc)) 1%nat) as [H1|H1].
  - rewrite H1. change (Z.of_nat 1 =? 1) with true. cbn [negb].
    destruct (dims oc) as [|d0 [|]] eqn:Hd; try done.
    rewrite (bind_Next _ _ _ _ _ (PyArray_DIMS_ok c oc 0 d0 s Hoc ltac:(by rewrite Hd))).
    unfold ret. do 2 f_equal.
    destruct (Z.eqb_spec d0 cost_size) as [->|Hne].
    + by rewrite bool_decide_eq_true_2.
    + rewrite bool_decide_eq_false_2; [done|]. congruence.
  - replace (Z.of_nat (length (dims oc)) =? 1) with false
      by (symmetry; apply Z.eqb_neq; lia).
    cbn [negb]. unfold ret. rewrite bool_decide_eq_false_2; [done|].
    intros E. rewrite E in H1. done.
Qed.

Lemma gradients_mismatch_ok in_act a a0 a1 a2 s :
  objs s !! in_act = Some a → dims a = [a0; a1; a2] →
  (∀ g, out_gradients s = Some g → is_Some (objs s !! g)) →
  gradients_mismatch in_act s = Next (negb (gradients_reusable a s)) s.
Proof.
  intros Ha Hda Hl. unfold gradients_mismatch, gradients_reusable.
  unfold bind at 1. unfold get_out_gradients.
  destruct (out_gradients s) as [g|]; [|done].
  destruct (Hl g eq_refl) as [og Hog]. rewrite Hog.
  rewrite (bind_Next _ _ _ _ _ (PyArray_NDIM_ok _ _ _ Hog)).
  destruct (Nat.eqb_spec (length (dims og)) 3) as [H3|H3].
  - rewrite H3. simpl.
    destruct (dims og) as [|g0 [|g1 [|g2 [|]]]] eqn:Hd; try done.
    rewrite (bind_Next _ _ _ _ _ (PyArray_DIMS_ok g og 0 g0 s Hog ltac:(by rewrite Hd))).
    rewrite (bind_Next _ _ _ _ _ (PyArray_DIMS_ok in_act a 0 a0 s Ha ltac:(by rewrite Hda))).
    rewrite Hda.
    destruct (Z.eqb_spec g0 a0) as [->|Hne]; simpl;
      [|unfold ret; rewrite bool_decide_eq_false_2; [done|congruence]].
    rewrite (bind_Next _ _ _ _ _ (PyArray_DIMS_ok g og 1 g1 s Hog ltac:(by rewrite Hd))).
    rewrite (bind_Next _ _ _ _ _ (PyArray_DIMS_ok in_act a 1 a1 s Ha ltac:(by rewrite Hda))).
    destruct (Z.eqb_spec g1 a1) as [->|Hne]; simpl;
      [|unfold ret; rewrite bool_decide_eq_false_2; [done|congruence]].
    rewrite (bind_Next _ _ _ _ _ (PyArray_DIMS_ok g og 2 g2 s Hog ltac:(by rewrite Hd))).
    rewrite (bind_Next _ _ _ _ _ (PyArray_DIMS_ok in_act a 2 a2 s Ha ltac:(by rewrite Hda))).
    unfold ret. do 2 f_equal.
    destruct (Z.eqb_spec g2 a2) as [->|Hne].
    + by rewrite bool_decide_eq_true_2.
    + rewrite bool_decide_eq_false_2; [done|congruence].
  - replace (Z.of_nat (length (dims og)) =? 3) with false
      by (symmetry; apply Z.eqb_neq; lia).
    done.
Qed.

Lemma costs_reusable_handle cost_size s :
  costs_reusable cost_size s = true →
  ∃ c oc, out_costs s = Some c ∧ objs s !! c = Some oc ∧ dims oc = [cost_size].
Proof.
  unfold costs_reusable. intros H.
  destruct (out_costs s) as [c|]; [|done].
  destruct (objs s !! c) as [oc|] eqn:E; [|done].
  apply bool_decide_eq_true_1 in H. eauto.
Qed.

Lemma gradients_reusable_handle a s :
  gradients_reusable a s = true →
  ∃ g og, out_gradients s = Some g ∧ objs s !! g = Some og ∧
          length (dims og) = 3%nat ∧ dims og = dims a.
Proof.
  unfold gradients_reusable. intros H.
  destruct (out_gradients s) as [g|]; [|done].
  destruct (objs s !! g) as [og|] eqn:E; [|done].
  apply andb_prop in H as [H3 H]. apply Nat.eqb_eq in H3.
  apply bool_decide_eq_true_1 in H. eauto 10.
Qed.

Lemma prepare_costs_reuse env cost_size context s c :
  costs_reusable cost_size s = true → out_costs s = Some c →
  prepare_costs env cost_size context s = Next c s.
Proof.
  intros Hr Hc. destruct (costs_reusable_handle _ _ Hr) as (c' & oc & Hc' & Hoc & Hd).
  assert (c' = c) as -> by congruence.
  unfold prepare_costs.
  rewrite (bind_Next _ _ _ _ _ (costs_mismatch_ok cost_size s
    ltac:(intros x Hx; assert (x = c) as -> by congruence; eauto))).
  rewrite Hr. cbn [negb]. unfold bind at 1. unfold ret at 1.
  unfold bind at 1. unfold get_out_costs. rewrite Hc. simpl.
  by rewrite (PyArray_DATA_ok _ _ _ Hoc).
Qed.

Lemma prepare_costs_replace env cost_size context s :
  costs_reusable cost_size s = false →
  (∀ c, out_costs s = Some c → is_Some (objs s !! c)) →
  alloc_ok env SCosts = true →
  prepare_costs env cost_size context s =
    Next (fresh_key (objs (released (out_costs s) s))) (costs_replaced cost_size s).
Proof.
  intros Hr Hl Hok. unfold prepare_costs.
  rewrite (bind_Next _ _ _ _ _ (costs_mismatch_ok cost_size s Hl)).
  rewrite Hr. cbn [negb]. unfold bind at 1. unfold bind at 1.
  unfold get_out_costs at 1. unfold bind at 1.
  rewrite (Py_XDECREF_ok _ _ Hl).
  unfold bind at 1. rewrite (PyArray_ZEROS_ok env) by done. cbv zeta.
  unfold bind at 1. unfold put_out_costs at 1. unfold ret at 1.
  unfold bind at 1. unfold get_out_costs. cbn [out_costs set_out_costs data_of_handle].
  erewrite PyArray_DATA_ok; [done|]. cbn. apply lookup_insert_eq.
Qed.

Lemma prepare_gradients_reuse env in_act a a0 a1 a2 context s g :
  objs s !! in_act = Some a → dims a = [a0; a1; a2] →
  gradients_reusable a s = true → out_gradients s = Some g →
  prepare_gradients env in_act context s = Next g s.
Proof.
  intros Ha Hda Hr Hg.
  destruct (gradients_reusable_handle _ _ Hr) as (g' & og & Hg' & Hog & _ & Hd).
  assert (g' = g) as -> by congruence.
  unfold prepare_gradients.
  rewrite (bind_Next _ _ _ _ _ (gradients_mismatch_ok in_act a a0 a1 a2 s Ha Hda
    ltac:(intros x Hx; assert (x = g) as -> by congruence; eauto))).
  rewrite Hr. cbn [negb]. unfold bind at 1. unfold ret at 1.
  unfold bind at 1. unfold get_out_gradients. rewrite Hg. simpl.
  by rewrite (PyArray_DATA_ok _ _ _ Hog).
Qed.

Lemma prepare_gradients_replace env in_act a a0 a1 a2 context s :
  objs s !! in_act = Some a → dims a = [a0; a1; a2] →
  gradients_reusable a s = false →
  (∀ g, out_gradients s = Some g → is_Some (objs s !! g) ∧ g ≠ in_act) →
  alloc_ok env SGradients = true →
  prepare_gradients env in_act context s =
    Next (fresh_key (objs (released (out_gradients s) s)))
      (gradients_replaced (dims a) s).
Proof.
  intros Ha Hda Hr Hl Hok. unfold prepare_gradients.
  assert (Hl' : ∀ g, out_gradients s = Some g → is_Some (objs s !! g))
    by (intros g Hg; by apply Hl).
  rewrite (bind_Next _ _ _ _ _ (gradients_mismatch_ok in_act a a0 a1 a2 s Ha Hda Hl')).
  rewrite Hr. cbn [negb]. unfold bind at 1. unfold bind at 1.
  unfold get_out_gradients at 1. unfold bind at 1.
  rewrite (Py_XDECREF_ok _ _ Hl').
  assert (Ha' : objs (released (out_gradients s) s) !! in_act = Some a).
  { unfold released. destruct (out_gradients s) as [g|] eqn:Hg; [|done].
    destruct (Hl g eq_refl) as ([og Hog] & Hne). rewrite Hog. cbn.
    unfold drop_ref. destruct (ob_refcnt og <=? 1)%nat.
    - by rewrite lookup_delete_ne.
    - by rewrite lookup_insert_ne. }
  rewrite (bind_Next _ _ _ _ _ (PyArray_DIMS_ok in_act a 0 a0 _ Ha' ltac:(by rewrite Hda))).
  rewrite (bind_Next _ _ _ _ _ (PyArray_DIMS_ok in_act a 1 a1 _ Ha' ltac:(by rewrite Hda))).
  rewrite (bind_Next _ _ _ _ _ (PyArray_DIMS_ok in_act a 2 a2 _ Ha' ltac:(by rewrite Hda))).
  unfold bind at 1. rewrite (PyArray_ZEROS_ok env) by done. cbv zeta.
  unfold bind at 1. unfold put_out_gradients at 1. unfold ret at 1.
  unfold bind at 1. unfold get_out_gradients.
  cbn [out_gradients set_out_gradients data_of_handle].
  unfold gradients_replaced. rewrite Hda.
  erewrite PyArray_DATA_ok; [done|]. cbn. apply lookup_insert_eq.
Qed.

Lemma lookup_drop_ref_ne ob o (m : gmap nat PyArrayObject) x :
  x ≠ ob → drop_ref ob o m !! x = m !! x.
Proof.
  intros Hne. unfold drop_ref. destruct (ob_refcnt o <=? 1)%nat.
  - by rewrite lookup_delete_ne.
  - by rewrite lookup_insert_ne.
Qed.

Lemma trace_freed p s :
  ∃ rel, trace (freed p s) = trace s ++ rel ∧ Forall (λ e, is_release e = true) rel.
Proof.
  destruct p as [q|]; simpl.
  - exists [EvFree q]. split; [done|]. by repeat constructor.
  - exists []. by rewrite app_nil_r.
Qed.

Lemma trace_released o s :
  ∃ rel, trace (released o s) = trace s ++ rel ∧ Forall (λ e, is_release e = true) rel.
Proof.
  destruct o as [ob|]; simpl; [destruct (objs s !! ob)|]; simpl.
  - exists [EvDecref ob]. split; [done|]. by repeat constructor.
  - exists []. by rewrite app_nil_r.
  - exists []. by rewrite app_nil_r.
Qed.

Lemma trace_destroyed context s :
  ∃ rel, trace (destroyed context s) = trace s ++ rel ∧
         Forall (λ e, is_release e = true) rel.
Proof.
  unfold destroyed.
  destruct (trace_freed (workspace context) s) as (r1 & E1 & F1).
  destruct (trace_freed (input_lengths context) (freed (workspace context) s))
    as (r2 & E2 & F2).
  destruct (trace_freed (flat_labels context)
    (freed (input_lengths context) (freed (workspace context) s))) as (r3 & E3 & F3).
  destruct (trace_freed (label_lengths context) (freed (flat_labels context)
    (freed (input_lengths context) (freed (workspace context) s)))) as (r4 & E4 & F4).
  destruct (trace_released (activations_copy context) (freed (label_lengths context)
    (freed (flat_labels context) (freed (input_lengths context)
      (freed (workspace context) s))))) as (r5 & E5 & F5).
  exists (r1 ++ r2 ++ r3 ++ r4 ++ r5).
  rewrite E5, E4, E3, E2, E1, <- !app_assoc. split; [done|].
  by rewrite !Forall_app.
Qed.

Lemma err_freed p s : err (freed p s) = err s.
Proof. by destruct p. Qed.
Lemma err_released o s : err (released o s) = err s.
Proof. destruct o as [ob|]; simpl; [by destruct (objs s !! ob)|done]. Qed.
Lemma out_costs_freed p s : out_costs (freed p s) = out_costs s.
Proof. by destruct p. Qed.
Lemma out_costs_released o s : out_costs (released o s) = out_costs s.
Proof. destruct o as [ob|]; simpl; [by destruct (objs s !! ob)|done]. Qed.
Lemma out_gradients_freed p s : out_gradients (freed p s) = out_gradients s.
Proof. by destruct p. Qed.
Lemma out_gradients_released o s : out_gradients (released o s) = out_gradients s.
Proof. destruct o as [ob|]; simpl; [by destruct (objs s !! ob)|done]. Qed.

Lemma objs_destroyed context s :
  objs (destroyed context s) = objs (released (activations_copy context) s).
Proof.
  unfold destroyed, released. rewrite !objs_freed.
  destruct (activations_copy context) as [c|]; [|by rewrite !objs_freed].
  destruct (objs s !! c); simpl; by rewrite ?objs_freed.
Qed.

Section Exits.

Variable s0 : State.
Variable in_act : nat.
Variable a : PyArrayObject.
Variable ctx_p : nat.

Lemma destroy_Inv context k s :
  Inv s0 in_act a ctx_p context k s →
  ctc_context_destroy context s = Next () (destroyed context s).
Proof.
  intros HI. apply ctc_context_destroy_ok.
  - by destruct HI.
  - intros p Hp. by destruct (inv_live _ _ _ _ _ _ _ HI p Hp).
  - intros c Hc. destruct (inv_copy _ _ _ _ _ _ _ HI c Hc) as (-> & _). eauto.
Qed.

(** After the clean-up the only block the call has added to the heap is the
    context itself, and the copy of the activations is gone. *)
Lemma heap_destroyed_Inv context k s :
  Inv s0 in_act a ctx_p context k s →
  heap (destroyed context s) = <[ctx_p := ctx_block]> (heap s0).
Proof.
  intros HI. apply map_eq. intros q. rewrite lookup_heap_destroyed.
  case_decide as Hq.
  - destruct (inv_live _ _ _ _ _ _ _ HI q Hq) as (_ & H0 & Hne).
    by rewrite lookup_insert_ne.
  - destruct (decide (q = ctx_p)) as [->|Hne].
    + rewrite lookup_insert_eq. by destruct HI.
    + rewrite lookup_insert_ne by done. by apply (inv_frame _ _ _ _ _ _ _ HI).
Qed.

Lemma copy_destroyed_Inv context k s c :
  Inv s0 in_act a ctx_p context k s → activations_copy context = Some c →
  objs (destroyed context s) !! c = None.
Proof.
  intros HI Hc. rewrite objs_destroyed, Hc. simpl.
  destruct (inv_copy _ _ _ _ _ _ _ HI c Hc) as (-> & _). simpl.
  unfold drop_ref. simpl. apply lookup_delete_eq.
Qed.

Lemma objs_destroyed_other context k s x :
  Inv s0 in_act a ctx_p context k s → activations_copy context ≠ Some x →
  objs (destroyed context s) !! x = objs s !! x.
Proof.
  intros HI Hx. rewrite objs_destroyed. unfold released.
  destruct (activations_copy context) as [c|]; [|done].
  destruct (objs s !! c) as [oc|]; [|done]. simpl.
  apply lookup_drop_ref_ne. congruence.
Qed.

End Exits.

Section Progress.

Variable s0 : State.
Variable in_act : nat.
Variable a : PyArrayObject.
Variable ctx_p : nat.

(** A successful [malloc] whose result is stored in the context. *)
Lemma Inv_malloc context context' k k' s site size b :
  Inv s0 in_act a ctx_p context k s →
  (k ≤ k')%nat → (site_stage site < k')%nat →
  buffers context' ≡ₚ fresh_key (heap s) :: buffers context →
  activations_copy context' = activations_copy context →
  Inv s0 in_act a ctx_p context' k'
    (log (EvMalloc site size (Some (fresh_key (heap s))))
       (upd_heap <[fresh_key (heap s) := b]> s)).
Proof.
  intros HI Hk Hs Hperm Hac.
  pose proof (fresh_key_lookup (heap s)) as Hp.
  destruct (Inv_fresh_buffer _ _ _ _ _ _ _ _ HI Hp) as (Hnb & _ & _).
  apply Inv_log; [done|exact I|].
  apply (Inv_mono _ _ _ _ _ k k'); [done|].
  eapply Inv_add_buffer; try done.
  - intros q. rewrite Hperm, elem_of_cons. done.
  - rewrite Hperm. apply NoDup_cons. split; [done|]. by destruct HI.
Qed.

(** A failed allocation changes nothing but the trace. *)
Lemma Inv_malloc_failed context k k' s e :
  Inv s0 in_act a ctx_p context k s →
  (k ≤ k')%nat → (event_stage e < k')%nat →
  event_sizes_ok (minibatch_of a) (alphabet_of a) e →
  Inv s0 in_act a ctx_p context k' (log e s).
Proof.
  intros HI Hk Hs Hok. apply Inv_log; [done|done|].
  by apply (Inv_mono _ _ _ _ _ k k').
Qed.

(** Dropping the reference to the old costs array (line 174). *)
Lemma Inv_costs_dropped context k s :
  Inv s0 in_act a ctx_p context k s → (0 < k)%nat →
  Inv s0 in_act a ctx_p context k (set_out_costs None (released (out_costs s) s)).
Proof.
  intros HI Hk.
  destruct HI as [Hact ? ? ? Hlive Hframe Hcopy Hcosts Hgrads ? (evs & Ht & Hf & Hs)].
  destruct (out_costs s) as [old|] eqn:Hold; simpl.
  - destruct (Hcosts old eq_refl) as ([oo Hoo] & Hne & Hg). rewrite Hoo.
    constructor; simpl; try done.
    + by rewrite lookup_drop_ref_ne.
    + intros c Hc. destruct (Hcopy c Hc) as (? & ? & Hco & ?).
      rewrite lookup_drop_ref_ne by congruence. done.
    + intros x Hx. destruct (Hgrads x Hx) as (? & ?).
      rewrite lookup_drop_ref_ne by congruence. done.
    + exists (evs ++ [EvDecref old]). rewrite Ht, app_assoc. split; [done|].
      rewrite !Forall_app. repeat split; try done; by repeat constructor.
  - constructor; simpl; try done. eauto.
Qed.

(** Installing the new costs array (line 176). *)
Lemma Inv_costs_installed context k s v :
  Inv s0 in_act a ctx_p context k s → out_costs s = None →
  Inv s0 in_act a ctx_p context k
    (set_out_costs (Some (fresh_key (objs s)))
       (upd_objs <[fresh_key (objs s) := v]> s)).
Proof.
  intros HI Hnone. set (z := fresh_key (objs s)).
  assert (Hz : objs s !! z = None) by apply fresh_key_lookup.
  destruct HI as [Hact ? ? ? Hlive Hframe Hcopy Hcosts Hgrads ? ?].
  assert (z ≠ in_act) by (intros E; rewrite E in Hz; congruence).
  constructor; simpl; try done.
  - by rewrite lookup_insert_ne.
  - intros c Hc. destruct (Hcopy c Hc) as (Hl & ? & _ & ?).
    assert (z ≠ c) by (intros E; rewrite E in Hz; congruence).
    rewrite lookup_insert_ne by done. repeat split; try done. congruence.
  - intros x [= <-]. rewrite lookup_insert_eq. repeat split; eauto.
    intros Hg. destruct (Hgrads z Hg) as ([? ?] & _). congruence.
  - intros x Hx. destruct (Hgrads x Hx) as ([? ?] & ?). split; [|done].
    rewrite lookup_insert. case_decide; eauto.
Qed.

Lemma Inv_costs_replaced context s :
  Inv s0 in_act a ctx_p context 6 s →
  Inv s0 in_act a ctx_p context 7 (costs_replaced (minibatch_of a) s).
Proof.
  intros HI. unfold costs_replaced. cbv zeta.
  apply (Inv_mono _ _ _ _ _ 6%nat 7%nat) in HI; [|lia].
  apply Inv_costs_dropped in HI; [|lia].
  apply (Inv_costs_installed _ _ _ (zeros [minibatch_of a])) in HI; [|done].
  apply (Inv_log _ _ _ _ _ _ _
    (EvZeros SCosts [minibatch_of a]
       (Some (fresh_key (objs (released (out_costs s) s)))))) in HI;
    [exact HI|simpl; lia|done].
Qed.

Lemma Inv_costs_lost context s :
  Inv s0 in_act a ctx_p context 6 s →
  Inv s0 in_act a ctx_p context 7 (costs_lost (minibatch_of a) s).
Proof.
  intros HI. unfold costs_lost.
  apply (Inv_mono _ _ _ _ _ 6%nat 7%nat) in HI; [|lia].
  apply Inv_costs_dropped in HI; [|lia].
  apply (Inv_log _ _ _ _ _ _ _ (EvZeros SCosts [minibatch_of a] None)) in HI;
    [exact HI|simpl; lia|done].
Qed.

(** The same for the gradients (lines 199-201). *)
Lemma Inv_gradients_dropped context k s :
  Inv s0 in_act a ctx_p context k s → (0 < k)%nat →
  Inv s0 in_act a ctx_p context k
    (set_out_gradients None (released (out_gradients s) s)).
Proof.
  intros HI Hk.
  destruct HI as [Hact ? ? ? Hlive Hframe Hcopy Hcosts Hgrads ? (evs & Ht & Hf & Hs)].
  destruct (out_gradients s) as [old|] eqn:Hold; simpl.
  - destruct (Hgrads old eq_refl) as ([oo Hoo] & Hne). rewrite Hoo.
    constructor; simpl; try done.
    + by rewrite lookup_drop_ref_ne.
    + intros c Hc. destruct (Hcopy c Hc) as (? & ? & ? & Hco).
      rewrite lookup_drop_ref_ne by congruence. done.
    + intros x Hx. destruct (Hcosts x Hx) as (? & ? & ?).
      rewrite lookup_drop_ref_ne by congruence. done.
    + exists (evs ++ [EvDecref old]). rewrite Ht, app_assoc. split; [done|].
      rewrite !Forall_app. repeat split; try done; by repeat constructor.
  - constructor; simpl; try done; eauto.
Qed.

Lemma Inv_gradients_installed context k s v :
  Inv s0 in_act a ctx_p context k s → out_gradients s = None →
  Inv s0 in_act a ctx_p context k
    (set_out_gradients (Some (fresh_key (objs s)))
       (upd_objs <[fresh_key (objs s) := v]> s)).
Proof.
  intros HI Hnone. set (z := fresh_key (objs s)).
  assert (Hz : objs s !! z = None) by apply fresh_key_lookup.
  destruct HI as [Hact ? ? ? Hlive Hframe Hcopy Hcosts Hgrads ? ?].
  assert (z ≠ in_act) by (intros E; rewrite E in Hz; congruence).
  constructor; simpl; try done.
  - by rewrite lookup_insert_ne.
  - intros c Hc. destruct (Hcopy c Hc) as (Hl & ? & ? & _).
    assert (z ≠ c) by (intros E; rewrite E in Hz; congruence).
    rewrite lookup_insert_ne by done. repeat split; try done. congruence.
  - intros x Hx. destruct (Hcosts x Hx) as ([? Hl] & ? & _).
    assert (z ≠ x) by (intros E; rewrite E in Hz; congruence).
    rewrite lookup_insert_ne by done. repeat split; eauto. congruence.
  - intros x [= <-]. rewrite lookup_insert_eq. eauto.
Qed.

Lemma Inv_gradients_replaced context shape s :
  Inv s0 in_act a ctx_p context 7 s →
  Inv s0 in_act a ctx_p context 8 (gradients_replaced shape s).
Proof.
  intros HI. unfold gradients_replaced. cbv zeta.
  apply (Inv_mono _ _ _ _ _ 7%nat 8%nat) in HI; [|lia].
  apply Inv_gradients_dropped in HI; [|lia].
  apply (Inv_gradients_installed _ _ _ (zeros shape)) in HI; [|done].
  apply (Inv_log _ _ _ _ _ _ _
    (EvZeros SGradients shape
       (Some (fresh_key (objs (released (out_gradients s) s)))))) in HI;
    [exact HI|simpl; lia|done].
Qed.

Lemma Inv_gradients_lost context shape s :
  Inv s0 in_act a ctx_p context 7 s →
  Inv s0 in_act a ctx_p context 8 (gradients_lost shape s).
Proof.
  intros HI. unfold gradients_lost.
  apply (Inv_mono _ _ _ _ _ 7%nat 8%nat) in HI; [|lia].
  apply Inv_gradients_dropped in HI; [|lia].
  apply (Inv_log _ _ _ _ _ _ _ (EvZeros SGradients shape None)) in HI;
    [exact HI|simpl; lia|done].
Qed.

End Progress.

(** *** Lines 43-57 *)

Lemma append_empty_r (x : string) : String.append x "" = x.
Proof.
  induction x as [|c x IH]; [done|].
  change (String c (String.append x "") = String c x). by f_equal.
Qed.

Lemma format_check_result (msg x : string) :
  format_s "%s | CTC library error message: %s" [msg; x] =
  String.append msg (String.append " | CTC library error message: " x).
Proof. cbn. rewrite append_empty_r. reflexivity. Qed.

Lemma ctc_check_result_success env msg s :
  ctc_check_result env CTC_STATUS_SUCCESS msg s = Next 0 s.
Proof. done. Qed.

Lemma ctc_check_result_failure env status msg s :
  status ≠ CTC_STATUS_SUCCESS →
  ctc_check_result env status msg s =
    Next 1 (raised PyExc_RuntimeError (library_error env msg status) s).
Proof.
  intros Hne. unfold ctc_check_result.
  destruct (decide (CTC_STATUS_SUCCESS ≠ status)) as [_|E]; [|by destruct E].
  unfold bind, PyErr_Format. rewrite format_check_result. done.
Qed.

(** *** Lines 151-162 *)

Lemma obtain_labels_ok env in_lab l R C context s :
  objs s !! in_lab = Some l →
  dims l = [Z.of_nat R; Z.of_nat C] →
  length (items l) = (R * C)%nat →
  Z.of_nat R ≤ INT_MAX → Z.of_nat C ≤ INT_MAX → Z.of_nat (R * C) ≤ INT_MAX →
  alloc_ok env SFlatLabels = true →
  alloc_ok env SLabelLengths = true →
  let m := matrix_rows R C (items l) in
  let fl := fresh_key (heap s) in
  let ll := fresh_key (<[fl := mk_block SFlatLabels (4 * Z.of_nat (R * C))
                              (replicate (R * C) None)]> (heap s)) in
  obtain_labels env in_lab context s =
    Next (set_labels (Some fl) (Some ll) context)
      (log (EvMalloc SLabelLengths (4 * Z.of_nat R) (Some ll))
         (log (EvMalloc SFlatLabels (4 * Z.of_nat (R * C)) (Some fl))
            (upd_heap (λ h, <[ll := lengths_block R m]> (<[fl := flat_block R C m]> h))
               s))).
Proof.
  intros Ho Hd Hl HR HC HRC Hfl Hll m fl ll. unfold obtain_labels.
  by rewrite (bind_Next _ _ _ _ _
    (create_flat_labels_ok env _ _ _ _ _ _ _ Ho Hd Hl HR HC HRC Hfl Hll)).
Qed.

Lemma obtain_labels_fail_flat env in_lab l r c context s :
  objs s !! in_lab = Some l → dims l = [r; c] →
  in_int_range (to_int r * to_int c) = true →
  alloc_ok env SFlatLabels = false →
  let s1 := log (EvMalloc SFlatLabels
                   (to_size_t (to_int r * to_int c) * sizeof_int mod 2 ^ 64) None) s in
  let context' := set_labels None (label_lengths context) context in
  ctc_context_destroy context' s1 = Next () (destroyed context' s1) →
  obtain_labels env in_lab context s =
    Return 1
      (raised PyExc_MemoryError
         "Could not allocate storage for labels and their lengths"
         (destroyed context' s1)).
Proof.
  intros Ho Hd Hr Hok s1 context' Hdes. unfold obtain_labels.
  rewrite (bind_Next _ _ _ _ _
    (create_flat_labels_fail_flat env _ _ _ _ _ _ _ Ho Hd Hr Hok)).
  cbn [flat_labels label_lengths set_labels].
  rewrite (bool_decide_eq_true_2 (@None nat = None)) by done. rewrite orb_true_r.
  fold s1 context'.
  rewrite (bind_Next _ _ _ _ _ Hdes).
  by rewrite (bind_Next _ _ _ _ _ (PyErr_Format_plain _ _ _ eq_refl)).
Qed.

Lemma obtain_labels_fail_lengths env in_lab l r c context s :
  objs s !! in_lab = Some l → dims l = [r; c] →
  in_int_range (to_int r * to_int c) = true →
  alloc_ok env SFlatLabels = true →
  alloc_ok env SLabelLengths = false →
  let fl := fresh_key (heap s) in
  let s1 := log (EvFree fl)
              (log (EvMalloc SLabelLengths
                      (to_size_t (to_int r) * sizeof_int mod 2 ^ 64) None)
                 (log (EvMalloc SFlatLabels
                         (to_size_t (to_int r * to_int c) * sizeof_int mod 2 ^ 64)
                         (Some fl)) s)) in
  let context' := set_labels None None context in
  ctc_context_destroy context' s1 = Next () (destroyed context' s1) →
  obtain_labels env in_lab context s =
    Return 1
      (raised PyExc_MemoryError
         "Could not allocate storage for labels and their lengths"
         (destroyed context' s1)).
Proof.
  intros Ho Hd Hr Hfl Hll fl s1 context' Hdes. unfold obtain_labels.
  rewrite (bind_Next _ _ _ _ _
    (create_flat_labels_fail_lengths env _ _ _ _ _ _ _ Ho Hd Hr Hfl Hll)).
  cbn [flat_labels label_lengths set_labels].
  rewrite (bool_decide_eq_true_2 (@None nat = None)) by done. cbn [orb].
  fold fl s1 context'.
  rewrite (bind_Next _ _ _ _ _ Hdes).
  by rewrite (bind_Next _ _ _ _ _ (PyErr_Format_plain _ _ _ eq_refl)).
Qed.

(** *** Lines 167-215, when the new array cannot be allocated *)

Lemma prepare_costs_fail env cost_size context s :
  costs_reusable cost_size s = false →
  (∀ c, out_costs s = Some c → is_Some (objs s !! c)) →
  alloc_ok env SCosts = false →
  ctc_context_destroy context (costs_lost cost_size s) =
    Next () (destroyed context (costs_lost cost_size s)) →
  prepare_costs env cost_size context s =
    Return 1
      (raised PyExc_MemoryError "Could not allocate storage for CTC costs"
         (destroyed context (costs_lost cost_size s))).
Proof.
  intros Hr Hl Hok Hdes. unfold prepare_costs.
  rewrite (bind_Next _ _ _ _ _ (costs_mismatch_ok cost_size s Hl)).
  rewrite Hr. cbn [negb]. unfold bind at 1. unfold bind at 1.
  unfold get_out_costs at 1. unfold bind at 1.
  rewrite (Py_XDECREF_ok _ _ Hl).
  unfold bind at 1. rewrite (PyArray_ZEROS_fail env) by done.
  unfold bind at 1. unfold put_out_costs at 1.
  fold (costs_lost cost_size s).
  rewrite (bind_Next _ _ _ _ _ Hdes).
  by rewrite (bind_Next _ _ _ _ _ (PyErr_Format_plain _ _ _ eq_refl)).
Qed.

Lemma prepare_gradients_fail env in_act a a0 a1 a2 context s :
  objs s !! in_act = Some a → dims a = [a0; a1; a2] →
  gradients_reusable a s = false →
  (∀ g, out_gradients s = Some g → is_Some (objs s !! g) ∧ g ≠ in_act) →
  alloc_ok env SGradients = false →
  ctc_context_destroy context (gradients_lost (dims a) s) =
    Next () (destroyed context (gradients_lost (dims a) s)) →
  prepare_gradients env in_act context s =
    Return 1
      (raised PyExc_MemoryError "Could not allocate storage for CTC gradients!"
         (destroyed context (gradients_lost (dims a) s))).
Proof.
  intros Ha Hda Hr Hl Hok Hdes. unfold prepare_gradients.
  assert (Hl' : ∀ g, out_gradients s = Some g → is_Some (objs s !! g))
    by (intros g Hg; by apply Hl).
  rewrite (bind_Next _ _ _ _ _ (gradients_mismatch_ok in_act a a0 a1 a2 s Ha Hda Hl')).
  rewrite Hr. cbn [negb]. unfold bind at 1. unfold bind at 1.
  unfold get_out_gradients at 1. unfold bind at 1.
  rewrite (Py_XDECREF_ok _ _ Hl').
  assert (Ha' : objs (released (out_gradients s) s) !! in_act = Some a).
  { unfold released. destruct (out_gradients s) as [g|] eqn:Hg; [|done].
    destruct (Hl g eq_refl) as ([og Hog] & Hne). rewrite Hog. cbn.
    by rewrite lookup_drop_ref_ne. }
  rewrite (bind_Next _ _ _ _ _ (PyArray_DIMS_ok in_act a 0 a0 _ Ha' ltac:(by rewrite Hda))).
  rewrite (bind_Next _ _ _ _ _ (PyArray_DIMS_ok in_act a 1 a1 _ Ha' ltac:(by rewrite Hda))).
  rewrite (bind_Next _ _ _ _ _ (PyArray_DIMS_ok in_act a 2 a2 _ Ha' ltac:(by rewrite Hda))).
  unfold bind at 1. rewrite (PyArray_ZEROS_fail env) by done.
  unfold bind at 1. unfold put_out_gradients at 1.
  rewrite <- Hda. fold (gradients_lost (dims a) s).
  rewrite (bind_Next _ _ _ _ _ Hdes).
  by rewrite (bind_Next _ _ _ _ _ (PyErr_Format_plain _ _ _ eq_refl)).
Qed.

(** *** Lines 217-251 *)

Section QueryAndCompute.

Variable env : Env.
Variables (context_p : nat) (context : ctc_context_t).
Variables (activations gradients costs : nat).
Variables (alphabet_size minibatch_size : Z).

Lemma call_get_workspace_size_eq s :
  call_get_workspace_size env (ws_args context alphabet_size minibatch_size) s =
    Next ((get_workspace_size env (heap s)
             (ws_args context alphabet_size minibatch_size)).1,
          workspace_size env context alphabet_size minibatch_size s)
      (queried env context alphabet_size minibatch_size s).
Proof. done. Qed.

Lemma query_and_compute_query_failed s :
  let status := (get_workspace_size env (heap s)
                   (ws_args context alphabet_size minibatch_size)).1 in
  status ≠ CTC_STATUS_SUCCESS →
  query_and_compute env context_p context activations gradients costs
      alphabet_size minibatch_size s =
    Return 1
      (raised PyExc_RuntimeError
         (library_error env "Failed to obtain CTC workspace size!" status)
         (queried env context alphabet_size minibatch_size s)).
Proof.
  intros status Hne. unfold query_and_compute.
  fold (ws_args context alphabet_size minibatch_size).
  rewrite (bind_Next _ _ _ _ _ (call_get_workspace_size_eq s)).
  fold status.
  by rewrite (bind_Next _ _ _ _ _ (ctc_check_result_failure env _ _ _ Hne)).
Qed.

Lemma query_and_compute_workspace_failed s :
  (get_workspace_size env (heap s)
     (ws_args context alphabet_size minibatch_size)).1 = CTC_STATUS_SUCCESS →
  alloc_ok env SWorkspace = false →
  let s1 := log (EvMalloc SWorkspace
                   (workspace_size env context alphabet_size minibatch_size s) None)
              (queried env context alphabet_size minibatch_size s) in
  let context' := set_workspace None context in
  ctc_context_destroy context' s1 = Next () (destroyed context' s1) →
  query_and_compute env context_p context activations gradients costs
      alphabet_size minibatch_size s =
    Return 1
      (raised PyExc_MemoryError "Failed to allocate memory for CTC workspace!"
         (destroyed context' s1)).
Proof.
  intros Hst Hok s1 context' Hdes. unfold query_and_compute.
  fold (ws_args context alphabet_size minibatch_size).
  rewrite (bind_Next _ _ _ _ _ (call_get_workspace_size_eq s)).
  rewrite Hst.
  rewrite (bind_Next _ _ _ _ _ (ctc_check_result_success env _ _)).
  cbn [Z.eqb negb].
  rewrite (bind_Next _ _ _ _ _ (malloc_fail env _ _ _ Hok)).
  cbn [workspace set_workspace]. fold s1 context'.
  rewrite (bind_Next _ _ _ _ _ Hdes).
  by rewrite (bind_Next _ _ _ _ _ (PyErr_Format_plain _ _ _ eq_refl)).
Qed.

Lemma query_and_compute_compute_failed s :
  (get_workspace_size env (heap s)
     (ws_args context alphabet_size minibatch_size)).1 = CTC_STATUS_SUCCESS →
  alloc_ok env SWorkspace = true →
  let status := compute_status env context activations gradients costs
                  alphabet_size minibatch_size s in
  status ≠ CTC_STATUS_SUCCESS →
  query_and_compute env context_p context activations gradients costs
      alphabet_size minibatch_size s =
    Return 1
      (raised PyExc_RuntimeError
         (library_error env "Failed to compute CTC loss function!" status)
         (computed env context activations gradients costs
            alphabet_size minibatch_size s)).
Proof.
  intros Hst Hok status Hne. unfold query_and_compute.
  fold (ws_args context alphabet_size minibatch_size).
  rewrite (bind_Next _ _ _ _ _ (call_get_workspace_size_eq s)).
  rewrite Hst.
  rewrite (bind_Next _ _ _ _ _ (ctc_check_result_success env _ _)).
  cbn [Z.eqb negb].
  rewrite (bind_Next _ _ _ _ _ (malloc_ok env _ _ _ Hok)). cbv zeta.
  cbn [workspace set_workspace heap log].
  unfold bind at 1. unfold call_compute_ctc_loss at 1. cbv zeta.
  unfold bind at 1.
  change (ctc_check_result env _ _ _) with
    (ctc_check_result env status "Failed to compute CTC loss function!"
       (computed env context activations gradients costs
          alphabet_size minibatch_size s)).
  by rewrite (ctc_check_result_failure env _ _ _ Hne).
Qed.

Lemma query_and_compute_success s :
  (get_workspace_size env (heap s)
     (ws_args context alphabet_size minibatch_size)).1 = CTC_STATUS_SUCCESS →
  alloc_ok env SWorkspace = true →
  compute_status env context activations gradients costs
    alphabet_size minibatch_size s = CTC_STATUS_SUCCESS →
  let s2 := computed env context activations gradients costs
              alphabet_size minibatch_size s in
  let context' := set_workspace (Some (fresh_key (heap s))) context in
  ctc_context_destroy context' s2 = Next () (destroyed context' s2) →
  is_Some (heap (destroyed context' s2) !! context_p) →
  query_and_compute env context_p context activations gradients costs
      alphabet_size minibatch_size s =
    Return 0
      (log (EvFree context_p)
         (upd_heap (delete context_p) (destroyed context' s2))).
Proof.
  intros Hst Hok Hst2 s2 context' Hdes [b Hb]. unfold query_and_compute.
  fold (ws_args context alphabet_size minibatch_size).
  rewrite (bind_Next _ _ _ _ _ (call_get_workspace_size_eq s)).
  rewrite Hst.
  rewrite (bind_Next _ _ _ _ _ (ctc_check_result_success env _ _)).
  cbn [Z.eqb negb].
  rewrite (bind_Next _ _ _ _ _ (malloc_ok env _ _ _ Hok)). cbv zeta.
  cbn [workspace set_workspace heap log].
  unfold bind at 1. unfold call_compute_ctc_loss at 1. cbv zeta.
  unfold bind at 1.
  change (ctc_check_result env _ _ _) with
    (ctc_check_result env
       (compute_status env context activations gradients costs
          alphabet_size minibatch_size s)
       "Failed to compute CTC loss function!" s2).
  rewrite Hst2, ctc_check_result_success. cbn [Z.eqb negb].
  fold context'.
  rewrite (bind_Next _ _ _ _ _ Hdes).
  by rewrite (bind_Next _ _ _ _ _ (free_ok _ _ _ Hb)).
Qed.

End QueryAndCompute.

(** ** From the call to each block *)

Lemma ctc_cost_cpu_eq env in_act in_lab in_il s :
  ctc_cost_cpu env in_act in_lab in_il s =
  match malloc env SContext sizeof_ctc_context_t s with
  | Next (Some context_p) s1 =>
      entry_from_activations env context_p in_act in_lab in_il s1
  | Next None _ => Undefined
  | Return rc s1 => Return rc s1
  | Undefined => Undefined
  end.
Proof.
  unfold ctc_cost_cpu, bind at 1.
  destruct (malloc env SContext sizeof_ctc_context_t s) as [|rc s1|[p|] s1]; done.
Qed.

Lemma allocations_ok_site env a s k site :
  allocations_ok env a s k = true →
  (site_stage site < k)%nat → attempted a s site = true →
  alloc_ok env site = true.
Proof.
  unfold allocations_ok. rewrite forallb_forall. intros H Hk Hat.
  specialize (H site). rewrite Hat, andb_true_r in H.
  apply Nat.ltb_lt in Hk. rewrite Hk in H. simpl in H. apply H.
  destruct site; unfold all_sites; simpl; tauto.
Qed.

Lemma allocations_ok_mono env a s k k' :
  (k ≤ k')%nat → allocations_ok env a s k' = true → allocations_ok env a s k = true.
Proof.
  unfold allocations_ok. rewrite !forallb_forall. intros Hk H site Hin.
  specialize (H site Hin).
  destruct (Nat.ltb_spec (site_stage site) k) as [Hlt|]; [|done].
  assert ((site_stage site <? k')%nat = true) as E by (apply Nat.ltb_lt; lia).
  by rewrite E in H.
Qed.

Lemma Inv_new_buffer s0 in_act a ctx_p context context' k s p b :
  Inv s0 in_act a ctx_p context k s → heap s !! p = None →
  buffers context' ≡ₚ p :: buffers context →
  activations_copy context' = activations_copy context →
  Inv s0 in_act a ctx_p context' k (upd_heap <[p := b]> s).
Proof.
  intros HI Hp Hperm Hac.
  destruct (Inv_fresh_buffer _ _ _ _ _ _ _ _ HI Hp) as (Hnb & _ & _).
  eapply Inv_add_buffer; try done.
  - intros q. rewrite Hperm, elem_of_cons. done.
  - rewrite Hperm. apply NoDup_cons. split; [done|]. by destruct HI.
Qed.

Section Reach.

Variable env : Env.
Variable s0 : State.
Variables (in_act in_lab in_il : nat).
Variables (a l i : PyArrayObject).

Hypothesis Ha : objs s0 !! in_act = Some a.
Hypothesis Hl : objs s0 !! in_lab = Some l.
Hypothesis Hi : objs s0 !! in_il = Some i.
Hypothesis Hh : handles_ok in_act s0 = true.

Lemma costs_reusable_reached context k s n :
  Reached s0 in_act a context k s → costs_reusable n s = costs_reusable n s0.
Proof.
  intros [HI Ho Hc _]. unfold costs_reusable. rewrite Hc.
  destruct (out_costs s0) as [c|] eqn:E; [|done].
  destruct (handles_ok_costs _ _ _ Hh E) as ([oc Hoc] & _).
  by rewrite (Ho c oc Hoc), Hoc.
Qed.

Lemma gradients_reusable_reached context k s :
  Reached s0 in_act a context k s →
  gradients_reusable a s = gradients_reusable a s0.
Proof.
  intros [HI Ho _ Hg]. unfold gradients_reusable. rewrite Hg.
  destruct (out_gradients s0) as [g|] eqn:E; [|done].
  destruct (handles_ok_gradients _ _ _ Hh E) as ([og Hog] & _).
  by rewrite (Ho g og Hog), Hog.
Qed.

(** Up to line 141. *)
Lemma reach_input_lengths :
  allocations_ok env a s0 3 = true →
  ∃ copy act s,
    ctc_cost_cpu env in_act in_lab in_il s0 =
      entry_from_input_lengths env (fresh_key (heap s0)) in_act in_lab in_il
        (context_at env copy None None None None) act s ∧
    Reached s0 in_act a (context_at env copy None None None None) 3 s ∧
    (c_contiguous a = true → copy = None ∧ act = in_act) ∧
    (c_contiguous a = false →
       copy = Some (fresh_key (objs s0)) ∧ act = fresh_key (objs s0)).
Proof.
  intros Hok.
  pose proof (allocations_ok_site env a s0 3 SContext Hok ltac:(simpl; lia) eq_refl) as Hctx.
  rewrite ctc_cost_cpu_eq, malloc_ok by done. cbv zeta.
  set (s1 := log _ _).
  assert (HI1 : Inv s0 in_act a (fresh_key (heap s0))
                  (ctc_context_init (fresh_context env)) 2 s1).
  { by apply (Inv_init env). }
  unfold entry_from_activations. cbv zeta.
  destruct (c_contiguous a) eqn:Hc.
  - rewrite (bind_Next _ _ _ _ _
      (obtain_activations_contiguous env in_act a _ s1 Ha Hc)).
    exists None, in_act, s1. split; [reflexivity|]. split; [|by split].
    constructor; try done.
    apply (Inv_mono _ _ _ _ _ 2%nat 3%nat); [lia|exact HI1].
  - pose proof (allocations_ok_site env a s0 3 SActivationsCopy Hok
        ltac:(simpl; lia) ltac:(simpl; by rewrite Hc)) as Hcopy.
    rewrite (bind_Next _ _ _ _ _
      (obtain_activations_copy env in_act a _ s1 Ha Hc Hcopy)).
    cbv zeta. set (c := fresh_key (objs s1)).
    exists (Some c), c, (log (EvGetContiguous in_act (Some c))
                           (upd_objs <[c := copy_of a]> s1)).
    assert (Hcf : objs s0 !! c = None) by apply fresh_key_lookup.
    split; [reflexivity|]. split; [|by split].
    constructor; try done.
    + exact (Inv_copy _ _ _ _ _ _ HI1).
    + intros y v Hy. cbn. rewrite lookup_insert_ne; [done|].
      intros <-. congruence.
Qed.

(** Up to line 150. *)
Lemma reach_labels :
  allocations_ok env a s0 4 = true → lengths_ok i = true →
  ∃ copy act il s,
    ctc_cost_cpu env in_act in_lab in_il s0 =
      entry_from_labels env (fresh_key (heap s0)) in_act in_lab
        (context_at env copy (Some il) None None None) act s ∧
    Reached s0 in_act a (context_at env copy (Some il) None None None) 4 s ∧
    (c_contiguous a = true → copy = None ∧ act = in_act) ∧
    (c_contiguous a = false →
       copy = Some (fresh_key (objs s0)) ∧ act = fresh_key (objs s0)).
Proof.
  intros Hok Hiok.
  destruct (reach_input_lengths (allocations_ok_mono _ _ _ 3 4 ltac:(lia) Hok))
    as (copy & act & s & Heq & [HI Ho Hc Hg] & Hcont).
  destruct (lengths_ok_dims _ Hiok) as (N & Hd & Hlen & HN).
  pose proof (allocations_ok_site env a s0 4 SInputLengths Hok
        ltac:(simpl; lia) eq_refl) as Hil.
  rewrite Heq. unfold entry_from_input_lengths.
  rewrite (bind_Next _ _ _ _ _
    (obtain_input_lengths_ok env in_il i N _ s (Ho _ _ Hi) Hd Hlen HN Hil)).
  cbv zeta. set (p := fresh_key (heap s)).
  exists copy, act, p. eexists. split; [reflexivity|]. split; [|done].
  constructor; try done.
  apply (Inv_malloc _ _ _ _ (context_at env copy None None None None)
           (context_at env copy (Some p) None None None) 3 4);
    [exact HI|lia|simpl; lia|reflexivity|reflexivity].
Qed.

(** Up to line 163. *)
Lemma reach_costs :
  allocations_ok env a s0 6 = true → lengths_ok i = true → labels_ok l = true →
  ∃ copy act il fl ll s,
    ctc_cost_cpu env in_act in_lab in_il s0 =
      entry_from_costs env (fresh_key (heap s0)) in_act
        (context_at env copy (Some il) (Some fl) (Some ll) None) act s ∧
    Reached s0 in_act a (context_at env copy (Some il) (Some fl) (Some ll) None) 6 s ∧
    (c_contiguous a = true → copy = None ∧ act = in_act) ∧
    (c_contiguous a = false →
       copy = Some (fresh_key (objs s0)) ∧ act = fresh_key (objs s0)).
Proof.
  intros Hok Hiok Hlok.
  destruct (reach_labels (allocations_ok_mono _ _ _ 4 6 ltac:(lia) Hok) Hiok)
    as (copy & act & il & s & Heq & [HI Ho Hc Hg] & Hcont).
  destruct (labels_ok_dims _ Hlok) as (R & C & Hd & Hlen & HR & HC & HRC & _).
  pose proof (allocations_ok_site env a s0 6 SFlatLabels Hok
        ltac:(simpl; lia) eq_refl) as Hfl.
  pose proof (allocations_ok_site env a s0 6 SLabelLengths Hok
        ltac:(simpl; lia) eq_refl) as Hll.
  rewrite Heq. unfold entry_from_labels.
  rewrite (bind_Next _ _ _ _ _
    (obtain_labels_ok env in_lab l R C _ s (Ho _ _ Hl) Hd Hlen HR HC HRC Hfl Hll)).
  cbv zeta. set (fl := fresh_key (heap s)).
  set (b0 := mk_block SFlatLabels _ (replicate _ _)).
  set (ll := fresh_key (<[fl := b0]> (heap s))).
  exists copy, act, il, fl, ll. eexists. split; [reflexivity|]. split; [|done].
  constructor; try done.
  pose proof (fresh_key_lookup (<[fl := b0]> (heap s))) as Hfresh.
  fold ll in Hfresh. apply lookup_insert_None in Hfresh as [Hll0 Hne].
  set (m := matrix_rows R C (items l)).
  assert (HI1 : Inv s0 in_act a (fresh_key (heap s0))
                  (context_at env copy (Some il) (Some fl) None None) 5
                  (log (EvMalloc SFlatLabels (4 * Z.of_nat (R * C)) (Some fl))
                     (upd_heap <[fl := flat_block R C m]> s))).
  { apply (Inv_malloc _ _ _ _ (context_at env copy (Some il) None None None)
             (context_at env copy (Some il) (Some fl) None None) 4 5);
      [exact HI|lia|simpl; lia|cbn; apply Permutation_swap|reflexivity]. }
  apply (Inv_log _ _ _ _ _ _ _ (EvMalloc SLabelLengths (4 * Z.of_nat R) (Some ll)));
    [simpl; lia|done|].
  apply (Inv_mono _ _ _ _ _ 5%nat 6%nat); [lia|].
  refine (Inv_new_buffer _ _ _ _ (context_at env copy (Some il) (Some fl) None None)
            (context_at env copy (Some il) (Some fl) (Some ll) None) 5 _ ll
            (lengths_block R m) HI1 _ _ _).
  - cbn. by rewrite lookup_insert_ne.
  - cbn. change [il; fl; ll] with ([il; fl] ++ [ll]).
    symmetry. apply Permutation_cons_append.
  - reflexivity.
Qed.

Hypothesis Hda : activations_ok a = true.
Hypothesis Hiok : lengths_ok i = true.
Hypothesis Hlok : labels_ok l = true.

(** Up to line 190. *)
Lemma reach_gradients :
  allocations_ok env a s0 7 = true →
  ∃ copy act il fl ll costs s,
    ctc_cost_cpu env in_act in_lab in_il s0 =
      entry_from_gradients env (fresh_key (heap s0)) in_act
        (context_at env copy (Some il) (Some fl) (Some ll) None) act costs
        (alphabet_of a) (minibatch_of a) s ∧
    Inv s0 in_act a (fresh_key (heap s0))
      (context_at env copy (Some il) (Some fl) (Some ll) None) 7 s ∧
    out_costs s = Some costs ∧
    costs_reusable (minibatch_of a) s = true ∧
    gradients_reusable a s = gradients_reusable a s0 ∧
    (c_contiguous a = true → copy = None ∧ act = in_act) ∧
    (c_contiguous a = false →
       copy = Some (fresh_key (objs s0)) ∧ act = fresh_key (objs s0)).
Proof.
  intros Hok.
  destruct (reach_costs (allocations_ok_mono _ _ _ 6 7 ltac:(lia) Hok) Hiok Hlok)
    as (copy & act & il & fl & ll & s & Heq & HR & Hcont).
  pose proof (costs_reusable_reached _ _ _ (minibatch_of a) HR) as Hcr.
  pose proof (gradients_reusable_reached _ _ _ HR) as Hgr.
  destruct HR as [HI Ho Hc Hg].
  destruct (activations_ok_dims _ Hda) as (t & b & n & Hd).
  pose proof (inv_act _ _ _ _ _ _ _ HI) as Hact.
  rewrite Heq. unfold entry_from_costs.
  rewrite (bind_Next _ _ _ _ _ (PyArray_DIMS_ok in_act a 1 b s Hact ltac:(by rewrite Hd))).
  rewrite (bind_Next _ _ _ _ _ (PyArray_DIMS_ok in_act a 2 n s Hact ltac:(by rewrite Hd))).
  cbv zeta.
  assert (to_int b = minibatch_of a) as -> by (unfold minibatch_of; by rewrite Hd).
  assert (to_int n = alphabet_of a) as -> by (unfold alphabet_of; by rewrite Hd).
  destruct (costs_reusable (minibatch_of a) s) eqn:Hre.
  - destruct (costs_reusable_handle _ _ Hre) as (c & oc & Hoc & _).
    rewrite (bind_Next _ _ _ _ _ (prepare_costs_reuse env _ _ s c Hre Hoc)).
    exists copy, act, il, fl, ll, c, s. split; [reflexivity|].
    split; [apply (Inv_mono _ _ _ _ _ 6%nat 7%nat); [lia|exact HI]|]. done.
  - pose proof (allocations_ok_site env a s0 7 SCosts Hok
        ltac:(simpl; lia) ltac:(simpl; by rewrite <- Hcr)) as Hcosts.
    assert (Hlive : ∀ c, out_costs s = Some c → is_Some (objs s !! c)).
    { intros c Hcs. by destruct (inv_costs _ _ _ _ _ _ _ HI c Hcs). }
    rewrite (bind_Next _ _ _ _ _ (prepare_costs_replace env _ _ s Hre Hlive Hcosts)).
    pose proof (Inv_costs_replaced _ _ _ _ _ _ HI) as HI'.
    eexists copy, act, il, fl, ll, _, _. split; [reflexivity|].
    split; [exact HI'|]. split; [reflexivity|]. split; [|split; [|done]].
    + unfold costs_reusable, costs_replaced. cbn.
      rewrite lookup_insert_eq. by rewrite bool_decide_eq_true_2.
    + rewrite <- Hgr. unfold gradients_reusable, costs_replaced. cbn.
      rewrite out_gradients_released.
      destruct (out_gradients s) as [g|] eqn:Hgs; [|done].
      destruct (inv_grads _ _ _ _ _ _ _ (Inv_costs_dropped _ _ _ _ _ _ _ HI ltac:(lia)) g)
        as ([og Hog] & _).
      { cbn. by rewrite out_gradients_released. }
      cbn in Hog. rewrite lookup_insert_ne.
      * rewrite Hog. unfold released in Hog.
        destruct (out_costs s) as [old|] eqn:Hold; [|by rewrite Hog].
        destruct (inv_costs _ _ _ _ _ _ _ HI old Hold) as ([oo Hoo] & _ & Hne).
        rewrite Hoo in Hog. cbn in Hog.
        rewrite lookup_drop_ref_ne in Hog by congruence. by rewrite Hog.
      * intros E. pose proof (fresh_key_lookup (objs (released (out_costs s) s))) as F.
        rewrite E in F. congruence.
Qed.

(** Up to line 216. *)
Lemma reach_query :
  allocations_ok env a s0 8 = true →
  ∃ copy act il fl ll costs gradients s,
    ctc_cost_cpu env in_act in_lab in_il s0 =
      query_and_compute env (fresh_key (heap s0))
        (context_at env copy (Some il) (Some fl) (Some ll) None) act gradients costs
        (alphabet_of a) (minibatch_of a) s ∧
    Inv s0 in_act a (fresh_key (heap s0))
      (context_at env copy (Some il) (Some fl) (Some ll) None) 8 s ∧
    out_costs s = Some costs ∧ out_gradients s = Some gradients ∧
    costs_reusable (minibatch_of a) s = true ∧
    gradients_reusable a s = true ∧
    (c_contiguous a = true → copy = None ∧ act = in_act) ∧
    (c_contiguous a = false →
       copy = Some (fresh_key (objs s0)) ∧ act = fresh_key (objs s0)).
Proof.
  intros Hok.
  destruct (reach_gradients (allocations_ok_mono _ _ _ 7 8 ltac:(lia) Hok))
    as (copy & act & il & fl & ll & costs & s & Heq & HI & Hoc & Hcr & Hgr & Hcont).
  destruct (activations_ok_dims _ Hda) as (t & b & n & Hd).
  pose proof (inv_act _ _ _ _ _ _ _ HI) as Hact.
  rewrite Heq. unfold entry_from_gradients.
  destruct (gradients_reusable a s) eqn:Hre.
  - destruct (gradients_reusable_handle _ _ Hre) as (g & og & Hog & _).
    rewrite (bind_Next _ _ _ _ _
      (prepare_gradients_reuse env in_act a t b n _ s g Hact Hd Hre Hog)).
    exists copy, act, il, fl, ll, costs, g, s. split; [reflexivity|].
    split; [apply (Inv_mono _ _ _ _ _ 7%nat 8%nat); [lia|exact HI]|]. done.
  - pose proof (allocations_ok_site env a s0 8 SGradients Hok
        ltac:(simpl; lia) ltac:(simpl; by rewrite <- Hgr)) as Hgrads.
    assert (Hlive : ∀ g, out_gradients s = Some g →
                         is_Some (objs s !! g) ∧ g ≠ in_act).
    { intros g Hgs. by apply (inv_grads _ _ _ _ _ _ _ HI). }
    rewrite (bind_Next _ _ _ _ _
      (prepare_gradients_replace env in_act a t b n _ s Hact Hd Hre Hlive Hgrads)).
    pose proof (Inv_gradients_replaced _ _ _ _ _ (dims a) _ HI) as HI'.
    eexists copy, act, il, fl, ll, costs, _, _. split; [reflexivity|].
    split; [exact HI'|]. split; [cbn; by rewrite out_costs_released|].
    split; [reflexivity|].
    split; [|split; [|done]].
    + destruct (costs_reusable_handle _ _ Hcr) as (c & oc & Hc & Hocl & Hdc).
      unfold costs_reusable, gradients_replaced. cbn.
      rewrite out_costs_released, Hc.
      assert (objs (released (out_gradients s) s) !! c = Some oc) as Hrel.
      { unfold released. destruct (out_gradients s) as [old|] eqn:Hold; [|done].
        destruct (Hlive old eq_refl) as ([oo Hoo] & _). rewrite Hoo. cbn.
        destruct (inv_costs _ _ _ _ _ _ _ HI c Hc) as (_ & _ & Hne).
        rewrite lookup_drop_ref_ne by congruence. done. }
      rewrite lookup_insert_ne.
      * rewrite Hrel. by rewrite bool_decide_eq_true_2.
      * intros E. pose proof (fresh_key_lookup (objs (released (out_gradients s) s))) as F.
        rewrite E in F. congruence.
    + unfold gradients_reusable, gradients_replaced. cbn.
      rewrite lookup_insert_eq. cbn. rewrite Hd. cbn.
      by rewrite bool_decide_eq_true_2.
Qed.

End Reach.

(** ** Exits of the entry point *)

Lemma run_Return env in_act in_lab in_il s rc s' :
  ctc_cost_cpu env in_act in_lab in_il s = Return rc s' →
  run_ctc_cost_cpu env in_act in_lab in_il s = Some (rc, s').
Proof. unfold run_ctc_cost_cpu. by intros ->. Qed.

Lemma trace_raised_destroyed exc msg context s :
  ∃ rel, trace (raised exc msg (destroyed context s)) =
           trace s ++ rel ++ [EvErr exc msg] ∧
         Forall (λ e, is_release e = true) rel.
Proof.
  destruct (trace_destroyed context s) as (rel & E & F).
  exists rel. cbn. by rewrite E, <- app_assoc.
Qed.

Section Exit.

Variable env : Env.
Variable s0 : State.
Variables (in_act in_lab in_il : nat).
Variables (a l i : PyArrayObject).

Hypothesis Ha : objs s0 !! in_act = Some a.
Hypothesis Hl : objs s0 !! in_lab = Some l.
Hypothesis Hi : objs s0 !! in_il = Some i.
Hypothesis Hh : handles_ok in_act s0 = true.
Hypothesis Hda : activations_ok a = true.
Hypothesis Hiok : lengths_ok i = true.
Hypothesis Hlok : labels_ok l = true.

(** An exit through [ctc_context_destroy]: [s] is the state in which the
    clean-up starts, after the failed attempt [fail] and the releases
    [rel0]. *)
Lemma oom_exit_destroyed site context k s pre fail rel0 :
  Inv s0 in_act a (fresh_key (heap s0)) context k s →
  trace s = trace s0 ++ pre ++ [fail] ++ rel0 →
  failed_attempt site fail = true →
  Forall (λ e, (event_stage e < site_stage site)%nat) pre →
  Forall (event_sizes_ok (minibatch_of a) (alphabet_of a)) (pre ++ [fail]) →
  Forall (λ e, is_release e = true) rel0 →
  (c_contiguous a = false → activations_copy context = Some (fresh_key (objs s0))) →
  OomExit s0 a site (raised PyExc_MemoryError (oom_message site) (destroyed context s)) ∧
  cleaned_up s0 a (raised PyExc_MemoryError (oom_message site) (destroyed context s)).
Proof.
  intros HI Ht Hfa Hpre Hsz Hrel Hcopy. split; [constructor|split].
  - done.
  - destruct (trace_raised_destroyed PyExc_MemoryError (oom_message site) context s)
      as (rel & E & F).
    exists pre, fail, (rel0 ++ rel). rewrite E, Ht, <- !app_assoc.
    repeat split; try done. by apply Forall_app.
  - cbn. exact (heap_destroyed_Inv _ _ _ _ _ _ _ HI).
  - intros Hc. cbn. exact (copy_destroyed_Inv _ _ _ _ _ _ _ _ HI (Hcopy Hc)).
Qed.

(** The copy of the activations cannot be made (line 136). *)
Lemma exit_copy_failed :
  alloc_ok env SContext = true →
  c_contiguous a = false → alloc_ok env SActivationsCopy = false →
  ∃ s', run_ctc_cost_cpu env in_act in_lab in_il s0 = Some (1, s') ∧
        OomExit s0 a SActivationsCopy s'.
Proof.
  intros Hctx Hc Hcopy. eexists. split.
  - apply run_Return. rewrite ctc_cost_cpu_eq, malloc_ok by done. cbv zeta.
    unfold entry_from_activations. cbv zeta.
    erewrite bind_Return; [reflexivity|].
    by apply (obtain_activations_fail env in_act a).
  - constructor; [done|].
    exists [EvMalloc SContext sizeof_ctc_context_t (Some (fresh_key (heap s0)))],
      (EvGetContiguous in_act None), [].
    cbn. rewrite <- !app_assoc. repeat split; try done.
    + repeat constructor.
    + by repeat constructor.
Qed.

(** The input lengths cannot be allocated (line 146). *)
Lemma exit_input_lengths_failed :
  allocations_ok env a s0 3 = true → alloc_ok env SInputLengths = false →
  ∃ s', run_ctc_cost_cpu env in_act in_lab in_il s0 = Some (1, s') ∧
        OomExit s0 a SInputLengths s'.
Proof.
  intros Hok Hil.
  destruct (reach_input_lengths env s0 in_act in_lab in_il a Ha Hh Hok)
    as (copy & act & s & Heq & [HI Ho Hc Hg] & Hcont).
  destruct (lengths_ok_dims _ Hiok) as (N & Hd & Hlen & HN).
  eexists. split.
  - apply run_Return. rewrite Heq. unfold entry_from_input_lengths.
    erewrite bind_Return; [reflexivity|].
    by apply (obtain_input_lengths_fail env in_il i (Z.of_nat N) [] _ s (Ho _ _ Hi)).
  - destruct (inv_trace _ _ _ _ _ _ _ HI) as (evs & Ht & Hf & Hs).
    constructor; [done|].
    eexists evs, _, []. cbn. rewrite Ht, <- !app_assoc.
    split; [reflexivity|]. repeat split; try done.
    apply Forall_app. split; [done|]. by repeat constructor.
Qed.

(** The flat labels cannot be allocated (line 82). *)
Lemma exit_flat_labels_failed :
  allocations_ok env a s0 4 = true → alloc_ok env SFlatLabels = false →
  ∃ s', run_ctc_cost_cpu env in_act in_lab in_il s0 = Some (1, s') ∧
        OomExit s0 a SFlatLabels s' ∧ cleaned_up s0 a s'.
Proof.
  intros Hok Hfl.
  destruct (reach_labels env s0 in_act in_lab in_il a i Ha Hi Hh Hok Hiok)
    as (copy & act & il & s & Heq & [HI Ho Hc Hg] & Hcont).
  destruct (labels_ok_dims _ Hlok) as (R & C & Hd & Hlen & HR & HC & HRC & _).
  assert (INT_MIN ≤ 0) by (unfold INT_MIN; lia).
  assert (Hrange : in_int_range (to_int (Z.of_nat R) * to_int (Z.of_nat C)) = true).
  { rewrite !to_int_id by lia. apply in_int_range_true. lia. }
  set (fail := EvMalloc SFlatLabels
                 (to_size_t (to_int (Z.of_nat R) * to_int (Z.of_nat C))
                  * sizeof_int mod 2 ^ 64) None).
  assert (HI' : Inv s0 in_act a (fresh_key (heap s0))
                  (context_at env copy (Some il) None None None) 5 (log fail s)).
  { apply (Inv_malloc_failed _ _ _ _ _ 4%nat 5%nat); try done; simpl; lia. }
  destruct (inv_trace _ _ _ _ _ _ _ HI) as (evs & Ht & Hf & Hs).
  destruct (oom_exit_destroyed SFlatLabels _ 5 (log fail s) evs fail [] HI')
    as (Hoom & Hclean); try done.
  { cbn. by rewrite Ht, <- !app_assoc. }
  { apply Forall_app. split; [done|]. by repeat constructor. }
  { intros Hcc. by destruct (proj2 Hcont Hcc) as (-> & _). }
  eexists. split; [|split; [exact Hoom|exact Hclean]].
  apply run_Return. rewrite Heq. unfold entry_from_labels.
  erewrite bind_Return; [reflexivity|].
  apply (obtain_labels_fail_flat env in_lab l _ _ _ s (Ho _ _ Hl) Hd Hrange Hfl).
  exact (destroy_Inv _ _ _ _ _ _ _ HI').
Qed.

(** The label lengths cannot be allocated (line 86). *)
Lemma exit_label_lengths_failed :
  allocations_ok env a s0 5 = true → alloc_ok env SLabelLengths = false →
  ∃ s', run_ctc_cost_cpu env in_act in_lab in_il s0 = Some (1, s') ∧
        OomExit s0 a SLabelLengths s' ∧ cleaned_up s0 a s'.
Proof.
  intros Hok Hll.
  destruct (reach_labels env s0 in_act in_lab in_il a i Ha Hi Hh
              (allocations_ok_mono _ _ _ 4 5 ltac:(lia) Hok) Hiok)
    as (copy & act & il & s & Heq & [HI Ho Hc Hg] & Hcont).
  pose proof (allocations_ok_site env a s0 5 SFlatLabels Hok
        ltac:(simpl; lia) eq_refl) as Hfl.
  destruct (labels_ok_dims _ Hlok) as (R & C & Hd & Hlen & HR & HC & HRC & _).
  assert (INT_MIN ≤ 0) by (unfold INT_MIN; lia).
  assert (Hrange : in_int_range (to_int (Z.of_nat R) * to_int (Z.of_nat C)) = true).
  { rewrite !to_int_id by lia. apply in_int_range_true. lia. }
  set (fl := fresh_key (heap s)).
  set (e1 := EvMalloc SFlatLabels
               (to_size_t (to_int (Z.of_nat R) * to_int (Z.of_nat C))
                * sizeof_int mod 2 ^ 64) (Some fl)).
  set (fail := EvMalloc SLabelLengths
                 (to_size_t (to_int (Z.of_nat R)) * sizeof_int mod 2 ^ 64) None).
  assert (HI' : Inv s0 in_act a (fresh_key (heap s0))
                  (context_at env copy (Some il) None None None) 6
                  (log (EvFree fl) (log fail (log e1 s)))).
  { apply Inv_log; [simpl; lia|done|].
    apply Inv_log; [simpl; lia|done|].
    apply (Inv_malloc_failed _ _ _ _ _ 4%nat 6%nat); try done; simpl; lia. }
  destruct (inv_trace _ _ _ _ _ _ _ HI) as (evs & Ht & Hf & Hs).
  destruct (oom_exit_destroyed SLabelLengths _ 6 (log (EvFree fl) (log fail (log e1 s)))
              (evs ++ [e1]) fail [EvFree fl] HI')
    as (Hoom & Hclean); try done.
  { cbn. by rewrite Ht, <- !app_assoc. }
  { apply Forall_app. split; [|by repeat constructor].
    eapply Forall_impl; [exact Hf|]. simpl. lia. }
  { rewrite !Forall_app. repeat split; try done; by repeat constructor. }
  { by repeat constructor. }
  { intros Hcc. by destruct (proj2 Hcont Hcc) as (-> & _). }
  eexists. split; [|split; [exact Hoom|exact Hclean]].
  apply run_Return. rewrite Heq. unfold entry_from_labels.
  erewrite bind_Return; [reflexivity|].
  apply (obtain_labels_fail_lengths env in_lab l _ _ _ s (Ho _ _ Hl) Hd Hrange Hfl Hll).
  exact (destroy_Inv _ _ _ _ _ _ _ HI').
Qed.

Lemma release_stage e : is_release e = true → event_stage e = 0%nat.
Proof. by destruct e. Qed.

Lemma release_sizes_ok n m e : is_release e = true → event_sizes_ok n m e.
Proof. by destruct e. Qed.

Lemma Forall_release_stage k rel :
  (0 < k)%nat → Forall (λ e, is_release e = true) rel →
  Forall (λ e, (event_stage e < k)%nat) rel.
Proof.
  intros Hk H. eapply Forall_impl; [exact H|].
  intros e He. cbn beta. by rewrite (release_stage e He).
Qed.

Lemma Forall_release_sizes n m rel :
  Forall (λ e, is_release e = true) rel → Forall (event_sizes_ok n m) rel.
Proof.
  intros H. eapply Forall_impl; [exact H|]. intros e He. by apply release_sizes_ok.
Qed.

(** The costs array cannot be allocated (line 178). *)
Lemma exit_costs_failed :
  allocations_ok env a s0 6 = true →
  costs_reusable (minibatch_of a) s0 = false → alloc_ok env SCosts = false →
  ∃ s', run_ctc_cost_cpu env in_act in_lab in_il s0 = Some (1, s') ∧
        OomExit s0 a SCosts s' ∧ cleaned_up s0 a s'.
Proof.
  intros Hok Hre Hcosts.
  destruct (reach_costs env s0 in_act in_lab in_il a l i Ha Hl Hi Hh Hok Hiok Hlok)
    as (copy & act & il & fl & ll & s & Heq & HR & Hcont).
  pose proof (costs_reusable_reached s0 in_act a Hh _ _ _ (minibatch_of a) HR) as Hcr.
  destruct HR as [HI Ho Hc Hg].
  destruct (activations_ok_dims _ Hda) as (t & b & n & Hd).
  pose proof (inv_act _ _ _ _ _ _ _ HI) as Hact.
  pose proof (Inv_costs_lost _ _ _ _ _ _ HI) as HI'.
  destruct (inv_trace _ _ _ _ _ _ _ HI) as (evs & Ht & Hf & Hs).
  destruct (trace_released (out_costs s) s) as (rel0 & Hrel0 & Frel0).
  destruct (oom_exit_destroyed SCosts _ 7 (costs_lost (minibatch_of a) s)
              (evs ++ rel0) (EvZeros SCosts [minibatch_of a] None) [] HI')
    as (Hoom & Hclean); try done.
  { cbn. by rewrite Hrel0, Ht, <- !app_assoc. }
  { apply Forall_app. split; [done|]. apply Forall_release_stage; [simpl; lia|done]. }
  { rewrite !Forall_app. repeat split; try done.
    - by apply Forall_release_sizes.
    - by repeat constructor. }
  { intros Hcc. by destruct (proj2 Hcont Hcc) as (-> & _). }
  eexists. split; [|split; [exact Hoom|exact Hclean]].
  apply run_Return. rewrite Heq. unfold entry_from_costs.
  rewrite (bind_Next _ _ _ _ _ (PyArray_DIMS_ok in_act a 1 b s Hact ltac:(by rewrite Hd))).
  rewrite (bind_Next _ _ _ _ _ (PyArray_DIMS_ok in_act a 2 n s Hact ltac:(by rewrite Hd))).
  cbv zeta.
  assert (to_int b = minibatch_of a) as -> by (unfold minibatch_of; by rewrite Hd).
  erewrite bind_Return; [reflexivity|].
  apply prepare_costs_fail; try done.
  - by rewrite Hcr.
  - intros c Hcs. by destruct (inv_costs _ _ _ _ _ _ _ HI c Hcs).
  - exact (destroy_Inv _ _ _ _ _ _ _ HI').
Qed.

(** The gradients array cannot be allocated (line 204). *)
Lemma exit_gradients_failed :
  allocations_ok env a s0 7 = true →
  gradients_reusable a s0 = false → alloc_ok env SGradients = false →
  ∃ s', run_ctc_cost_cpu env in_act in_lab in_il s0 = Some (1, s') ∧
        OomExit s0 a SGradients s' ∧ cleaned_up s0 a s'.
Proof.
  intros Hok Hre Hgrads.
  destruct (reach_gradients env s0 in_act in_lab in_il a l i Ha Hl Hi Hh Hda Hiok Hlok Hok)
    as (copy & act & il & fl & ll & costs & s & Heq & HI & Hoc & Hcr & Hgr & Hcont).
  destruct (activations_ok_dims _ Hda) as (t & b & n & Hd).
  pose proof (inv_act _ _ _ _ _ _ _ HI) as Hact.
  pose proof (Inv_gradients_lost _ _ _ _ _ (dims a) _ HI) as HI'.
  destruct (inv_trace _ _ _ _ _ _ _ HI) as (evs & Ht & Hf & Hs).
  destruct (trace_released (out_gradients s) s) as (rel0 & Hrel0 & Frel0).
  destruct (oom_exit_destroyed SGradients _ 8 (gradients_lost (dims a) s)
              (evs ++ rel0) (EvZeros SGradients (dims a) None) [] HI')
    as (Hoom & Hclean); try done.
  { cbn. by rewrite Hrel0, Ht, <- !app_assoc. }
  { apply Forall_app. split; [done|]. apply Forall_release_stage; [simpl; lia|done]. }
  { rewrite !Forall_app. repeat split; try done.
    - by apply Forall_release_sizes.
    - by repeat constructor. }
  { intros Hcc. by destruct (proj2 Hcont Hcc) as (-> & _). }
  eexists. split; [|split; [exact Hoom|exact Hclean]].
  apply run_Return. rewrite Heq. unfold entry_from_gradients.
  erewrite bind_Return; [reflexivity|].
  apply (prepare_gradients_fail env in_act a t b n); try done.
  - by rewrite Hgr.
  - intros g Hgs. by apply (inv_grads _ _ _ _ _ _ _ HI).
  - exact (destroy_Inv _ _ _ _ _ _ _ HI').
Qed.

End Exit.

Lemma costs_reusable_destroyed s0 in_act a ctx_p context k s n :
  Inv s0 in_act a ctx_p context k s →
  costs_reusable n (destroyed context s) = costs_reusable n s.
Proof.
  intros HI. unfold costs_reusable, destroyed.
  rewrite out_costs_released, !out_costs_freed.
  destruct (out_costs s) as [c|] eqn:Hc; [|done].
  fold (destroyed context s).
  rewrite (objs_destroyed_other _ _ _ _ _ _ _ c HI); [done|].
  intros E. destruct (inv_copy _ _ _ _ _ _ _ HI c E) as (_ & _ & Hne & _). done.
Qed.

Lemma gradients_reusable_destroyed s0 in_act a ctx_p context k s :
  Inv s0 in_act a ctx_p context k s →
  gradients_reusable a (destroyed context s) = gradients_reusable a s.
Proof.
  intros HI. unfold gradients_reusable, destroyed.
  rewrite out_gradients_released, !out_gradients_freed.
  destruct (out_gradients s) as [g|] eqn:Hg; [|done].
  fold (destroyed context s).
  rewrite (objs_destroyed_other _ _ _ _ _ _ _ g HI); [done|].
  intros E. destruct (inv_copy _ _ _ _ _ _ _ HI g E) as (_ & _ & _ & Hne). done.
Qed.

(** ** What the library writes

    The computation writes into the two output arrays and nowhere else: an
    array it writes to keeps its place in the store, its shape, its type
    and its reference count. *)

Lemma overwrite_length new old : length (overwrite new old) = length old.
Proof.
  unfold overwrite. rewrite length_take, length_app, length_drop. lia.
Qed.

Lemma lookup_write_items_ne ob new (m : gmap nat PyArrayObject) x :
  x ≠ ob → write_items ob new m !! x = m !! x.
Proof.
  intros Hne. unfold write_items. destruct (m !! ob); [|done].
  by rewrite lookup_insert_ne.
Qed.

Lemma lookup_write_items ob new (m : gmap nat PyArrayObject) o :
  m !! ob = Some o →
  write_items ob new m !! ob =
    Some {| ob_refcnt := ob_refcnt o; dims := dims o;
            c_contiguous := c_contiguous o; descr := descr o;
            items := overwrite new (items o) |}.
Proof. intros Ho. unfold write_items. rewrite Ho. apply lookup_insert_eq. Qed.

Lemma dims_write_items ob new (m : gmap nat PyArrayObject) x :
  dims <$> write_items ob new m !! x = dims <$> m !! x.
Proof.
  destruct (decide (x = ob)) as [->|Hne]; [|by rewrite lookup_write_items_ne].
  destruct (m !! ob) as [o|] eqn:Ho.
  - by rewrite (lookup_write_items _ _ _ _ Ho).
  - unfold write_items. rewrite Ho. cbn. by rewrite Ho.
Qed.

Lemma is_Some_write_items ob new (m : gmap nat PyArrayObject) x :
  is_Some (write_items ob new m !! x) ↔ is_Some (m !! x).
Proof. rewrite <- !(fmap_is_Some dims). by rewrite dims_write_items. Qed.

Lemma dims_written env args s x :
  dims <$> objs (written env args s) !! x = dims <$> objs s !! x.
Proof. unfold written. cbn. by rewrite !dims_write_items. Qed.

Lemma costs_reusable_written env args n s :
  costs_reusable n (written env args s) = costs_reusable n s.
Proof.
  unfold costs_reusable. change (out_costs (written env args s)) with (out_costs s).
  destruct (out_costs s) as [c|]; [|done].
  pose proof (dims_written env args s c) as E.
  destruct (objs (written env args s) !! c), (objs s !! c);
    simplify_eq/=; [by rewrite E|done].
Qed.

Lemma gradients_reusable_written env args a s :
  gradients_reusable a (written env args s) = gradients_reusable a s.
Proof.
  unfold gradients_reusable.
  change (out_gradients (written env args s)) with (out_gradients s).
  destruct (out_gradients s) as [g|]; [|done].
  pose proof (dims_written env args s g) as E.
  destruct (objs (written env args s) !! g), (objs s !! g);
    simplify_eq/=; [by rewrite E|done].
Qed.

Lemma lookup_written_other env args s x :
  x ≠ ls_costs args → x ≠ ls_gradients args →
  objs (written env args s) !! x = objs s !! x.
Proof.
  intros H1 H2. unfold written. cbn. by rewrite !lookup_write_items_ne.
Qed.

Lemma Inv_written s0 in_act a ctx_p context k s env args :
  Inv s0 in_act a ctx_p context k s →
  out_costs s = Some (ls_costs args) →
  out_gradients s = Some (ls_gradients args) →
  Inv s0 in_act a ctx_p context k (written env args s).
Proof.
  intros HI Hc Hg.
  destruct (inv_costs _ _ _ _ _ _ _ HI _ Hc) as (_ & Hca & _).
  destruct (inv_grads _ _ _ _ _ _ _ HI _ Hg) as (_ & Hga).
  destruct HI as [Hact ? ? ? ? ? Hcopy Hcosts Hgrads ? ?].
  constructor; try done.
  - rewrite lookup_written_other by done. done.
  - intros c Hcc. destruct (Hcopy c Hcc) as (Hoc & ? & Hnc & Hng).
    rewrite lookup_written_other by congruence. done.
  - intros x Hx. destruct (Hcosts x Hx) as (Hl & ? & ?).
    split; [|done]. unfold written. cbn. by rewrite !is_Some_write_items.
  - intros x Hx. destruct (Hgrads x Hx) as (Hl & ?).
    split; [|done]. unfold written. cbn. by rewrite !is_Some_write_items.
Qed.

Section Tail.

Variable env : Env.
Variable s0 : State.
Variables (in_act in_lab in_il : nat).
Variables (a l i : PyArrayObject).

Hypothesis Ha : objs s0 !! in_act = Some a.
Hypothesis Hl : objs s0 !! in_lab = Some l.
Hypothesis Hi : objs s0 !! in_il = Some i.
Hypothesis Hh : handles_ok in_act s0 = true.
Hypothesis Hda : activations_ok a = true.
Hypothesis Hiok : lengths_ok i = true.
Hypothesis Hlok : labels_ok l = true.

(** From the size query on (lines 217-251): what the call does is decided
    by the status of the size query, by the allocation of the workspace
    and by the status of the computation. *)
Lemma tail_of_call :
  allocations_ok env a s0 8 = true →
  ∃ (h : gmap nat block) (args : WsArgs),
    ws_minibatch args = minibatch_of a ∧
    ws_alphabet_size args = alphabet_of a ∧
    ws_options args = options (fresh_context env) ∧
    let status := (get_workspace_size env h args).1 in
    (status ≠ CTC_STATUS_SUCCESS →
     ∃ s', run_ctc_cost_cpu env in_act in_lab in_il s0 = Some (1, s') ∧
           LibraryExit env s0 a "Failed to obtain CTC workspace size!" status
             (EvGetWorkspaceSize args status) s') ∧
    (status = CTC_STATUS_SUCCESS → alloc_ok env SWorkspace = false →
     ∃ s', run_ctc_cost_cpu env in_act in_lab in_il s0 = Some (1, s') ∧
           OomExit s0 a SWorkspace s' ∧ cleaned_up s0 a s') ∧
    (status = CTC_STATUS_SUCCESS → alloc_ok env SWorkspace = true →
     ∃ (h' : gmap nat block) (largs : LossArgs) (ws : nat),
       let status2 := compute_ctc_loss env h' largs in
       ls_workspace largs = Some ws ∧ heap s0 !! ws = None ∧
       (status2 ≠ CTC_STATUS_SUCCESS →
        ∃ s', run_ctc_cost_cpu env in_act in_lab in_il s0 = Some (1, s') ∧
              loss_args_of_call env s0 in_act a largs s' ∧
              LibraryExit env s0 a "Failed to compute CTC loss function!" status2
                (EvComputeCtcLoss largs status2) s' ∧
              (∃ b, heap s' !! ws = Some b ∧ b_site b = SWorkspace)) ∧
       (status2 = CTC_STATUS_SUCCESS →
        ∃ s', run_ctc_cost_cpu env in_act in_lab in_il s0 = Some (0, s') ∧
              loss_args_of_call env s0 in_act a largs s' ∧
              Succeeded s0 a s' ∧
              ∃ pre rel, trace s' = trace s0 ++ pre
                           ++ [EvComputeCtcLoss largs status2] ++ rel ∧
                         Forall (λ e, is_release e = true) rel)).
Proof.
  intros Hok.
  destruct (reach_query env s0 in_act in_lab in_il a l i Ha Hl Hi Hh Hda Hiok Hlok Hok)
    as (copy & act & il & fl & ll & costs & grads & s & Heq & HI & Hoc & Hog
        & Hcr & Hgr & Hcont).
  set (context := context_at env copy (Some il) (Some fl) (Some ll) None) in *.
  set (mb := minibatch_of a) in *. set (al := alphabet_of a) in *.
  exists (heap s), (ws_args context al mb).
  split; [done|]. split; [done|]. split; [done|]. cbv zeta.
  set (status := (get_workspace_size env (heap s) (ws_args context al mb)).1).
  destruct (inv_trace _ _ _ _ _ _ _ HI) as (evs & Ht & Hf & Hs).
  assert (HIq : Inv s0 in_act a (fresh_key (heap s0)) context 9
                  (queried env context al mb s)).
  { apply Inv_log; [simpl; lia|done|].
    by apply (Inv_mono _ _ _ _ _ 8%nat 9%nat); [lia|]. }
  assert (Hact : act = if c_contiguous a then in_act else fresh_key (objs s0)).
  { destruct (c_contiguous a); [by destruct (proj1 Hcont eq_refl)|
                                by destruct (proj2 Hcont eq_refl)]. }
  assert (Hcopy : c_contiguous a = false →
                  activations_copy context = Some (fresh_key (objs s0))).
  { intros Hcc. by destruct (proj2 Hcont Hcc) as (-> & _). }
  split; [|split].
  - (* the size query fails *)
    intros Hst. eexists. split.
    + apply run_Return. rewrite Heq.
      by apply query_and_compute_query_failed.
    + constructor.
      * done.
      * exists evs. cbn. rewrite Ht, <- !app_assoc. repeat split; try done.
        apply Forall_app. split; [done|]. by repeat constructor.
      * cbn. by destruct HI.
      * intros Hcc. cbn.
        by destruct (inv_copy _ _ _ _ _ _ _ HI _ (Hcopy Hcc)).
  - (* the workspace cannot be allocated *)
    intros Hst Hws.
    set (fail := EvMalloc SWorkspace (workspace_size env context al mb s) None).
    assert (HI' : Inv s0 in_act a (fresh_key (heap s0)) context 10
                    (log fail (queried env context al mb s))).
    { apply (Inv_malloc_failed _ _ _ _ _ 9%nat 10%nat); try done; simpl; lia. }
    destruct (oom_exit_destroyed s0 in_act a SWorkspace context 10
                (log fail (queried env context al mb s))
                (evs ++ [EvGetWorkspaceSize (ws_args context al mb) status]) fail [] HI')
      as (Hoom & Hclean); try done.
    { cbn. by rewrite Ht, <- !app_assoc. }
    { apply Forall_app. split; [|by repeat constructor].
      eapply Forall_impl; [exact Hf|]. simpl. lia. }
    { rewrite !Forall_app. repeat split; try done; by repeat constructor. }
    eexists. split; [|split; [exact Hoom|exact Hclean]].
    apply run_Return. rewrite Heq.
    apply query_and_compute_workspace_failed; try done.
    exact (destroy_Inv _ _ _ _ _ _ _ HI').
  - (* the workspace is allocated *)
    intros Hst Hws.
    set (ws := fresh_key (heap s)).
    set (context' := set_workspace (Some ws) context).
    set (sw := with_workspace env context al mb s).
    set (largs := compute_args context act grads costs al mb s).
    assert (HIw : Inv s0 in_act a (fresh_key (heap s0)) context' 10 sw).
    { unfold sw, with_workspace, context', ws. cbv zeta.
      change (heap s) with (heap (queried env context al mb s)).
      apply (Inv_malloc _ _ _ _ context _ 9 10);
        [exact HIq|lia|simpl; lia|reflexivity|reflexivity]. }
    assert (Hws0 : heap s0 !! ws = None).
    { apply (Inv_fresh_buffer _ _ _ _ _ _ _ _ HI), fresh_key_lookup. }
    exists (heap sw), largs, ws. cbv zeta.
    set (status2 := compute_ctc_loss env (heap sw) largs).
    assert (HIc : Inv s0 in_act a (fresh_key (heap s0)) context' 11
                    (computed env context act grads costs al mb s)).
    { apply Inv_log; [simpl; lia|done|].
      apply Inv_written; [|exact Hoc|exact Hog].
      by apply (Inv_mono _ _ _ _ _ 10%nat 11%nat); [lia|]. }
    split; [done|]. split; [done|]. split.
    + (* the computation fails *)
      intros Hst2. eexists. split; [|split; [|split]].
      * apply run_Return. rewrite Heq.
        by apply query_and_compute_compute_failed.
      * repeat split; try done.
      * constructor.
        -- done.
        -- destruct (inv_trace _ _ _ _ _ _ _ HIw) as (evw & Htw & Hfw & Hsw).
           exists evw. cbn. cbn in Htw. rewrite Htw, <- !app_assoc.
           repeat split; try done.
           apply Forall_app. split; [done|]. by repeat constructor.
        -- exact (inv_ctx _ _ _ _ _ _ _ HIc).
        -- intros Hcc.
           by destruct (inv_copy _ _ _ _ _ _ _ HIc _ (Hcopy Hcc)).
      * cbn. eexists. rewrite lookup_insert_eq. done.
    + (* the computation succeeds *)
      intros Hst2.
      pose proof (heap_destroyed_Inv _ _ _ _ _ _ _ HIc) as Hheap.
      eexists. split; [|split; [|split]].
      * apply run_Return. rewrite Heq.
        apply query_and_compute_success; try done.
        -- exact (destroy_Inv _ _ _ _ _ _ _ HIc).
        -- change (is_Some (heap (destroyed context'
                     (computed env context act grads costs al mb s))
                   !! fresh_key (heap s0))).
           rewrite Hheap, lookup_insert_eq. eauto.
      * repeat split; try done; cbn.
        -- unfold destroyed. by rewrite out_costs_released, !out_costs_freed.
        -- unfold destroyed. by rewrite out_gradients_released, !out_gradients_freed.
      * constructor.
        -- change (delete (fresh_key (heap s0))
                     (heap (destroyed context'
                        (computed env context act grads costs al mb s))) = heap s0).
           rewrite Hheap. apply delete_insert_id. by destruct HI.
        -- intros Hcc.
           exact (copy_destroyed_Inv _ _ _ _ _ _ _ _ HIc (Hcopy Hcc)).
        -- change (err (destroyed context'
                     (computed env context act grads costs al mb s)) = err s0).
           unfold destroyed. rewrite err_released, !err_freed.
           by destruct HIc.
        -- change (costs_reusable mb (destroyed context'
                     (computed env context act grads costs al mb s)) = true).
           rewrite (costs_reusable_destroyed _ _ _ _ _ _ _ _ HIc).
           change (costs_reusable mb (written env largs sw) = true).
           by rewrite costs_reusable_written.
        -- change (gradients_reusable a (destroyed context'
                     (computed env context act grads costs al mb s)) = true).
           rewrite (gradients_reusable_destroyed _ _ _ _ _ _ _ HIc).
           change (gradients_reusable a (written env largs sw) = true).
           by rewrite gradients_reusable_written.
        -- destruct (inv_trace _ _ _ _ _ _ _ HIc) as (evc & Htc & Hfc & Hsc).
           destruct (trace_destroyed context'
                       (computed env context act grads costs al mb s))
             as (rel & Hrel & Frel).
           exists (evc ++ rel ++ [EvFree (fresh_key (heap s0))]).
           change (trace (destroyed context'
                     (computed env context act grads costs al mb s))
                   ++ [EvFree (fresh_key (heap s0))] =
                   trace s0 ++ evc ++ rel ++ [EvFree (fresh_key (heap s0))]
                   ∧ Forall (event_sizes_ok (minibatch_of a) (alphabet_of a))
                       (evc ++ rel ++ [EvFree (fresh_key (heap s0))])).
           rewrite Hrel, Htc, <- !app_assoc. split; [done|].
           rewrite !Forall_app. repeat split; try done.
           ++ by apply Forall_release_sizes.
           ++ by repeat constructor.
      * destruct (inv_trace _ _ _ _ _ _ _ HIw) as (evw & Htw & Hfw & Hsw).
        destruct (trace_destroyed context'
                    (computed env context act grads costs al mb s))
          as (rel & Hrel & Frel).
        exists evw, (rel ++ [EvFree (fresh_key (heap s0))]).
        change (trace (destroyed context'
                  (computed env context act grads costs al mb s))
                ++ [EvFree (fresh_key (heap s0))] =
                trace s0 ++ evw ++ [EvComputeCtcLoss largs status2]
                  ++ rel ++ [EvFree (fresh_key (heap s0))]
                ∧ Forall (λ e, is_release e = true)
                    (rel ++ [EvFree (fresh_key (heap s0))])).
        rewrite Hrel.
        change (trace (computed env context act grads costs al mb s))
          with (trace sw ++ [EvComputeCtcLoss largs status2]).
        rewrite Htw, <- !app_assoc.
        split; [done|]. apply Forall_app. split; [done|]. by repeat constructor.
Qed.

End Tail.

(** * The claims *)

(** ** Label flattening *)

Lemma concat_matrix_rows R C (elems : list Z) :
  concat (matrix_rows R C elems) = take (R * C) elems.
Proof.
  unfold matrix_rows. induction R as [|R IH]; [done|].
  rewrite seq_S, fmap_app, concat_app, IH. simpl. rewrite app_nil_r.
  rewrite take_take_drop. f_equal. lia.
Qed.

Lemma spec_flat_labels_filter (m : list (list Z)) :
  spec_flat_labels m = List.filter (λ v, negb (is_padding v)) (concat m).
Proof.
  unfold spec_flat_labels. induction m as [|row m IH]; [done|].
  simpl. rewrite List.filter_app, <- IH. done.
Qed.

(** C3.  For every label matrix (a live 2-D array whose sizes fit an [int]),
    when its two buffers can be allocated, [create_flat_labels] returns two
    new blocks: the flat buffer holds the non-negative entries of the
    matrix, left to right within each row and the rows in order, in its
    first cells (as many as there are non-negative entries in the matrix)
    and nothing else is written to it; the lengths buffer holds, for each
    row, the number of non-negative entries of that row.  An entry is
    skipped exactly when it is negative, whatever its value. *)
Theorem flat_labels_spec (env : Env) (lm : nat) (l : PyArrayObject)
    (fl0 ll0 : option nat) (s : State) :
  objs s !! lm = Some l →
  labels_ok l = true →
  alloc_ok env SFlatLabels = true →
  alloc_ok env SLabelLengths = true →
  ∃ fl ll s' bfl bll,
    create_flat_labels env lm fl0 ll0 s = Next (Some fl, Some ll) s' ∧
    fl ≠ ll ∧ heap s !! fl = None ∧ heap s !! ll = None ∧
    heap s' !! fl = Some bfl ∧ heap s' !! ll = Some bll ∧
    b_cells bfl =
      (Some <$> spec_flat_labels (label_rows l)) ++
      replicate (length (items l) - length (spec_flat_labels (label_rows l))) None ∧
    b_cells bll = Some <$> spec_label_lengths (label_rows l) ∧
    spec_flat_labels (label_rows l) =
      List.filter (λ v, negb (v <? 0)) (items l) ∧
    length (spec_flat_labels (label_rows l)) =
      length (List.filter (λ v, negb (v <? 0)) (items l)) ∧
    concat (label_rows l) = items l ∧
    (∀ r row, label_rows l !! r = Some row →
       spec_label_lengths (label_rows l) !! r =
         Some (Z.of_nat (length (List.filter (λ v, negb (v <? 0)) row)))) ∧
    (∀ v, is_padding v = true ↔ v < 0).
Proof.
  intros Ho Hlok Hfl Hll.
  destruct (labels_ok_dims _ Hlok) as (R & C & Hd & Hlen & HR & HC & HRC & Hrows).
  pose proof (create_flat_labels_ok env lm l R C fl0 ll0 s Ho Hd Hlen HR HC HRC Hfl Hll)
    as Heq.
  cbv zeta in Heq.
  set (fl := fresh_key (heap s)) in *.
  set (b0 := mk_block SFlatLabels (4 * Z.of_nat (R * C)) (replicate (R * C) None)) in *.
  set (ll := fresh_key (<[fl := b0]> (heap s))) in *.
  pose proof (fresh_key_lookup (heap s)) as Hfl0. fold fl in Hfl0.
  pose proof (fresh_key_lookup (<[fl := b0]> (heap s))) as Hll0. fold ll in Hll0.
  apply lookup_insert_None in Hll0 as [Hll0 Hne].
  assert (Hcat : concat (label_rows l) = items l).
  { rewrite Hrows, concat_matrix_rows, <- Hlen. apply firstn_all. }
  assert (Hflat : spec_flat_labels (label_rows l) =
                  List.filter (λ v, negb (v <? 0)) (items l)).
  { by rewrite spec_flat_labels_filter, Hcat. }
  eexists fl, ll, _, _, _. split; [exact Heq|].
  split; [done|]. split; [done|]. split; [done|].
  split; [cbn; rewrite lookup_insert_ne, lookup_insert_eq by done; reflexivity|].
  split; [cbn; rewrite lookup_insert_eq; reflexivity|].
  split; [cbn; by rewrite Hrows, Hlen|].
  split; [cbn; by rewrite Hrows|].
  split; [done|]. split; [by rewrite Hflat|]. split; [done|]. split.
  - intros r row Hr. unfold spec_label_lengths. rewrite list_lookup_fmap, Hr. done.
  - intros v. unfold is_padding. apply Z.ltb_lt.
Qed.

(** The spec's example: rows [3, 5, -1, -1] and [-1, -1, -1, -1] give the
    flat labels [3, 5] and the lengths [2, 0]. *)
Lemma flat_labels_spec_witness :
  ∃ fl ll s' bfl bll,
    create_flat_labels (sample_env [] CTC_STATUS_SUCCESS CTC_STATUS_SUCCESS)
      1 None None sample_state = Next (Some fl, Some ll) s' ∧
    fl ≠ ll ∧ heap sample_state !! fl = None ∧ heap sample_state !! ll = None ∧
    heap s' !! fl = Some bfl ∧ heap s' !! ll = Some bll ∧
    b_cells bfl = (Some <$> [3; 5]) ++ replicate 6 None ∧
    b_cells bll = Some <$> [2; 0].
Proof.
  destruct (flat_labels_spec (sample_env [] CTC_STATUS_SUCCESS CTC_STATUS_SUCCESS)
              1 sample_labels None None sample_state
              eq_refl eq_refl eq_refl eq_refl)
    as (fl & ll & s' & bfl & bll & H1 & H2 & H3 & H4 & H5 & H6 & H7 & H8 & _).
  exists fl, ll, s', bfl, bll. repeat split; assumption.
Defined.

(** C10, as stated, fails: called with a label-lengths pointer that is not
    NULL, [create_flat_labels] returns, when the flat labels cannot be
    allocated, with the flat-labels pointer NULL and the label-lengths
    pointer unchanged (line 83 returns before line 85 assigns it). *)
Lemma flat_labels_not_atomic :
  ∃ r s',
    create_flat_labels (sample_env [SFlatLabels] CTC_STATUS_SUCCESS CTC_STATUS_SUCCESS)
      1 None (Some 7%nat) sample_state = Next r s' ∧
    ¬ outputs_atomic r sample_state s'.
Proof.
  eexists (None, Some 7%nat), _. split; [vm_compute; reflexivity|].
  intros [(fl & ll & Hr & _)|Hr]; discriminate.
Qed.

(** C10, amended.  Called with the label-lengths pointer NULL, as the entry
    point calls it (lines 22 and 152), [create_flat_labels] on a label matrix
    returns with both pointers set to new blocks or with both NULL: NULL and
    nothing allocated when the flat labels cannot be allocated; and when the
    label lengths cannot be allocated after the flat labels were, the flat
    labels are freed again, their pointer is NULL and the heap is as
    before. *)
Theorem flat_labels_atomic (env : Env) (lm : nat) (l : PyArrayObject)
    (fl0 : option nat) (s : State) :
  objs s !! lm = Some l →
  labels_ok l = true →
  ∃ r s',
    create_flat_labels env lm fl0 None s = Next r s' ∧
    outputs_atomic r s s' ∧
    (alloc_ok env SFlatLabels = false →
       r = (None, None) ∧ heap s' = heap s ∧
       ∃ size, trace s' = trace s ++ [EvMalloc SFlatLabels size None]) ∧
    (alloc_ok env SFlatLabels = true → alloc_ok env SLabelLengths = false →
       r = (None, None) ∧ heap s' = heap s ∧
       ∃ fl size_fl size_ll,
         heap s !! fl = None ∧
         trace s' = trace s ++ [EvMalloc SFlatLabels size_fl (Some fl);
                                EvMalloc SLabelLengths size_ll None;
                                EvFree fl]).
Proof.
  intros Ho Hlok.
  destruct (labels_ok_dims _ Hlok) as (R & C & Hd & Hlen & HR & HC & HRC & Hrows).
  assert (INT_MIN ≤ 0) by (unfold INT_MIN; lia).
  assert (Hrange : in_int_range (to_int (Z.of_nat R) * to_int (Z.of_nat C)) = true).
  { rewrite !to_int_id by lia. apply in_int_range_true. lia. }
  destruct (alloc_ok env SFlatLabels) eqn:Hfl; [destruct (alloc_ok env SLabelLengths) eqn:Hll|].
  - pose proof (create_flat_labels_ok env lm l R C fl0 None s Ho Hd Hlen HR HC HRC Hfl Hll)
      as Heq.
    cbv zeta in Heq.
    set (fl := fresh_key (heap s)) in *.
    set (b0 := mk_block SFlatLabels (4 * Z.of_nat (R * C)) (replicate (R * C) None)) in *.
    set (ll := fresh_key (<[fl := b0]> (heap s))) in *.
    pose proof (fresh_key_lookup (heap s)) as Hfl0. fold fl in Hfl0.
    pose proof (fresh_key_lookup (<[fl := b0]> (heap s))) as Hll0. fold ll in Hll0.
    apply lookup_insert_None in Hll0 as [Hll0 Hne].
    eexists (Some fl, Some ll), _. split; [exact Heq|]. split; [|done].
    left. exists fl, ll. split; [done|]. split; [done|]. split; [done|]. split; [done|].
    split; cbn.
    + rewrite lookup_insert_ne, lookup_insert_eq by done. by eexists.
    + rewrite lookup_insert_eq. by eexists.
  - eexists (None, None), _. split.
    + by apply (create_flat_labels_fail_lengths env lm l _ _ fl0 None s Ho Hd Hrange).
    + split; [by right|]. split; [done|]. intros _ _.
      split; [done|]. split; [done|].
      eexists (fresh_key (heap s)), _, _. split; [apply fresh_key_lookup|].
      cbn. by rewrite <- !app_assoc.
  - eexists (None, None), _. split.
    + by apply (create_flat_labels_fail_flat env lm l _ _ fl0 None s Ho Hd Hrange).
    + split; [by right|]. split; [|done]. intros _.
      split; [done|]. split; [done|]. by eexists.
Qed.

Lemma flat_labels_atomic_witness :
  ∃ r s',
    create_flat_labels (sample_env [SLabelLengths] CTC_STATUS_SUCCESS CTC_STATUS_SUCCESS)
      1 None None sample_state = Next r s' ∧
    outputs_atomic r sample_state s' ∧
    r = (None, None) ∧ heap s' = heap sample_state.
Proof.
  destruct (flat_labels_atomic
              (sample_env [SLabelLengths] CTC_STATUS_SUCCESS CTC_STATUS_SUCCESS)
              1 sample_labels None sample_state eq_refl eq_refl)
    as (r & s' & H1 & H2 & _ & H3).
  destruct (H3 eq_refl eq_refl) as (H4 & H5 & _).
  exists r, s'. repeat split; assumption.
Defined.

(** ** The view of the activations *)

(** C4.  On a live activations array, lines 121-140 do the following.  If
    the array is C-contiguous nothing is copied: the state and the context
    are unchanged and the [activations] pointer is the data of the caller's
    array.  If it is not contiguous and the copy can be made, a new array is
    created, owned by the context (one reference, stored in
    [activations_copy]), contiguous, with the shape and the elements of the
    original, and the [activations] pointer is its data; the original is
    untouched.  If the copy cannot be made, the call returns 1 with a
    memory error. *)
Theorem activations_view_spec (env : Env) (in_act : nat) (a : PyArrayObject)
    (context : ctc_context_t) (s : State) :
  objs s !! in_act = Some a →
  (c_contiguous a = true →
     obtain_activations env in_act context s = Next (context, in_act) s) ∧
  (c_contiguous a = false → alloc_ok env SActivationsCopy = true →
     ∃ c copy s',
       obtain_activations env in_act context s =
         Next (set_activations_copy (Some c) context, c) s' ∧
       c ≠ in_act ∧ objs s !! c = None ∧
       objs s' = <[c := copy]> (objs s) ∧
       items copy = items a ∧ dims copy = dims a ∧ descr copy = descr a ∧
       c_contiguous copy = true ∧ ob_refcnt copy = 1%nat ∧
       objs s' !! in_act = Some a ∧
       heap s' = heap s ∧
       trace s' = trace s ++ [EvGetContiguous in_act (Some c)]) ∧
  (c_contiguous a = false → alloc_ok env SActivationsCopy = false →
     ∃ s',
       obtain_activations env in_act context s = Return 1 s' ∧
       err s' = Some (PyExc_MemoryError,
                      "Could not create a contiguous copy of activations array.") ∧
       objs s' = objs s ∧ heap s' = heap s).
Proof.
  intros Ho. split; [|split].
  - intros Hc. by apply (obtain_activations_contiguous env in_act a).
  - intros Hc Hok.
    pose proof (fresh_key_lookup (objs s)) as Hfresh.
    assert (fresh_key (objs s) ≠ in_act) as Hne by (intros E; rewrite E in Hfresh; congruence).
    eexists (fresh_key (objs s)), (copy_of a), _. split.
    + by apply (obtain_activations_copy env in_act a).
    + cbn. repeat split; try done. by rewrite lookup_insert_ne.
  - intros Hc Hok. eexists. split.
    + by apply (obtain_activations_fail env in_act a).
    + done.
Qed.

Lemma activations_view_spec_witness :
  ∃ c copy s',
    obtain_activations (sample_env [] CTC_STATUS_SUCCESS CTC_STATUS_SUCCESS) 0
      leftover_context sample_state =
      Next (set_activations_copy (Some c) leftover_context, c) s' ∧
    c ≠ 0%nat ∧ objs s' = <[c := copy]> (objs sample_state) ∧
    items copy = items sample_activations ∧ c_contiguous copy = true.
Proof.
  destruct (activations_view_spec (sample_env [] CTC_STATUS_SUCCESS CTC_STATUS_SUCCESS)
              0 sample_activations leftover_context sample_state eq_refl)
    as (_ & H & _).
  destruct (H eq_refl eq_refl)
    as (c & copy & s' & H1 & H2 & _ & H3 & H4 & _ & _ & H5 & _).
  exists c, copy, s'. repeat split; assumption.
Defined.

(** ** The output arrays *)

Lemma costs_reusable_iff cost_size s :
  costs_reusable cost_size s = true ↔
  ∃ c oc, out_costs s = Some c ∧ objs s !! c = Some oc ∧
          length (dims oc) = 1%nat ∧ dims oc !! 0%nat = Some cost_size.
Proof.
  split.
  - intros H. destruct (costs_reusable_handle _ _ H) as (c & oc & Hc & Ho & Hd).
    exists c, oc. by rewrite Hd.
  - intros (c & oc & Hc & Ho & Hn & Hd). unfold costs_reusable. rewrite Hc, Ho.
    apply bool_decide_eq_true_2.
    destruct (dims oc) as [|d [|]]; simpl in *; congruence.
Qed.

Lemma gradients_reusable_iff a s :
  gradients_reusable a s = true ↔
  ∃ g og, out_gradients s = Some g ∧ objs s !! g = Some og ∧
          length (dims og) = 3%nat ∧ dims og = dims a.
Proof.
  split.
  - apply gradients_reusable_handle.
  - intros (g & og & Hg & Ho & Hn & Hd). unfold gradients_reusable. rewrite Hg, Ho.
    apply andb_true_intro. split; [by apply Nat.eqb_eq|by apply bool_decide_eq_true_2].
Qed.

(** C5.  On a state whose output handles, when present, point to live
    arrays (the gradients handle not to the activations), lines 167-215 do
    the following.  The costs array is kept, the very same object and
    nothing allocated, exactly when it is present, 1-dimensional and of
    length [cost_size]; otherwise the reference to it is dropped and, the
    allocation succeeding, the handle is set to a new float32 array of shape
    [cost_size] filled with zeros.  The gradients array is kept exactly when
    it is present, 3-dimensional and of the shape of the activations;
    otherwise the handle is set to a new zero-filled float32 array of that
    shape. *)
Theorem output_reuse_spec (env : Env) (in_act : nat) (a : PyArrayObject)
    (cost_size : Z) (context : ctc_context_t) (s : State) :
  objs s !! in_act = Some a →
  activations_ok a = true →
  (∀ c, out_costs s = Some c → is_Some (objs s !! c)) →
  (∀ g, out_gradients s = Some g → is_Some (objs s !! g) ∧ g ≠ in_act) →
  (* the costs *)
  (costs_reusable cost_size s = true ↔
     ∃ c oc, out_costs s = Some c ∧ objs s !! c = Some oc ∧
             length (dims oc) = 1%nat ∧ dims oc !! 0%nat = Some cost_size) ∧
  (costs_reusable cost_size s = true →
     ∃ c, out_costs s = Some c ∧
          prepare_costs env cost_size context s = Next c s) ∧
  (costs_reusable cost_size s = false → alloc_ok env SCosts = true →
     ∃ z s',
       prepare_costs env cost_size context s = Next z s' ∧
       out_costs s' = Some z ∧
       objs (released (out_costs s) s) !! z = None ∧
       objs s' !! z = Some (zeros [cost_size]) ∧
       EvZeros SCosts [cost_size] (Some z) ∈ trace s' ∧
       out_gradients s' = out_gradients s) ∧
  (* the gradients *)
  (gradients_reusable a s = true ↔
     ∃ g og, out_gradients s = Some g ∧ objs s !! g = Some og ∧
             length (dims og) = 3%nat ∧ dims og = dims a) ∧
  (gradients_reusable a s = true →
     ∃ g, out_gradients s = Some g ∧
          prepare_gradients env in_act context s = Next g s) ∧
  (gradients_reusable a s = false → alloc_ok env SGradients = true →
     ∃ z s',
       prepare_gradients env in_act context s = Next z s' ∧
       out_gradients s' = Some z ∧
       objs (released (out_gradients s) s) !! z = None ∧
       objs s' !! z = Some (zeros (dims a)) ∧
       EvZeros SGradients (dims a) (Some z) ∈ trace s' ∧
       out_costs s' = out_costs s) ∧
  (* what a new array is *)
  (∀ shape, dims (zeros shape) = shape ∧ descr (zeros shape) = NPY_FLOAT32 ∧
            Forall (λ v, v = 0) (items (zeros shape)) ∧
            length (items (zeros shape)) = Z.to_nat (product shape)).
Proof.
  intros Ha Hda Hlc Hlg.
  destruct (activations_ok_dims _ Hda) as (t & b & n & Hd).
  split; [apply costs_reusable_iff|]. split; [|split].
  - intros Hr. destruct (costs_reusable_handle _ _ Hr) as (c & oc & Hc & _).
    exists c. split; [done|]. by apply prepare_costs_reuse.
  - intros Hr Hok. eexists _, _. split.
    + by apply prepare_costs_replace.
    + cbn. split; [done|]. split; [apply fresh_key_lookup|].
      split; [by rewrite lookup_insert_eq|]. split.
      * apply elem_of_app. right. apply list_elem_of_singleton. done.
      * by rewrite out_gradients_released.
  - split; [apply gradients_reusable_iff|]. split; [|split].
    + intros Hr. destruct (gradients_reusable_handle _ _ Hr) as (g & og & Hg & _).
      exists g. split; [done|]. by apply (prepare_gradients_reuse env in_act a t b n).
    + intros Hr Hok. eexists _, _. split.
      * by apply (prepare_gradients_replace env in_act a t b n).
      * cbn. split; [done|]. split; [apply fresh_key_lookup|].
        split; [by rewrite lookup_insert_eq|]. split.
        -- apply elem_of_app. right. apply list_elem_of_singleton. done.
        -- by rewrite out_costs_released.
    + intros shape. cbn. repeat split.
      * apply Forall_replicate. done.
      * apply length_replicate.
Qed.

Lemma output_reuse_spec_witness :
  ∃ z s',
    prepare_gradients (sample_env [] CTC_STATUS_SUCCESS CTC_STATUS_SUCCESS) 0
      leftover_context sample_state = Next z s' ∧
    out_gradients s' = Some z ∧
    objs s' !! z = Some (zeros [2; 2; 3]).
Proof.
  destruct (output_reuse_spec (sample_env [] CTC_STATUS_SUCCESS CTC_STATUS_SUCCESS)
              0 sample_activations 2 leftover_context sample_state
              eq_refl eq_refl)
    as (_ & _ & _ & _ & _ & H & _).
  - intros c Hc. discriminate Hc.
  - intros g Hg. discriminate Hg.
  - destruct (H eq_refl eq_refl) as (z & s' & H1 & H2 & _ & H3 & _).
    exists z, s'. repeat split; assumption.
Defined.

(** ** The first allocation that fails *)

Lemma allocations_ok_intro env a s k :
  (∀ site, (site_stage site < k)%nat → attempted a s site = true →
           alloc_ok env site = true) →
  allocations_ok env a s k = true.
Proof.
  intros H. unfold allocations_ok. apply forallb_forall. intros site _.
  destruct (Nat.ltb_spec (site_stage site) k) as [Hlt|]; [|done].
  destruct (attempted a s site) eqn:Hat; [|done].
  simpl. by apply H.
Qed.

Lemma allocations_ok_step env a s k :
  allocations_ok env a s k = true →
  (∀ site, site_stage site = k → attempted a s site = true →
           alloc_ok env site = true) →
  allocations_ok env a s (S k) = true.
Proof.
  intros Hk Hs. apply allocations_ok_intro. intros site Hlt Hat.
  destruct (decide (site_stage site = k)) as [E|E]; [by apply Hs|].
  apply (allocations_ok_site env a s k); [done|lia|done].
Qed.

Lemma forallb_false_elim {A} (f : A → bool) (xs : list A) :
  forallb f xs = false → ∃ x, f x = false.
Proof.
  induction xs as [|x xs IH]; [done|]. simpl.
  destruct (f x) eqn:E; [exact IH|]. intros _. by exists x.
Qed.

(** Either every allocation the call attempts succeeds, or there is a
    first one that fails. *)
Lemma first_failure env a s k :
  allocations_ok env a s k = true →
  allocations_ok env a s 10 = true ∨
  ∃ site, (k ≤ site_stage site)%nat ∧
          allocations_ok env a s (site_stage site) = true ∧
          attempted a s site = true ∧ alloc_ok env site = false.
Proof.
  remember (10 - k)%nat as n eqn:Hn. revert k Hn.
  induction n as [|n IH]; intros k Hn Hk.
  - left. apply (allocations_ok_mono _ _ _ 10 k); [lia|done].
  - destruct (forallb (λ site, implb (Nat.eqb (site_stage site) k && attempted a s site)
                                 (alloc_ok env site)) all_sites) eqn:E.
    + destruct (IH (S k)) as [?|(site & ? & ? & ? & ?)]; [lia| |by left|].
      * apply allocations_ok_step; [done|]. intros site Hs Hat.
        rewrite forallb_forall in E. specialize (E site).
        rewrite Hs, Nat.eqb_refl, Hat in E. apply E.
        destruct site; unfold all_sites; simpl; tauto.
      * right. exists site. split; [lia|done].
    + right. destruct (forallb_false_elim _ _ E) as (site & Hf).
      destruct (Nat.eqb_spec (site_stage site) k) as [Hs|]; [|done].
      destruct (attempted a s site) eqn:Hat; [|done].
      destruct (alloc_ok env site) eqn:Hal; [done|].
      subst k. exists site. done.
Qed.

(** A failure of the first failing allocation before the size query ends
    the call with the memory error of its site. *)
Lemma oom_exit_before_query env s0 in_act in_lab in_il a site :
  call_ok in_act in_lab in_il s0 = true →
  objs s0 !! in_act = Some a →
  site ≠ SContext → site ≠ SWorkspace →
  allocations_ok env a s0 (site_stage site) = true →
  attempted a s0 site = true →
  alloc_ok env site = false →
  ∃ s', run_ctc_cost_cpu env in_act in_lab in_il s0 = Some (1, s') ∧
        OomExit s0 a site s'.
Proof.
  intros Hcall Ha Hsite Hws Hok Hat Hfail.
  destruct (call_ok_elim _ _ _ _ Hcall) as (a' & l & i & Ha' & Hl & Hi & Hda & Hlok & Hiok & Hh).
  assert (a' = a) as -> by congruence.
  destruct site; try done.
  - pose proof (allocations_ok_site env a s0 2 SContext Hok ltac:(simpl; lia) eq_refl).
    apply (exit_copy_failed env s0 in_act in_lab in_il a); try done.
    simpl in Hat. by apply negb_true_iff in Hat.
  - by apply (exit_input_lengths_failed env s0 in_act in_lab in_il a i).
  - destruct (exit_flat_labels_failed env s0 in_act in_lab in_il a l i)
      as (s' & ? & ? & _); eauto.
  - destruct (exit_label_lengths_failed env s0 in_act in_lab in_il a l i)
      as (s' & ? & ? & _); eauto.
  - destruct (exit_costs_failed env s0 in_act in_lab in_il a l i)
      as (s' & ? & ? & _); eauto.
    simpl in Hat. by apply negb_true_iff in Hat.
  - destruct (exit_gradients_failed env s0 in_act in_lab in_il a l i)
      as (s' & ? & ? & _); eauto.
    simpl in Hat. by apply negb_true_iff in Hat.
Qed.

Lemma OomExit_sizes s0 a site s' :
  OomExit s0 a site s' →
  ∃ evs, trace s' = trace s0 ++ evs ∧
         Forall (event_sizes_ok (minibatch_of a) (alphabet_of a)) evs.
Proof.
  intros [_ (pre & fail & rel & Ht & _ & _ & Hsz & Hr)].
  exists ((pre ++ [fail]) ++ rel ++ [EvErr PyExc_MemoryError (oom_message site)]).
  split; [by rewrite Ht, <- !app_assoc|].
  apply Forall_app. split; [done|]. apply Forall_app. split.
  - by apply Forall_release_sizes.
  - by repeat constructor.
Qed.

Lemma LibraryExit_sizes env s0 a msg status e s' :
  LibraryExit env s0 a msg status e s' →
  ∃ evs, trace s' = trace s0 ++ evs ∧
         Forall (event_sizes_ok (minibatch_of a) (alphabet_of a)) evs.
Proof.
  intros [_ (pre & Ht & _ & Hsz) _ _].
  exists ((pre ++ [e]) ++ [EvErr PyExc_RuntimeError (library_error env msg status)]).
  split; [by rewrite Ht, <- !app_assoc|].
  apply Forall_app. split; [done|]. by repeat constructor.
Qed.

(** ** Allocation failures *)

(** C8.  In a well-formed call, let [site] be the first allocation that
    fails: every allocation attempted at an earlier stage succeeds, the one
    at [site] is attempted and fails (for the workspace, the size query
    having succeeded).  Then the call returns 1 with a memory error whose
    message names the resource of [site]; in the trace of the call the
    failed attempt comes after events of earlier stages only (so it is the
    first attempt at that site: nothing is retried) and is followed by
    releases and by the error report only (no later stage runs: no further
    allocation, no call into the library). *)
Theorem allocation_failure_terminal (env : Env) (s0 : State)
    (in_act in_lab in_il : nat) (a : PyArrayObject) (site : Site) :
  call_ok in_act in_lab in_il s0 = true →
  objs s0 !! in_act = Some a →
  site ≠ SContext →
  allocations_ok env a s0 (site_stage site) = true →
  attempted a s0 site = true →
  alloc_ok env site = false →
  (site = SWorkspace →
   ∀ h args, (get_workspace_size env h args).1 = CTC_STATUS_SUCCESS) →
  ∃ s' pre fail rel,
    run_ctc_cost_cpu env in_act in_lab in_il s0 = Some (1, s') ∧
    err s' = Some (PyExc_MemoryError, oom_message site) ∧
    trace s' = trace s0 ++ pre ++ [fail] ++ rel
                 ++ [EvErr PyExc_MemoryError (oom_message site)] ∧
    failed_attempt site fail = true ∧
    Forall (λ e, (event_stage e < site_stage site)%nat) pre ∧
    Forall (λ e, is_release e = true) rel ∧
    oom_message site ≠ "" ∧
    (∀ site', oom_message site' = oom_message site →
       site' = site ∨ (site' = SFlatLabels ∧ site = SLabelLengths)
       ∨ (site' = SLabelLengths ∧ site = SFlatLabels)).
Proof.
  intros Hcall Ha Hsite Hok Hat Hfail Hq.
  destruct (call_ok_elim _ _ _ _ Hcall) as (a' & l & i & Ha' & Hl & Hi & Hda & Hlok & Hiok & Hh).
  assert (a' = a) as -> by congruence.
  assert (∃ s', run_ctc_cost_cpu env in_act in_lab in_il s0 = Some (1, s') ∧
                OomExit s0 a site s') as (s' & Hrun & [Herr (pre & fail & rel & Ht & Hf & Hp & _ & Hr)]).
  { destruct (decide (site = SWorkspace)) as [->|Hws].
    - destruct (tail_of_call env s0 in_act in_lab in_il a l i Ha Hl Hi Hh Hda Hiok Hlok)
        as (h & args & _ & _ & _ & _ & Hws & _).
      { apply (allocations_ok_mono _ _ _ 8 9); [lia|done]. }
      destruct (Hws (Hq eq_refl h args) Hfail) as (s' & ? & ? & _). eauto.
    - by apply oom_exit_before_query. }
  exists s', pre, fail, rel. repeat split; try done.
  - by destruct site.
  - intros site' E. destruct site, site'; try discriminate E; try done; auto.
Qed.

Lemma allocation_failure_terminal_witness :
  ∃ s' pre fail rel,
    run_ctc_cost_cpu (sample_env [SGradients] CTC_STATUS_SUCCESS CTC_STATUS_SUCCESS)
      0 1 2 sample_state = Some (1, s') ∧
    err s' = Some (PyExc_MemoryError, "Could not allocate storage for CTC gradients!") ∧
    trace s' = trace sample_state ++ pre ++ [fail] ++ rel
                 ++ [EvErr PyExc_MemoryError
                       "Could not allocate storage for CTC gradients!"] ∧
    failed_attempt SGradients fail = true.
Proof.
  destruct (allocation_failure_terminal
              (sample_env [SGradients] CTC_STATUS_SUCCESS CTC_STATUS_SUCCESS)
              sample_state 0 1 2 sample_activations SGradients
              eq_refl eq_refl ltac:(discriminate) eq_refl eq_refl eq_refl
              ltac:(discriminate))
    as (s' & pre & fail & rel & H1 & H2 & H3 & H4 & _).
  exists s', pre, fail, rel. repeat split; assumption.
Defined.

(** C6.  In a well-formed call in which every allocation before the
    workspace succeeds and the size query succeeds, a failure to allocate
    the workspace makes the call return 1 with the memory error of the
    workspace, after the clean-up: of the blocks the call allocated only the
    context structure is left on the heap (the input lengths, the flat
    labels and the label lengths are freed), the copy of the activations,
    if one was made, is deallocated, and the computation of the library was
    never called. *)
Theorem workspace_failure_cleans_up (env : Env) (s0 : State)
    (in_act in_lab in_il : nat) (a : PyArrayObject) :
  call_ok in_act in_lab in_il s0 = true →
  objs s0 !! in_act = Some a →
  allocations_ok env a s0 (site_stage SWorkspace) = true →
  (∀ h args, (get_workspace_size env h args).1 = CTC_STATUS_SUCCESS) →
  alloc_ok env SWorkspace = false →
  ∃ s' evs,
    run_ctc_cost_cpu env in_act in_lab in_il s0 = Some (1, s') ∧
    err s' = Some (PyExc_MemoryError,
                   "Failed to allocate memory for CTC workspace!") ∧
    heap s' = <[fresh_key (heap s0) := ctx_block]> (heap s0) ∧
    heap s0 !! fresh_key (heap s0) = None ∧
    (c_contiguous a = false → objs s' !! fresh_key (objs s0) = None) ∧
    trace s' = trace s0 ++ evs ∧
    (∀ args status, EvComputeCtcLoss args status ∉ evs) ∧
    (∃ fail, failed_attempt SWorkspace fail = true ∧ fail ∈ evs).
Proof.
  intros Hcall Ha Hok Hq Hfail.
  destruct (call_ok_elim _ _ _ _ Hcall) as (a' & l & i & Ha' & Hl & Hi & Hda & Hlok & Hiok & Hh).
  assert (a' = a) as -> by congruence.
  destruct (tail_of_call env s0 in_act in_lab in_il a l i Ha Hl Hi Hh Hda Hiok Hlok)
    as (h & args & _ & _ & _ & _ & Hws & _).
  { apply (allocations_ok_mono _ _ _ 8 9); [lia|done]. }
  destruct (Hws (Hq h args) Hfail)
    as (s' & Hrun & [Herr (pre & fail & rel & Ht & Hf & Hp & Hsz & Hr)] & Hheap & Hcopy).
  exists s', (pre ++ [fail] ++ rel ++ [EvErr PyExc_MemoryError (oom_message SWorkspace)]).
  split; [done|]. split; [done|]. split; [done|].
  split; [apply fresh_key_lookup|]. split; [done|]. split; [done|]. split.
  - intros largs st Hin.
    rewrite !elem_of_app in Hin. destruct Hin as [Hin|[Hin|[Hin|Hin]]].
    + rewrite Forall_forall in Hp. specialize (Hp _ Hin). simpl in Hp. lia.
    + apply list_elem_of_singleton in Hin. subst fail. done.
    + rewrite Forall_forall in Hr. specialize (Hr _ Hin). done.
    + apply list_elem_of_singleton in Hin. done.
  - exists fail. split; [done|].
    rewrite !elem_of_app. right. left. by apply list_elem_of_singleton.
Qed.

Lemma workspace_failure_cleans_up_witness :
  ∃ s' evs,
    run_ctc_cost_cpu (sample_env [SWorkspace] CTC_STATUS_SUCCESS CTC_STATUS_SUCCESS)
      0 1 2 sample_state = Some (1, s') ∧
    err s' = Some (PyExc_MemoryError,
                   "Failed to allocate memory for CTC workspace!") ∧
    heap s' = <[0%nat := ctx_block]> ∅ ∧
    objs s' !! 3%nat = None ∧
    trace s' = evs ∧
    (∀ args status, EvComputeCtcLoss args status ∉ evs).
Proof.
  destruct (workspace_failure_cleans_up
              (sample_env [SWorkspace] CTC_STATUS_SUCCESS CTC_STATUS_SUCCESS)
              sample_state 0 1 2 sample_activations
              eq_refl eq_refl eq_refl ltac:(intros; reflexivity) eq_refl)
    as (s' & evs & H1 & H2 & H3 & _ & H4 & H5 & H6 & _).
  exists s', evs. repeat split; try assumption. exact (H4 eq_refl).
Defined.

(** ** The calls into the library in the trace of a call *)

Lemma library_answer_stage e :
  is_Some (library_answer e) → (8 ≤ event_stage e)%nat.
Proof. destruct e; simpl; intros [? ?]; try done; lia. Qed.

Lemma library_answer_early k evs :
  (k ≤ 8)%nat → Forall (λ e, (event_stage e < k)%nat) evs →
  Forall (λ e, library_answer e = None) evs.
Proof.
  intros Hk H. eapply Forall_impl; [exact H|]. intros e He. cbn beta in *.
  destruct (library_answer e) eqn:E; [|done].
  pose proof (library_answer_stage e ltac:(by rewrite E)). lia.
Qed.

Lemma library_answer_release rel :
  Forall (λ e, is_release e = true) rel →
  Forall (λ e, library_answer e = None) rel.
Proof.
  intros H. eapply Forall_impl; [exact H|]. intros e He. by destruct e.
Qed.

Lemma library_answer_failed_attempt site e :
  failed_attempt site e = true → library_answer e = None.
Proof. by destruct e. Qed.

Section TailTrace.

Variable env : Env.
Variable s0 : State.
Variables (in_act in_lab in_il : nat).
Variables (a l i : PyArrayObject).

Hypothesis Ha : objs s0 !! in_act = Some a.
Hypothesis Hl : objs s0 !! in_lab = Some l.
Hypothesis Hi : objs s0 !! in_il = Some i.
Hypothesis Hh : handles_ok in_act s0 = true.
Hypothesis Hda : activations_ok a = true.
Hypothesis Hiok : lengths_ok i = true.
Hypothesis Hlok : labels_ok l = true.

(** When every allocation before the size query succeeds, the query is the
    first call into the library, and what follows it in the trace is
    described by [after_query]. *)
Lemma tail_trace :
  allocations_ok env a s0 8 = true →
  ∃ rc s' pre h args post,
    run_ctc_cost_cpu env in_act in_lab in_il s0 = Some (rc, s') ∧
    trace s' = trace s0 ++ pre
                 ++ EvGetWorkspaceSize args (get_workspace_size env h args).1 :: post ∧
    Forall (λ e, library_answer e = None) pre ∧
    ws_options args = options (fresh_context env) ∧
    after_query env rc s' (get_workspace_size env h args).1 post.
Proof.
  intros Hok.
  destruct (reach_query env s0 in_act in_lab in_il a l i Ha Hl Hi Hh Hda Hiok Hlok Hok)
    as (copy & act & il & fl & ll & costs & grads & s & Heq & HI & Hoc & Hog
        & Hcr & Hgr & Hcont).
  set (context := context_at env copy (Some il) (Some fl) (Some ll) None) in *.
  set (mb := minibatch_of a) in *. set (al := alphabet_of a) in *.
  destruct (inv_trace _ _ _ _ _ _ _ HI) as (evs & Ht & Hf & Hs).
  pose proof (library_answer_early 8 evs ltac:(lia) Hf) as Hpre.
  assert (HIq : Inv s0 in_act a (fresh_key (heap s0)) context 9
                  (queried env context al mb s)).
  { apply Inv_log; [simpl; lia|done|].
    by apply (Inv_mono _ _ _ _ _ 8%nat 9%nat); [lia|]. }
  set (status := (get_workspace_size env (heap s) (ws_args context al mb)).1).
  destruct (decide (status = CTC_STATUS_SUCCESS)) as [Hst|Hst];
    [destruct (alloc_ok env SWorkspace) eqn:Hws|].
  - (* the workspace is allocated *)
    set (ws := fresh_key (heap s)).
    set (context' := set_workspace (Some ws) context).
    set (sw := with_workspace env context al mb s).
    set (largs := compute_args context act grads costs al mb s).
    assert (HIw : Inv s0 in_act a (fresh_key (heap s0)) context' 10 sw).
    { unfold sw, with_workspace, context', ws. cbv zeta.
      change (heap s) with (heap (queried env context al mb s)).
      apply (Inv_malloc _ _ _ _ context _ 9 10);
        [exact HIq|lia|simpl; lia|reflexivity|reflexivity]. }
    assert (HIc : Inv s0 in_act a (fresh_key (heap s0)) context' 11
                    (computed env context act grads costs al mb s)).
    { apply Inv_log; [simpl; lia|done|].
      apply Inv_written; [|exact Hoc|exact Hog].
      by apply (Inv_mono _ _ _ _ _ 10%nat 11%nat); [lia|]. }
    set (status2 := compute_ctc_loss env (heap sw) largs).
    destruct (decide (status2 = CTC_STATUS_SUCCESS)) as [Hst2|Hst2].
    + (* the computation succeeds *)
      pose proof (heap_destroyed_Inv _ _ _ _ _ _ _ HIc) as Hheap.
      destruct (trace_destroyed context'
                  (computed env context act grads costs al mb s))
        as (rel & Hrel & Frel).
      eexists 0, _, evs, (heap s), (ws_args context al mb),
        (EvMalloc SWorkspace (workspace_size env context al mb s) (Some ws)
           :: EvComputeCtcLoss largs status2
           :: rel ++ [EvFree (fresh_key (heap s0))]).
      split; [|split; [|split; [done|split; [done|]]]].
      * apply run_Return. rewrite Heq.
        apply query_and_compute_success; try done.
        -- exact (destroy_Inv _ _ _ _ _ _ _ HIc).
        -- change (is_Some (heap (destroyed context'
                     (computed env context act grads costs al mb s))
                   !! fresh_key (heap s0))).
           rewrite Hheap, lookup_insert_eq. eauto.
      * change (trace (destroyed context'
                  (computed env context act grads costs al mb s))
                ++ [EvFree (fresh_key (heap s0))] = trace s0 ++ evs ++
                  EvGetWorkspaceSize (ws_args context al mb) status ::
                  EvMalloc SWorkspace (workspace_size env context al mb s) (Some ws) ::
                  EvComputeCtcLoss largs status2 ::
                  rel ++ [EvFree (fresh_key (heap s0))]).
        rewrite Hrel. cbn. rewrite Ht, <- !app_assoc. reflexivity.
      * right. right. split; [done|]. split; [done|].
        exists (heap sw), largs, (workspace_size env context al mb s), ws,
          (rel ++ [EvFree (fresh_key (heap s0))]).
        split; [done|]. split.
        { apply Forall_app. split; [by apply library_answer_release|].
          by repeat constructor. }
        split; [done|]. split; [done|done].
    + (* the computation fails *)
      eexists 1, _, evs, (heap s), (ws_args context al mb), _.
      split; [|split; [|split; [done|split; [done|]]]].
      * apply run_Return. rewrite Heq.
        by apply query_and_compute_compute_failed.
      * cbn. rewrite Ht, <- !app_assoc. reflexivity.
      * right. right. split; [done|]. split; [done|].
        exists (heap sw), largs, (workspace_size env context al mb s), ws,
          [EvErr PyExc_RuntimeError
             (library_error env "Failed to compute CTC loss function!" status2)].
        split; [done|]. split; [by repeat constructor|].
        split; [done|]. split; [done|done].
  - (* the workspace cannot be allocated *)
    set (fail := EvMalloc SWorkspace (workspace_size env context al mb s) None).
    assert (HI' : Inv s0 in_act a (fresh_key (heap s0)) context 10
                    (log fail (queried env context al mb s))).
    { apply (Inv_malloc_failed _ _ _ _ _ 9%nat 10%nat); try done; simpl; lia. }
    destruct (trace_raised_destroyed PyExc_MemoryError
                "Failed to allocate memory for CTC workspace!"
                (set_workspace None context) (log fail (queried env context al mb s)))
      as (rel & Hrel & Frel).
    eexists 1, _, evs, (heap s), (ws_args context al mb),
      (fail :: rel ++ [EvErr PyExc_MemoryError
                         "Failed to allocate memory for CTC workspace!"]).
    split; [|split; [|split; [done|split; [done|]]]].
    + apply run_Return. rewrite Heq.
      apply query_and_compute_workspace_failed; try done.
      exact (destroy_Inv _ _ _ _ _ _ _ HI').
    + etransitivity; [exact Hrel|]. cbn. rewrite Ht, <- !app_assoc. reflexivity.
    + right. left. split; [done|]. split; [done|]. split; [done|].
      constructor; [done|]. apply Forall_app. split.
      * by apply library_answer_release.
      * by repeat constructor.
  - (* the size query fails *)
    eexists 1, _, evs, (heap s), (ws_args context al mb), _.
    split; [|split; [|split; [done|split; [done|]]]].
    + apply run_Return. rewrite Heq.
      by apply query_and_compute_query_failed.
    + cbn. rewrite Ht, <- !app_assoc. reflexivity.
    + left. done.
Qed.

End TailTrace.

(** ** Failures of the library *)

(** C7.  A well-formed call returns, and whenever, in the course of it, the
    library answered a status other than success to the size query or to
    the computation, the call returns 1 with a runtime error whose message
    is the message of that stage, then [" | CTC library error message: "],
    then the library's own string for that status.  The size query is made
    as soon as every allocation before it succeeds, and the computation as
    soon as the query succeeded and the workspace is allocated. *)
Theorem library_failure_reported (env : Env) (s0 : State)
    (in_act in_lab in_il : nat) (a : PyArrayObject) :
  call_ok in_act in_lab in_il s0 = true →
  objs s0 !! in_act = Some a →
  alloc_ok env SContext = true →
  ∃ rc s' evs,
    run_ctc_cost_cpu env in_act in_lab in_il s0 = Some (rc, s') ∧
    trace s' = trace s0 ++ evs ∧
    (∀ e msg status,
       e ∈ evs → library_answer e = Some (msg, status) →
       status ≠ CTC_STATUS_SUCCESS →
       rc = 1 ∧
       err s' = Some (PyExc_RuntimeError,
                      String.append msg
                        (String.append " | CTC library error message: "
                           (ctcGetStatusString env status)))) ∧
    (allocations_ok env a s0 8 = true →
     ∃ args status, EvGetWorkspaceSize args status ∈ evs) ∧
    (∀ args, EvGetWorkspaceSize args CTC_STATUS_SUCCESS ∈ evs →
             alloc_ok env SWorkspace = true →
             ∃ largs status, EvComputeCtcLoss largs status ∈ evs).
Proof.
  intros Hcall Ha Hctx.
  destruct (call_ok_elim _ _ _ _ Hcall) as (a' & l & i & Ha' & Hl & Hi & Hda & Hlok & Hiok & Hh).
  assert (a' = a) as -> by congruence.
  assert (Htail : allocations_ok env a s0 8 = true →
    ∃ rc s' evs,
      run_ctc_cost_cpu env in_act in_lab in_il s0 = Some (rc, s') ∧
      trace s' = trace s0 ++ evs ∧
      (∀ e msg status,
         e ∈ evs → library_answer e = Some (msg, status) →
         status ≠ CTC_STATUS_SUCCESS →
         rc = 1 ∧ err s' = Some (PyExc_RuntimeError, library_error env msg status)) ∧
      (∃ args status, EvGetWorkspaceSize args status ∈ evs) ∧
      (∀ args, EvGetWorkspaceSize args CTC_STATUS_SUCCESS ∈ evs →
               alloc_ok env SWorkspace = true →
               ∃ largs status, EvComputeCtcLoss largs status ∈ evs)).
  { intros Hok.
    destruct (tail_trace env s0 in_act in_lab in_il a l i Ha Hl Hi Hh Hda Hiok Hlok Hok)
      as (rc & s' & pre & h & args & post & Hrun & Ht & Hpre & _ & Hafter).
    set (status := (get_workspace_size env h args).1) in *.
    exists rc, s', (pre ++ EvGetWorkspaceSize args status :: post).
    split; [done|]. split; [done|].
    rewrite Forall_forall in Hpre.
    split; [|split].
    - intros e msg st Hin He Hst.
      apply elem_of_app in Hin as [Hin|Hin]; [by rewrite (Hpre _ Hin) in He|].
      apply elem_of_cons in Hin as [->|Hin].
      + injection He as <- <-.
        destruct Hafter as [(_ & ? & ? & _)|[(? & _)|(? & _)]]; done.
      + destruct Hafter as [(_ & _ & _ & ->)|[(_ & _ & _ & Hp)|
          (_ & _ & h' & largs & size & ws & post' & -> & Hp & _ & Hfail & _)]].
        * apply list_elem_of_singleton in Hin as ->. done.
        * rewrite Forall_forall in Hp. by rewrite (Hp _ Hin) in He.
        * apply elem_of_cons in Hin as [->|Hin]; [done|].
          apply elem_of_cons in Hin as [->|Hin].
          -- injection He as <- <-. by apply Hfail.
          -- rewrite Forall_forall in Hp. by rewrite (Hp _ Hin) in He.
    - exists args, status. apply elem_of_app. right. by left.
    - intros args' Hin Hws.
      assert (status = CTC_STATUS_SUCCESS) as Hst.
      { apply elem_of_app in Hin as [Hin|Hin]; [by specialize (Hpre _ Hin)|].
        apply elem_of_cons in Hin as [Heq|Hin]; [congruence|].
        destruct Hafter as [(_ & _ & _ & ->)|[(? & _)|(? & _)]]; try done.
        by apply list_elem_of_singleton in Hin. }
      destruct Hafter as [(? & _)|[(_ & ? & _)|
        (_ & _ & h' & largs & size & ws & post' & -> & _)]]; [done|congruence|].
      eexists largs, _. apply elem_of_app. right. right. right. left. }
  assert (H2 : allocations_ok env a s0 2 = true).
  { apply allocations_ok_intro. intros site Hlt _.
    destruct site; simpl in Hlt; try lia. done. }
  assert (Hdone : allocations_ok env a s0 8 = true →
    ∃ rc s' evs,
      run_ctc_cost_cpu env in_act in_lab in_il s0 = Some (rc, s') ∧
      trace s' = trace s0 ++ evs ∧
      (∀ e msg status,
         e ∈ evs → library_answer e = Some (msg, status) →
         status ≠ CTC_STATUS_SUCCESS →
         rc = 1 ∧
         err s' = Some (PyExc_RuntimeError,
                        String.append msg
                          (String.append " | CTC library error message: "
                             (ctcGetStatusString env status)))) ∧
      (allocations_ok env a s0 8 = true →
       ∃ args status, EvGetWorkspaceSize args status ∈ evs) ∧
      (∀ args, EvGetWorkspaceSize args CTC_STATUS_SUCCESS ∈ evs →
               alloc_ok env SWorkspace = true →
               ∃ largs status, EvComputeCtcLoss largs status ∈ evs)).
  { intros Hok. destruct (Htail Hok) as (rc & s' & evs & ? & ? & ? & ? & ?).
    exists rc, s', evs. done. }
  destruct (first_failure env a s0 2 H2) as [Hall|(site & Hge & Hok & Hat & Hfail)].
  { apply Hdone. apply (allocations_ok_mono _ _ _ 8 10); [lia|done]. }
  destruct (decide (site = SWorkspace)) as [->|Hws].
  { apply Hdone. apply (allocations_ok_mono _ _ _ 8 9); [lia|done]. }
  assert (Hearly : (site_stage site < 8)%nat) by (destruct site; simpl; try lia; done).
  destruct (oom_exit_before_query env s0 in_act in_lab in_il a site)
    as (s' & Hrun & [_ (pre & fail & rel & Ht & Hf & Hp & _ & Hr)]); try done.
  { intros ->. simpl in Hge. lia. }
  assert (Hnone : Forall (λ e, library_answer e = None)
            (pre ++ [fail] ++ rel ++ [EvErr PyExc_MemoryError (oom_message site)])).
  { rewrite !Forall_app. repeat split.
    - apply (library_answer_early (site_stage site)); [lia|done].
    - repeat constructor. by apply (library_answer_failed_attempt site).
    - by apply library_answer_release.
    - by repeat constructor. }
  rewrite Forall_forall in Hnone.
  exists 1, s', (pre ++ [fail] ++ rel ++ [EvErr PyExc_MemoryError (oom_message site)]).
  split; [done|]. split; [done|]. split; [|split].
  - intros e msg st Hin He. by rewrite (Hnone _ Hin) in He.
  - intros Hok8.
    pose proof (allocations_ok_site env a s0 8 site Hok8 Hearly Hat). congruence.
  - intros args Hin. by specialize (Hnone _ Hin).
Qed.

Lemma library_failure_reported_witness :
  ∃ s' evs,
    run_ctc_cost_cpu (sample_env [] CTC_STATUS_INVALID_VALUE CTC_STATUS_SUCCESS)
      0 1 2 sample_state = Some (1, s') ∧
    trace s' = evs ∧
    err s' = Some (PyExc_RuntimeError,
      "Failed to obtain CTC workspace size! | CTC library error message: invalid value").
Proof.
  destruct (library_failure_reported
              (sample_env [] CTC_STATUS_INVALID_VALUE CTC_STATUS_SUCCESS)
              sample_state 0 1 2 sample_activations eq_refl eq_refl eq_refl)
    as (rc & s' & evs & Hrun & Ht & Hrep & Hq & _).
  destruct (Hq eq_refl) as (args & status & Hin).
  assert (Hst : status = CTC_STATUS_INVALID_VALUE).
  { pose proof Hrun as Hrun'. vm_compute in Hrun'. injection Hrun' as _ <-.
    vm_compute in Ht. subst evs.
    rewrite !elem_of_cons, elem_of_nil in Hin.
    repeat (destruct Hin as [Hin|Hin]; [try discriminate Hin; congruence|]).
    done. }
  subst status.
  destruct (Hrep _ _ _ Hin eq_refl ltac:(discriminate)) as (-> & Herr).
  exists s', evs. split; [exact Hrun|]. split; [exact Ht|]. exact Herr.
Defined.

(** ** Where the sizes come from *)

Lemma minibatch_of_dims a t b n :
  dims a = [t; b; n] → INT_MIN ≤ b ≤ INT_MAX → minibatch_of a = b.
Proof. intros Hd Hb. unfold minibatch_of. rewrite Hd. simpl. by apply to_int_id. Qed.

Lemma alphabet_of_dims a t b n :
  dims a = [t; b; n] → INT_MIN ≤ n ≤ INT_MAX → alphabet_of a = n.
Proof. intros Hd Hn. unfold alphabet_of. rewrite Hd. simpl. by apply to_int_id. Qed.

(** A well-formed call returns; every event of its trace that carries
    sizes carries those of the activations, and after a return of 0 the
    costs output has the length of the batch. *)
Lemma call_sizes env s0 in_act in_lab in_il a :
  call_ok in_act in_lab in_il s0 = true →
  objs s0 !! in_act = Some a →
  alloc_ok env SContext = true →
  ∃ rc s' evs,
    run_ctc_cost_cpu env in_act in_lab in_il s0 = Some (rc, s') ∧
    trace s' = trace s0 ++ evs ∧
    Forall (event_sizes_ok (minibatch_of a) (alphabet_of a)) evs ∧
    (rc = 0 → costs_reusable (minibatch_of a) s' = true).
Proof.
  intros Hcall Ha Hctx.
  destruct (call_ok_elim _ _ _ _ Hcall) as (a' & l & i & Ha' & Hl & Hi & Hda & Hlok & Hiok & Hh).
  assert (a' = a) as -> by congruence.
assert (Htail : allocations_ok env a s0 8 = true →
    ∃ rc s' evs,
      run_ctc_cost_cpu env in_act in_lab in_il s0 = Some (rc, s') ∧
      trace s' = trace s0 ++ evs ∧
      Forall (event_sizes_ok (minibatch_of a) (alphabet_of a)) evs ∧
      (rc = 0 → costs_reusable (minibatch_of a) s' = true)).
  { intros Hok.
    destruct (tail_of_call env s0 in_act in_lab in_il a l i Ha Hl Hi Hh Hda Hiok Hlok Hok)
      as (h & args & _ & _ & _ & Hqf & Hwf & Hwk).
    destruct (decide ((get_workspace_size env h args).1 = CTC_STATUS_SUCCESS))
      as [Hst|Hst].
    - destruct (alloc_ok env SWorkspace) eqn:Hws.
      + destruct (Hwk Hst eq_refl) as (h' & largs & ws & _ & _ & Hcf & Hcs).
        destruct (decide (compute_ctc_loss env h' largs = CTC_STATUS_SUCCESS))
          as [Hst2|Hst2].
        * destruct (Hcs Hst2) as (s' & Hrun & _ & [_ _ _ Hc _ (evs & Ht & Hs)] & _).
          exists 0, s', evs. done.
        * destruct (Hcf Hst2) as (s' & Hrun & _ & Hexit & _).
          destruct (LibraryExit_sizes _ _ _ _ _ _ _ Hexit) as (evs & Ht & Hs).
          exists 1, s', evs. done.
      + destruct (Hwf Hst eq_refl) as (s' & Hrun & Hexit & _).
        destruct (OomExit_sizes _ _ _ _ Hexit) as (evs & Ht & Hs).
        exists 1, s', evs. done.
    - destruct (Hqf Hst) as (s' & Hrun & Hexit).
      destruct (LibraryExit_sizes _ _ _ _ _ _ _ Hexit) as (evs & Ht & Hs).
      exists 1, s', evs. done. }
  assert (H2 : allocations_ok env a s0 2 = true).
  { apply allocations_ok_intro. intros site Hlt _.
    destruct site; simpl in Hlt; try lia. done. }
  destruct (first_failure env a s0 2 H2) as [Hall|(site & Hge & Hok & Hat & Hfail)].
  { apply Htail. apply (allocations_ok_mono _ _ _ 8 10); [lia|done]. }
  destruct (decide (site = SWorkspace)) as [->|Hws].
  { apply Htail. apply (allocations_ok_mono _ _ _ 8 9); [lia|done]. }
  destruct (oom_exit_before_query env s0 in_act in_lab in_il a site)
    as (s' & Hrun & Hexit); try done.
  { intros ->. simpl in Hge. lia. }
  destruct (OomExit_sizes _ _ _ _ Hexit) as (evs & Ht & Hs).
  exists 1, s', evs. done.
Qed.

(** The size query is made as soon as every allocation before it succeeds,
    the computation as soon as the query succeeded and the workspace is
    allocated, and a computation that succeeds makes the call return 0. *)
Lemma library_calls_made env s0 in_act in_lab in_il a :
  call_ok in_act in_lab in_il s0 = true →
  objs s0 !! in_act = Some a →
  alloc_ok env SContext = true →
  ∃ rc s' evs,
    run_ctc_cost_cpu env in_act in_lab in_il s0 = Some (rc, s') ∧
    trace s' = trace s0 ++ evs ∧
    (allocations_ok env a s0 8 = true →
     ∃ args status, EvGetWorkspaceSize args status ∈ evs) ∧
    (∀ args, EvGetWorkspaceSize args CTC_STATUS_SUCCESS ∈ evs →
             alloc_ok env SWorkspace = true →
             ∃ largs status, EvComputeCtcLoss largs status ∈ evs) ∧
    (∀ largs, EvComputeCtcLoss largs CTC_STATUS_SUCCESS ∈ evs → rc = 0).
Proof.
  intros Hcall Ha Hctx.
  destruct (call_ok_elim _ _ _ _ Hcall) as (a' & l & i & Ha' & Hl & Hi & Hda & Hlok & Hiok & Hh).
  assert (a' = a) as -> by congruence.
  assert (Htail : allocations_ok env a s0 8 = true →
    ∃ rc s' evs,
      run_ctc_cost_cpu env in_act in_lab in_il s0 = Some (rc, s') ∧
      trace s' = trace s0 ++ evs ∧
      (allocations_ok env a s0 8 = true →
       ∃ args status, EvGetWorkspaceSize args status ∈ evs) ∧
      (∀ args, EvGetWorkspaceSize args CTC_STATUS_SUCCESS ∈ evs →
               alloc_ok env SWorkspace = true →
               ∃ largs status, EvComputeCtcLoss largs status ∈ evs) ∧
      (∀ largs, EvComputeCtcLoss largs CTC_STATUS_SUCCESS ∈ evs → rc = 0)).
  { intros Hok.
    destruct (tail_trace env s0 in_act in_lab in_il a l i Ha Hl Hi Hh Hda Hiok Hlok Hok)
      as (rc & s' & pre & h & args & post & Hrun & Ht & Hpre & _ & Hafter).
    set (status := (get_workspace_size env h args).1) in *.
    exists rc, s', (pre ++ EvGetWorkspaceSize args status :: post).
    split; [done|]. split; [done|].
    rewrite Forall_forall in Hpre.
    split; [|split].
    - intros _. exists args, status. apply elem_of_app. right. by left.
    - intros args' Hin Hws.
      assert (status = CTC_STATUS_SUCCESS) as Hst.
      { apply elem_of_app in Hin as [Hin|Hin]; [by specialize (Hpre _ Hin)|].
        apply elem_of_cons in Hin as [Heq|Hin]; [congruence|].
        destruct Hafter as [(_ & _ & _ & ->)|[(? & _)|(? & _)]]; try done.
        by apply list_elem_of_singleton in Hin. }
      destruct Hafter as [(? & _)|[(_ & ? & _)|
        (_ & _ & h' & largs & size & ws & post' & -> & _)]]; [done|congruence|].
      eexists largs, _. apply elem_of_app. right. right. right. left.
    - intros largs Hin.
      apply elem_of_app in Hin as [Hin|Hin]; [by specialize (Hpre _ Hin)|].
      apply elem_of_cons in Hin as [Heq|Hin]; [discriminate Heq|].
      destruct Hafter as [(_ & _ & _ & ->)|[(_ & _ & _ & Hp)|
        (_ & _ & h' & largs' & size & ws & post' & -> & Hp & _ & _ & Hsucc)]].
      + by apply list_elem_of_singleton in Hin.
      + rewrite Forall_forall in Hp. by specialize (Hp _ Hin).
      + apply elem_of_cons in Hin as [Heq|Hin]; [discriminate Heq|].
        apply elem_of_cons in Hin as [Heq|Hin].
        * apply Hsucc. congruence.
        * rewrite Forall_forall in Hp. by specialize (Hp _ Hin). }
  assert (H2 : allocations_ok env a s0 2 = true).
  { apply allocations_ok_intro. intros site Hlt _.
    destruct site; simpl in Hlt; try lia. done. }
  destruct (first_failure env a s0 2 H2) as [Hall|(site & Hge & Hok & Hat & Hfail)].
  { apply Htail. apply (allocations_ok_mono _ _ _ 8 10); [lia|done]. }
  destruct (decide (site = SWorkspace)) as [->|Hws].
  { apply Htail. apply (allocations_ok_mono _ _ _ 8 9); [lia|done]. }
  assert (Hearly : (site_stage site < 8)%nat) by (destruct site; simpl; try lia; done).
  destruct (oom_exit_before_query env s0 in_act in_lab in_il a site)
    as (s' & Hrun & [_ (pre & fail & rel & Ht & Hf & Hp & _ & Hr)]); try done.
  { intros ->. simpl in Hge. lia. }
  assert (Hnone : Forall (λ e, library_answer e = None)
            (pre ++ [fail] ++ rel ++ [EvErr PyExc_MemoryError (oom_message site)])).
  { rewrite !Forall_app. repeat split.
    - apply (library_answer_early (site_stage site)); [lia|done].
    - repeat constructor. by apply (library_answer_failed_attempt site).
    - by apply library_answer_release.
    - by repeat constructor. }
  rewrite Forall_forall in Hnone.
  exists 1, s', (pre ++ [fail] ++ rel ++ [EvErr PyExc_MemoryError (oom_message site)]).
  split; [done|]. split; [done|]. split; [|split].
  - intros Hok8.
    pose proof (allocations_ok_site env a s0 8 site Hok8 Hearly Hat). congruence.
  - intros args Hin. by specialize (Hnone _ Hin).
  - intros largs Hin. by specialize (Hnone _ Hin).
Qed.

(** That call returns 0 with a costs array of length 2
    and gradients of the shape of the activations. *)
Example mismatched_call_runs :
  ∃ s', run_ctc_cost_cpu (sample_env [] CTC_STATUS_SUCCESS CTC_STATUS_SUCCESS)
          0 1 2 mismatched_state = Some (0, s') ∧
        out_costs s' = Some 4%nat ∧ dims <$> objs s' !! 4%nat = Some [2] ∧
        out_gradients s' = Some 5%nat ∧ dims <$> objs s' !! 5%nat = Some [2; 2; 3].
Proof. eexists. split; [vm_compute; reflexivity|]. repeat split. Qed.

(** ** What the code does against C1 and C2 *)

(** C1 fails on the code.  In the sample call the computation answers
    CTC_STATUS_EXECUTION_FAILED: the entry point returns 1 at line 246
    without calling [ctc_context_destroy], so that on return the workspace
    (block 4), the input lengths (block 1), the flat labels (block 2), the
    label lengths (block 3) and the copy of the activations (object 3), none
    of which existed before the call, are all still allocated, and the trace
    of the call has no release in it. *)
Theorem compute_failure_leaks :
  ∃ s',
    run_ctc_cost_cpu (sample_env [] CTC_STATUS_SUCCESS CTC_STATUS_EXECUTION_FAILED)
      0 1 2 sample_state = Some (1, s') ∧
    err s' = Some (PyExc_RuntimeError,
      "Failed to compute CTC loss function! | CTC library error message: execution failed") ∧
    heap sample_state = ∅ ∧ objs sample_state !! 3%nat = None ∧
    b_site <$> heap s' !! 4%nat = Some SWorkspace ∧
    b_site <$> heap s' !! 1%nat = Some SInputLengths ∧
    b_site <$> heap s' !! 2%nat = Some SFlatLabels ∧
    b_site <$> heap s' !! 3%nat = Some SLabelLengths ∧
    objs s' !! 3%nat = Some (copy_of sample_activations) ∧
    forallb (λ e, negb (is_release e)) (trace s') = true.
Proof. eexists. split; [vm_compute; reflexivity|]. repeat split. Qed.

(** The same call when the computation succeeds: everything is released
    (the sibling path, lines 248-251). *)
Example compute_success_releases :
  ∃ s',
    run_ctc_cost_cpu (sample_env [] CTC_STATUS_SUCCESS CTC_STATUS_SUCCESS)
      0 1 2 sample_state = Some (0, s') ∧
    heap s' = ∅ ∧ objs s' !! 3%nat = None.
Proof. eexists. split; [vm_compute; reflexivity|]. split; reflexivity. Qed.

(** In that call the library has written the costs and the gradients into
    the two output arrays the entry point allocated for it. *)
Example computation_writes_outputs :
  ∃ s',
    run_ctc_cost_cpu (sample_env [] CTC_STATUS_SUCCESS CTC_STATUS_SUCCESS)
      0 1 2 sample_state = Some (0, s') ∧
    out_costs s' = Some 4%nat ∧
    items <$> objs s' !! 4%nat = Some [1; 1] ∧
    out_gradients s' = Some 5%nat ∧
    items <$> objs s' !! 5%nat = Some (replicate 12 2).
Proof. eexists. split; [vm_compute; reflexivity|]. repeat split. Qed.

Lemma ctc_context_init_options (context : ctc_context_t) :
  options (ctc_context_init context) = options context.
Proof. reflexivity. Qed.

(** C2 fails on the code.  [ctc_context_init] sets the location and the
    number of threads in a local copy of the options (lines 14-17) and
    leaves those of the context as they were, that is as the fresh block of
    line 118 held them.  In the sample call that block holds the location
    GPU and 8 threads, and these are the options both calls into the
    library receive. *)
Theorem library_options_not_set :
  ∃ s' wargs largs,
    run_ctc_cost_cpu (sample_env [] CTC_STATUS_SUCCESS CTC_STATUS_SUCCESS)
      0 1 2 sample_state = Some (0, s') ∧
    options (ctc_context_init leftover_context) = options leftover_context ∧
    filter (λ e, is_Some (library_answer e)) (trace s') =
      [EvGetWorkspaceSize wargs CTC_STATUS_SUCCESS;
       EvComputeCtcLoss largs CTC_STATUS_SUCCESS] ∧
    ws_options wargs = {| loc := CTC_GPU; num_threads := 8; blank_label := 77 |} ∧
    ls_options largs = {| loc := CTC_GPU; num_threads := 8; blank_label := 77 |}.
Proof.
  eexists _, _, _. split; [vm_compute; reflexivity|].
  split; [reflexivity|]. split; [vm_compute; reflexivity|]. split; reflexivity.
Qed.

(** * Further properties of the helpers *)

(** ** [create_contiguous_input_lengths] *)

(** X1.  On a live 1-D array of [n] ints ([n] fitting an [int]),
    [create_contiguous_input_lengths] either returns a new block of exactly
    [n] cells holding the elements of the array in order, or, when [malloc]
    fails, NULL; in both cases the arrays, the other blocks, the output
    handles and the error indicator are left as they were. *)
Theorem input_lengths_copied (env : Env) (ia : nat) (i : PyArrayObject) (s : State) :
  objs s !! ia = Some i →
  lengths_ok i = true →
  (alloc_ok env SInputLengths = true →
   ∃ p b s',
     create_contiguous_input_lengths env ia s = Next (Some p) s' ∧
     heap s !! p = None ∧ heap s' = <[p := b]> (heap s) ∧
     b_cells b = Some <$> items i ∧
     (∀ k, b_cells b !! k = Some <$> items i !! k) ∧
     b_size b = 4 * Z.of_nat (length (items i)) ∧
     objs s' = objs s ∧ err s' = err s ∧
     out_costs s' = out_costs s ∧ out_gradients s' = out_gradients s) ∧
  (alloc_ok env SInputLengths = false →
   ∃ s',
     create_contiguous_input_lengths env ia s = Next None s' ∧
     heap s' = heap s ∧ objs s' = objs s ∧ err s' = err s ∧
     out_costs s' = out_costs s ∧ out_gradients s' = out_gradients s).
Proof.
  intros Ho Hiok.
  destruct (lengths_ok_dims _ Hiok) as (N & Hd & Hlen & HN).
  split.
  - intros Hok.
    pose proof (create_contiguous_input_lengths_ok env ia i N s Ho Hd Hlen HN Hok) as Heq.
    cbv zeta in Heq.
    eexists _, _, _. split; [exact Heq|].
    split; [apply fresh_key_lookup|]. split; [reflexivity|].
    assert (Hcells : b_cells (input_lengths_block N (items i)) = Some <$> items i).
    { cbn. by rewrite <- Hlen, firstn_all. }
    split; [exact Hcells|]. split.
    + intros k. rewrite Hcells. apply list_lookup_fmap.
    + cbn. by rewrite Hlen.
  - intros Hfail. eexists. split.
    + by apply (create_contiguous_input_lengths_fail env ia i (Z.of_nat N) []).
    + done.
Qed.

Lemma input_lengths_copied_witness :
  ∃ p b s',
    create_contiguous_input_lengths
      (sample_env [] CTC_STATUS_SUCCESS CTC_STATUS_SUCCESS) 2 sample_state
      = Next (Some p) s' ∧
    heap s' = <[p := b]> (heap sample_state) ∧
    b_cells b = [Some 2; Some 2].
Proof.
  destruct (input_lengths_copied
              (sample_env [] CTC_STATUS_SUCCESS CTC_STATUS_SUCCESS)
              2 sample_lengths sample_state eq_refl eq_refl) as (H & _).
  destruct (H eq_refl) as (p & b & s' & H1 & _ & H2 & H3 & _).
  exists p, b, s'. repeat split; assumption.
Defined.

(** ** [ctc_context_destroy] *)

(** X2.  On a context whose non-NULL buffers are distinct live blocks and whose
    copy of the activations, if set, is a live object, [ctc_context_destroy]
    frees exactly those buffers (every other block is untouched), gives up
    one reference to the copy (which is deallocated when that was the last
    one; every other object is untouched), and changes neither the error
    indicator nor the output handles; what it adds to the trace are
    releases only. *)
Theorem destroy_releases_buffers (context : ctc_context_t) (s : State) :
  NoDup (buffers context) →
  (∀ p, p ∈ buffers context → is_Some (heap s !! p)) →
  (∀ c, activations_copy context = Some c → is_Some (objs s !! c)) →
  ∃ s' rel,
    ctc_context_destroy context s = Next () s' ∧
    (∀ p, p ∈ buffers context → heap s' !! p = None) ∧
    (∀ q, q ∉ buffers context → heap s' !! q = heap s !! q) ∧
    (∀ c oc, activations_copy context = Some c → objs s !! c = Some oc →
       objs s' !! c =
         if (ob_refcnt oc <=? 1)%nat then None
         else Some {| ob_refcnt := pred (ob_refcnt oc); dims := dims oc;
                      c_contiguous := c_contiguous oc; descr := descr oc;
                      items := items oc |}) ∧
    (∀ x, activations_copy context ≠ Some x → objs s' !! x = objs s !! x) ∧
    err s' = err s ∧ out_costs s' = out_costs s ∧
    out_gradients s' = out_gradients s ∧
    trace s' = trace s ++ rel ∧ Forall (λ e, is_release e = true) rel.
Proof.
  intros Hnd Hlive Hcopy.
  destruct (trace_destroyed context s) as (rel & Hrel & Frel).
  exists (destroyed context s), rel.
  split; [by apply ctc_context_destroy_ok|].
  split; [|split; [|split; [|split]]].
  - intros p Hp. rewrite lookup_heap_destroyed. by case_decide.
  - intros q Hq. rewrite lookup_heap_destroyed. by case_decide.
  - intros c oc Hc Hoc. rewrite objs_destroyed, Hc. cbn. rewrite Hoc. cbn.
    unfold drop_ref. destruct (ob_refcnt oc <=? 1)%nat.
    + apply lookup_delete_eq.
    + apply lookup_insert_eq.
  - intros x Hx. rewrite objs_destroyed. unfold released.
    destruct (activations_copy context) as [c|]; [|done].
    destruct (objs s !! c) as [oc|]; [|done]. cbn.
    apply lookup_drop_ref_ne. congruence.
  - unfold destroyed.
    rewrite err_released, !err_freed, out_costs_released, !out_costs_freed,
      out_gradients_released, !out_gradients_freed. done.
Qed.

Lemma destroy_releases_buffers_witness :
  ∃ s',
    ctc_context_destroy owning_context owning_state = Next () s' ∧
    heap s' !! 5%nat = None ∧ heap s' !! 6%nat = None ∧
    objs s' !! 0%nat = None ∧ objs s' !! 1%nat = Some sample_labels.
Proof.
  destruct (destroy_releases_buffers owning_context owning_state)
    as (s' & rel & H1 & H2 & _ & H3 & H4 & _).
  - apply (bool_decide_unpack _). vm_compute. exact I.
  - intros p Hp. apply buffers_elem in Hp.
    destruct Hp as [Hp|[Hp|[Hp|Hp]]]; try discriminate Hp;
      injection Hp as <-; eexists; reflexivity.
  - intros c Hc. injection Hc as <-. eexists; reflexivity.
  - exists s'. split; [exact H1|].
    split; [apply H2, buffers_elem; left; reflexivity|].
    split; [apply H2, buffers_elem; right; right; left; reflexivity|].
    split; [exact (H3 0%nat sample_activations eq_refl eq_refl)|].
    rewrite H4 by discriminate. reflexivity.
Defined.

(** X3.  [ctc_context_destroy] does not reset the pointers it frees: called a
    second time on the same context, it frees a buffer that is no longer
    allocated, which is undefined. *)
Theorem destroy_twice_undefined (context : ctc_context_t) (s : State) :
  NoDup (buffers context) →
  (∀ p, p ∈ buffers context → is_Some (heap s !! p)) →
  (∀ c, activations_copy context = Some c → is_Some (objs s !! c)) →
  buffers context ≠ [] →
  ∃ s', ctc_context_destroy context s = Next () s' ∧
        ctc_context_destroy context s' = Undefined.
Proof.
  intros Hnd Hlive Hcopy Hne.
  exists (destroyed context s). split; [by apply ctc_context_destroy_ok|].
  assert (Hgone : ∀ p s1, heap s1 !! p = None → free p s1 = Undefined).
  { intros p s1 Hp. unfold free. by rewrite Hp. }
  assert (Hb : ∀ p, p ∈ buffers context → heap (destroyed context s) !! p = None).
  { intros p Hp. rewrite lookup_heap_destroyed. by case_decide. }
  unfold ctc_context_destroy.
  destruct (workspace context) as [w|] eqn:Hw.
  { unfold bind at 1. cbn [free_if_set].
    rewrite Hgone; [done|]. apply Hb, buffers_elem. auto. }
  unfold bind at 1. cbn [free_if_set ret].
  destruct (input_lengths context) as [il|] eqn:Hil.
  { unfold bind at 1. cbn [free_if_set].
    rewrite Hgone; [done|]. apply Hb, buffers_elem. auto. }
  unfold bind at 1. cbn [free_if_set ret].
  destruct (flat_labels context) as [fl|] eqn:Hfl.
  { unfold bind at 1. cbn [free_if_set].
    rewrite Hgone; [done|]. apply Hb, buffers_elem. auto. }
  unfold bind at 1. cbn [free_if_set ret].
  destruct (label_lengths context) as [ll|] eqn:Hll.
  { unfold bind at 1. cbn [free_if_set].
    rewrite Hgone; [done|]. apply Hb, buffers_elem. auto. }
  exfalso. apply Hne. unfold buffers. by rewrite Hw, Hil, Hfl, Hll.
Qed.

Lemma destroy_twice_undefined_witness :
  ∃ s', ctc_context_destroy owning_context owning_state = Next () s' ∧
        ctc_context_destroy owning_context s' = Undefined.
Proof.
  apply (destroy_twice_undefined owning_context owning_state).
  - apply (bool_decide_unpack _). vm_compute. exact I.
  - intros p Hp. apply buffers_elem in Hp.
    destruct Hp as [Hp|[Hp|[Hp|Hp]]]; try discriminate Hp;
      injection Hp as <-; eexists; reflexivity.
  - intros c Hc. injection Hc as <-. eexists; reflexivity.
  - discriminate.
Defined.

(** ** [ctc_context_init] followed by [ctc_context_destroy] *)

(** X4.  Whatever the context held (the bytes of a fresh block), after
    [ctc_context_init] it owns nothing, and [ctc_context_destroy] on it
    returns without freeing or releasing anything; without the
    initialisation, a context whose workspace pointer is not a live block
    makes [ctc_context_destroy] undefined. *)
Theorem destroy_after_init (context : ctc_context_t) (s : State) :
  buffers (ctc_context_init context) = [] ∧
  activations_copy (ctc_context_init context) = None ∧
  ctc_context_destroy (ctc_context_init context) s = Next () s ∧
  (∀ p, workspace context = Some p → heap s !! p = None →
        ctc_context_destroy context s = Undefined).
Proof.
  split; [done|]. split; [done|]. split; [done|].
  intros p Hw Hp. unfold ctc_context_destroy, bind at 1. rewrite Hw. cbn.
  unfold free. by rewrite Hp.
Qed.

Lemma destroy_after_init_witness :
  ctc_context_destroy (ctc_context_init leftover_context) sample_state
    = Next () sample_state ∧
  ctc_context_destroy leftover_context sample_state = Undefined.
Proof.
  destruct (destroy_after_init leftover_context sample_state) as (_ & _ & H & Hu).
  split; [exact H|]. exact (Hu 99%nat eq_refl eq_refl).
Defined.

(** ** What [create_flat_labels] writes *)

Lemma row_labels_nonneg row : Forall (λ v, 0 ≤ v) (row_labels row).
Proof.
  unfold row_labels. apply Forall_forall. intros v Hv.
  apply list_elem_of_In, List.filter_In in Hv as [_ Hv].
  unfold is_padding in Hv. apply negb_true_iff, Z.ltb_ge in Hv. done.
Qed.

Lemma spec_flat_labels_nonneg m : Forall (λ v, 0 ≤ v) (spec_flat_labels m).
Proof.
  unfold spec_flat_labels. induction m as [|row m IH]; [constructor|].
  simpl. apply Forall_app. split; [apply row_labels_nonneg|exact IH].
Qed.

Lemma spec_label_lengths_sum m :
  foldr Z.add 0 (spec_label_lengths m) = Z.of_nat (length (spec_flat_labels m)).
Proof.
  unfold spec_label_lengths, spec_flat_labels.
  induction m as [|row m IH]; [done|].
  rewrite !fmap_cons. cbn [foldr concat]. rewrite IH, length_app. lia.
Qed.

Lemma matrix_rows_row_length R C elems row :
  row ∈ matrix_rows R C elems → (length row ≤ C)%nat.
Proof.
  unfold matrix_rows. intros (r & -> & _)%list_elem_of_fmap.
  rewrite length_take. lia.
Qed.

Lemma row_labels_le row : (length (row_labels row) ≤ length row)%nat.
Proof.
  induction row as [|v row IH]; [done|].
  rewrite row_labels_cons. destruct (0 <=? v); simpl; lia.
Qed.

Lemma spec_label_lengths_bounds R C elems :
  Forall (λ n, 0 ≤ n ≤ Z.of_nat C) (spec_label_lengths (matrix_rows R C elems)).
Proof.
  unfold spec_label_lengths. apply Forall_fmap, Forall_forall. intros row Hrow.
  cbn. pose proof (row_labels_le row).
  pose proof (matrix_rows_row_length _ _ _ _ Hrow). lia.
Qed.

Lemma spec_flat_labels_length R C elems :
  (length (spec_flat_labels (matrix_rows R C elems)) ≤ R * C)%nat.
Proof.
  pose proof (spec_label_lengths_sum (matrix_rows R C elems)) as Hsum.
  pose proof (spec_label_lengths_bounds R C elems) as Hb.
  pose proof (spec_label_lengths_length (matrix_rows R C elems)) as Hl.
  rewrite matrix_rows_length in Hl.
  revert Hsum Hb Hl. generalize (spec_label_lengths (matrix_rows R C elems)).
  generalize (length (spec_flat_labels (matrix_rows R C elems))).
  intros n lens. revert n R. induction lens as [|x lens IH]; intros n R Hsum Hb Hl.
  - simpl in *. lia.
  - simpl in *. apply Forall_cons in Hb as [Hx Hb].
    destruct R as [|R]; [discriminate|]. injection Hl as Hl.
    specialize (IH (Z.to_nat (foldr Z.add 0 lens)) R).
    assert (0 ≤ foldr Z.add 0 lens).
    { clear -Hb. induction lens as [|y lens IH]; simpl; [lia|].
      apply Forall_cons in Hb as [? ?]. specialize (IH ltac:(done)). lia. }
    specialize (IH ltac:(lia) Hb Hl). lia.
Qed.

(** X5.  The two buffers [create_flat_labels] fills agree with each other and
    stay within bounds: every label written to the flat buffer is
    non-negative, the lengths buffer has one entry per row, each between 0
    and the number of columns, the lengths add up to the number of labels
    written, and that number is at most rows * cols, the capacity of the
    flat buffer.  The arrays, the output handles and the error indicator
    are left as they were, and so is every other block. *)
Theorem flat_labels_consistent (env : Env) (lm : nat) (l : PyArrayObject)
    (fl0 ll0 : option nat) (s : State) :
  objs s !! lm = Some l →
  labels_ok l = true →
  alloc_ok env SFlatLabels = true →
  alloc_ok env SLabelLengths = true →
  ∃ fl ll s' flat lens rows cols,
    dims l = [rows; cols] ∧
    create_flat_labels env lm fl0 ll0 s = Next (Some fl, Some ll) s' ∧
    b_cells <$> heap s' !! fl =
      Some ((Some <$> flat) ++ replicate (Z.to_nat (rows * cols) - length flat) None) ∧
    b_cells <$> heap s' !! ll = Some (Some <$> lens) ∧
    Forall (λ v, 0 ≤ v) flat ∧
    Z.of_nat (length lens) = rows ∧
    Forall (λ n, 0 ≤ n ≤ cols) lens ∧
    foldr Z.add 0 lens = Z.of_nat (length flat) ∧
    Z.of_nat (length flat) ≤ rows * cols ∧
    (∀ q, q ≠ fl → q ≠ ll → heap s' !! q = heap s !! q) ∧
    objs s' = objs s ∧ err s' = err s ∧
    out_costs s' = out_costs s ∧ out_gradients s' = out_gradients s.
Proof.
  intros Ho Hlok Hfl Hll.
  destruct (labels_ok_dims _ Hlok) as (R & C & Hd & Hlen & HR & HC & HRC & Hrows).
  pose proof (create_flat_labels_ok env lm l R C fl0 ll0 s Ho Hd Hlen HR HC HRC Hfl Hll)
    as Heq.
  cbv zeta in Heq.
  set (m := matrix_rows R C (items l)) in *.
  set (fl := fresh_key (heap s)) in *.
  set (b0 := mk_block SFlatLabels (4 * Z.of_nat (R * C)) (replicate (R * C) None)) in *.
  set (ll := fresh_key (<[fl := b0]> (heap s))) in *.
  pose proof (fresh_key_lookup (<[fl := b0]> (heap s))) as Hll0. fold ll in Hll0.
  apply lookup_insert_None in Hll0 as [Hll0 Hne].
  eexists fl, ll, _, (spec_flat_labels m), (spec_label_lengths m),
    (Z.of_nat R), (Z.of_nat C).
  split; [done|]. split; [exact Heq|].
  split; [|split; [|split; [|split; [|split; [|split; [|split; [|split]]]]]]].
  - cbn. rewrite lookup_insert_ne, lookup_insert_eq by done. cbn.
    do 3 f_equal. lia.
  - cbn. rewrite lookup_insert_eq. done.
  - apply spec_flat_labels_nonneg.
  - rewrite spec_label_lengths_length. unfold m. by rewrite matrix_rows_length.
  - apply spec_label_lengths_bounds.
  - apply spec_label_lengths_sum.
  - pose proof (spec_flat_labels_length R C (items l)). fold m in H. lia.
  - intros q Hq1 Hq2. cbn. by rewrite !lookup_insert_ne.
  - done.
Qed.

Lemma flat_labels_consistent_witness :
  ∃ fl ll s' flat lens,
    create_flat_labels (sample_env [] CTC_STATUS_SUCCESS CTC_STATUS_SUCCESS)
      1 None None sample_state = Next (Some fl, Some ll) s' ∧
    b_cells <$> heap s' !! ll = Some (Some <$> lens) ∧
    Forall (λ v, 0 ≤ v) flat ∧
    Z.of_nat (length lens) = 2 ∧
    Forall (λ n, 0 ≤ n ≤ 4) lens ∧
    foldr Z.add 0 lens = Z.of_nat (length flat).
Proof.
  destruct (flat_labels_consistent
              (sample_env [] CTC_STATUS_SUCCESS CTC_STATUS_SUCCESS)
              1 sample_labels None None sample_state
              eq_refl eq_refl eq_refl eq_refl)
    as (fl & ll & s' & flat & lens & rows & cols & Hd & H1 & _ & H2 & H3 & H4 & H5 & H6 & _).
  injection Hd as <- <-.
  exists fl, ll, s', flat, lens. repeat split; assumption.
Defined.

(** * Further properties of the entry point *)

(** ** The ways a call ends *)

(** A well-formed call ends in one of three ways: on an allocation that
    fails, on a status of the library that is not success, or with 0. *)
Lemma call_outcome env s0 in_act in_lab in_il a :
  call_ok in_act in_lab in_il s0 = true →
  objs s0 !! in_act = Some a →
  alloc_ok env SContext = true →
  (∃ site s', run_ctc_cost_cpu env in_act in_lab in_il s0 = Some (1, s') ∧
              site ≠ SContext ∧ alloc_ok env site = false ∧
              OomExit s0 a site s')
  ∨ (∃ msg status e s',
       run_ctc_cost_cpu env in_act in_lab in_il s0 = Some (1, s') ∧
       status ≠ CTC_STATUS_SUCCESS ∧
       LibraryExit env s0 a msg status e s')
  ∨ (∃ s', run_ctc_cost_cpu env in_act in_lab in_il s0 = Some (0, s') ∧
           Succeeded s0 a s').
Proof.
  intros Hcall Ha Hctx.
  destruct (call_ok_elim _ _ _ _ Hcall) as (a' & l & i & Ha' & Hl & Hi & Hda & Hlok & Hiok & Hh).
  assert (a' = a) as -> by congruence.
  assert (Htail : allocations_ok env a s0 8 = true →
    (∃ site s', run_ctc_cost_cpu env in_act in_lab in_il s0 = Some (1, s') ∧
                site ≠ SContext ∧ alloc_ok env site = false ∧
                OomExit s0 a site s')
    ∨ (∃ msg status e s',
         run_ctc_cost_cpu env in_act in_lab in_il s0 = Some (1, s') ∧
         status ≠ CTC_STATUS_SUCCESS ∧
         LibraryExit env s0 a msg status e s')
    ∨ (∃ s', run_ctc_cost_cpu env in_act in_lab in_il s0 = Some (0, s') ∧
             Succeeded s0 a s')).
  { intros Hok.
    destruct (tail_of_call env s0 in_act in_lab in_il a l i Ha Hl Hi Hh Hda Hiok Hlok Hok)
      as (h & args & _ & _ & _ & Hqf & Hwf & Hwk).
    destruct (decide ((get_workspace_size env h args).1 = CTC_STATUS_SUCCESS))
      as [Hst|Hst].
    - destruct (alloc_ok env SWorkspace) eqn:Hws.
      + destruct (Hwk Hst eq_refl) as (h' & largs & ws & _ & _ & Hcf & Hcs).
        destruct (decide (compute_ctc_loss env h' largs = CTC_STATUS_SUCCESS))
          as [Hst2|Hst2].
        * destruct (Hcs Hst2) as (s' & Hrun & _ & Hexit & _). right. right. eauto.
        * destruct (Hcf Hst2) as (s' & Hrun & _ & Hexit & _).
          right. left. eauto 10.
      + destruct (Hwf Hst eq_refl) as (s' & Hrun & Hexit & _).
        left. exists SWorkspace, s'. done.
    - destruct (Hqf Hst) as (s' & Hrun & Hexit). right. left. eauto 10. }
  assert (H2 : allocations_ok env a s0 2 = true).
  { apply allocations_ok_intro. intros site Hlt _.
    destruct site; simpl in Hlt; try lia. done. }
  destruct (first_failure env a s0 2 H2) as [Hall|(site & Hge & Hok & Hat & Hfail)].
  { apply Htail. apply (allocations_ok_mono _ _ _ 8 10); [lia|done]. }
  destruct (decide (site = SWorkspace)) as [->|Hws].
  { apply Htail. apply (allocations_ok_mono _ _ _ 8 9); [lia|done]. }
  assert (site ≠ SContext) by (intros ->; simpl in Hge; lia).
  destruct (oom_exit_before_query env s0 in_act in_lab in_il a site)
    as (s' & Hrun & Hexit); try done.
  left. exists site, s'. done.
Qed.

(** X6.  The [malloc] of the context (line 118) is not checked: when it fails,
    [ctc_context_init] writes through the NULL pointer, whatever the
    arguments of the call are. *)
Theorem context_allocation_unchecked (env : Env) (in_act in_lab in_il : nat)
    (s : State) :
  alloc_ok env SContext = false →
  ctc_cost_cpu env in_act in_lab in_il s = Undefined ∧
  run_ctc_cost_cpu env in_act in_lab in_il s = None.
Proof.
  intros Hfail.
  assert (ctc_cost_cpu env in_act in_lab in_il s = Undefined) as E.
  { rewrite ctc_cost_cpu_eq. by rewrite malloc_fail. }
  split; [exact E|]. unfold run_ctc_cost_cpu. by rewrite E.
Qed.

Lemma context_allocation_unchecked_witness :
  run_ctc_cost_cpu (sample_env [SContext] CTC_STATUS_SUCCESS CTC_STATUS_SUCCESS)
    0 1 2 sample_state = None.
Proof.
  exact (proj2 (context_allocation_unchecked
                  (sample_env [SContext] CTC_STATUS_SUCCESS CTC_STATUS_SUCCESS)
                  0 1 2 sample_state eq_refl)).
Defined.

(** X7.  The return code and the error indicator go together: a well-formed
    call returns 0 or 1; when it returns 0 the error indicator is as it was
    at the call; when it returns 1 an exception (a memory error or a
    runtime error) is set, and setting it is the last thing the call
    does. *)
Theorem return_code_and_error (env : Env) (s0 : State)
    (in_act in_lab in_il : nat) :
  call_ok in_act in_lab in_il s0 = true →
  alloc_ok env SContext = true →
  ∃ rc s' evs,
    run_ctc_cost_cpu env in_act in_lab in_il s0 = Some (rc, s') ∧
    trace s' = trace s0 ++ evs ∧
    ((rc = 0 ∧ err s' = err s0)
     ∨ (rc = 1 ∧ ∃ exc msg pre,
          err s' = Some (exc, msg) ∧ evs = pre ++ [EvErr exc msg])).
Proof.
  intros Hcall Hctx.
  destruct (call_ok_elim _ _ _ _ Hcall) as (a & _ & _ & Ha & _).
  destruct (call_outcome env s0 in_act in_lab in_il a Hcall Ha Hctx)
    as [(site & s' & Hrun & _ & _ & [Herr (pre & fail & rel & Ht & _)])|
        [(msg & status & e & s' & Hrun & _ & [Herr (pre & Ht & _) _ _])|
         (s' & Hrun & [_ _ Herr _ _ (evs & Ht & _)])]].
  - exists 1, s', (pre ++ [fail] ++ rel ++ [EvErr PyExc_MemoryError (oom_message site)]).
    split; [done|]. split; [done|]. right. split; [done|].
    exists PyExc_MemoryError, (oom_message site), (pre ++ [fail] ++ rel).
    split; [done|]. by rewrite <- !app_assoc.
  - exists 1, s', (pre ++ [e; EvErr PyExc_RuntimeError (library_error env msg status)]).
    split; [done|]. split; [done|]. right. split; [done|].
    exists PyExc_RuntimeError, (library_error env msg status), (pre ++ [e]).
    split; [done|]. by rewrite <- !app_assoc.
  - exists 0, s', evs. split; [done|]. split; [done|]. by left.
Qed.

Lemma return_code_and_error_witness :
  ∃ rc s' evs,
    run_ctc_cost_cpu (sample_env [SCosts] CTC_STATUS_SUCCESS CTC_STATUS_SUCCESS)
      0 1 2 sample_state = Some (rc, s') ∧
    trace s' = evs ∧
    ((rc = 0 ∧ err s' = None)
     ∨ (rc = 1 ∧ ∃ exc msg pre,
          err s' = Some (exc, msg) ∧ evs = pre ++ [EvErr exc msg])).
Proof.
  exact (return_code_and_error
           (sample_env [SCosts] CTC_STATUS_SUCCESS CTC_STATUS_SUCCESS)
           sample_state 0 1 2 eq_refl eq_refl).
Defined.

(** X8.  A call that returns 0 has given back everything it allocated: the heap
    is the heap of the call again (the buffers, the workspace and the
    context structure are freed), the copy of the activations, if one was
    made, is deallocated, the error indicator is untouched, and the two
    output handles point to live arrays of the required shapes. *)
Theorem success_restores_heap (env : Env) (s0 s' : State)
    (in_act in_lab in_il : nat) (a : PyArrayObject) :
  call_ok in_act in_lab in_il s0 = true →
  objs s0 !! in_act = Some a →
  run_ctc_cost_cpu env in_act in_lab in_il s0 = Some (0, s') →
  heap s' = heap s0 ∧
  (c_contiguous a = false → objs s' !! fresh_key (objs s0) = None) ∧
  err s' = err s0 ∧
  (∃ c oc, out_costs s' = Some c ∧ objs s' !! c = Some oc ∧
           dims oc = [minibatch_of a]) ∧
  (∃ g og, out_gradients s' = Some g ∧ objs s' !! g = Some og ∧
           dims og = dims a).
Proof.
  intros Hcall Ha Hrun.
  destruct (alloc_ok env SContext) eqn:Hctx; last first.
  { unfold run_ctc_cost_cpu in Hrun.
    rewrite ctc_cost_cpu_eq, malloc_fail in Hrun by done. discriminate. }
  destruct (call_outcome env s0 in_act in_lab in_il a Hcall Ha Hctx)
    as [(site & s1 & Hrun1 & _)|[(msg & status & e & s1 & Hrun1 & _)|
        (s1 & Hrun1 & [Hheap Hcopy Herr Hc Hg _])]]; try congruence.
  assert (s1 = s') as -> by congruence.
  split; [done|]. split; [done|]. split; [done|]. split.
  - unfold costs_reusable in Hc.
    destruct (out_costs s') as [c|]; [|done].
    destruct (objs s' !! c) as [oc|] eqn:Hoc; [|done].
    exists c, oc. split; [done|]. split; [done|]. by apply bool_decide_eq_true_1 in Hc.
  - destruct (gradients_reusable_handle _ _ Hg) as (g & og & ? & ? & _ & ?).
    exists g, og. done.
Qed.

Lemma success_restores_heap_witness :
  ∃ s',
    run_ctc_cost_cpu (sample_env [] CTC_STATUS_SUCCESS CTC_STATUS_SUCCESS)
      0 1 2 sample_state = Some (0, s') ∧
    heap s' = heap sample_state ∧ err s' = None.
Proof.
  assert (∃ s', run_ctc_cost_cpu (sample_env [] CTC_STATUS_SUCCESS CTC_STATUS_SUCCESS)
                  0 1 2 sample_state = Some (0, s')) as [s' Hrun].
  { eexists. vm_compute. reflexivity. }
  destruct (success_restores_heap
              (sample_env [] CTC_STATUS_SUCCESS CTC_STATUS_SUCCESS)
              sample_state s' 0 1 2 sample_activations eq_refl eq_refl Hrun)
    as (H1 & _ & H2 & _).
  exists s'. repeat split; assumption.
Defined.

(** X9.  An allocation that fails from the labels on is followed by the
    clean-up: when the flat labels, the label lengths, the costs array or
    the gradients array is the first allocation to fail, the call returns 1
    with the memory error of that site, and of what it allocated only the
    context structure is left: every buffer is freed and the copy of the
    activations, if one was made, is deallocated. *)
Theorem allocation_failure_cleans_up (env : Env) (s0 : State)
    (in_act in_lab in_il : nat) (a : PyArrayObject) (site : Site) :
  call_ok in_act in_lab in_il s0 = true →
  objs s0 !! in_act = Some a →
  site ∈ [SFlatLabels; SLabelLengths; SCosts; SGradients] →
  allocations_ok env a s0 (site_stage site) = true →
  attempted a s0 site = true →
  alloc_ok env site = false →
  ∃ s',
    run_ctc_cost_cpu env in_act in_lab in_il s0 = Some (1, s') ∧
    err s' = Some (PyExc_MemoryError, oom_message site) ∧
    heap s' = <[fresh_key (heap s0) := ctx_block]> (heap s0) ∧
    heap s0 !! fresh_key (heap s0) = None ∧
    (c_contiguous a = false → objs s' !! fresh_key (objs s0) = None).
Proof.
  intros Hcall Ha Hsite Hok Hat Hfail.
  destruct (call_ok_elim _ _ _ _ Hcall) as (a' & l & i & Ha' & Hl & Hi & Hda & Hlok & Hiok & Hh).
  assert (a' = a) as -> by congruence.
  assert (∃ s', run_ctc_cost_cpu env in_act in_lab in_il s0 = Some (1, s') ∧
                OomExit s0 a site s' ∧ cleaned_up s0 a s')
    as (s' & Hrun & [Herr _] & Hheap & Hcopy).
  { rewrite !elem_of_cons, elem_of_nil in Hsite.
    destruct Hsite as [->|[->|[->|[->|[]]]]].
    - by apply (exit_flat_labels_failed env s0 in_act in_lab in_il a l i).
    - by apply (exit_label_lengths_failed env s0 in_act in_lab in_il a l i).
    - apply (exit_costs_failed env s0 in_act in_lab in_il a l i); try done.
      simpl in Hat. by apply negb_true_iff in Hat.
    - apply (exit_gradients_failed env s0 in_act in_lab in_il a l i); try done.
      simpl in Hat. by apply negb_true_iff in Hat. }
  exists s'. split; [done|]. split; [done|]. split; [done|].
  split; [apply fresh_key_lookup|done].
Qed.

Lemma allocation_failure_cleans_up_witness :
  ∃ s',
    run_ctc_cost_cpu (sample_env [SLabelLengths] CTC_STATUS_SUCCESS CTC_STATUS_SUCCESS)
      0 1 2 sample_state = Some (1, s') ∧
    err s' = Some (PyExc_MemoryError,
                   "Could not allocate storage for labels and their lengths") ∧
    heap s' = <[0%nat := ctx_block]> ∅ ∧
    objs s' !! 3%nat = None.
Proof.
  destruct (allocation_failure_cleans_up
              (sample_env [SLabelLengths] CTC_STATUS_SUCCESS CTC_STATUS_SUCCESS)
              sample_state 0 1 2 sample_activations SLabelLengths
              eq_refl eq_refl) as (s' & H1 & H2 & H3 & _ & H4).
  - rewrite !elem_of_cons. right. left. reflexivity.
  - reflexivity.
  - reflexivity.
  - reflexivity.
  - exists s'. split; [exact H1|]. split; [exact H2|]. split; [exact H3|].
    exact (H4 eq_refl).
Defined.

(** ** The order of the calls into the library *)

Lemma filter_library_answer_none evs :
  Forall (λ e, library_answer e = None) evs →
  filter (λ e, is_Some (library_answer e)) evs = [].
Proof.
  induction 1 as [|e evs He _ IH]; [done|].
  rewrite filter_cons. destruct (decide _) as [[x Hx]|]; [congruence|done].
Qed.

(** X10.  In a well-formed call the library is called at most twice and in this
    order: the size query, once, and then the computation, once.  The
    computation is called only after the size query answered success and
    the workspace was allocated, and the call returns 0 exactly when the
    computation answered success. *)
Theorem library_call_protocol (env : Env) (s0 : State)
    (in_act in_lab in_il : nat) :
  call_ok in_act in_lab in_il s0 = true →
  alloc_ok env SContext = true →
  ∃ rc s' evs,
    run_ctc_cost_cpu env in_act in_lab in_il s0 = Some (rc, s') ∧
    trace s' = trace s0 ++ evs ∧
    ((filter (λ e, is_Some (library_answer e)) evs = [] ∧ rc = 1)
     ∨ (∃ args status,
          filter (λ e, is_Some (library_answer e)) evs =
            [EvGetWorkspaceSize args status] ∧
          rc = 1 ∧
          (status = CTC_STATUS_SUCCESS → alloc_ok env SWorkspace = false))
     ∨ (∃ args largs status,
          filter (λ e, is_Some (library_answer e)) evs =
            [EvGetWorkspaceSize args CTC_STATUS_SUCCESS;
             EvComputeCtcLoss largs status] ∧
          alloc_ok env SWorkspace = true ∧
          ((status = CTC_STATUS_SUCCESS ∧ rc = 0)
           ∨ (status ≠ CTC_STATUS_SUCCESS ∧ rc = 1)))).
Proof.
  intros Hcall Hctx.
  destruct (call_ok_elim _ _ _ _ Hcall) as (a & l & i & Ha & Hl & Hi & Hda & Hlok & Hiok & Hh).
  assert (Htail : allocations_ok env a s0 8 = true →
    ∃ rc s' evs,
      run_ctc_cost_cpu env in_act in_lab in_il s0 = Some (rc, s') ∧
      trace s' = trace s0 ++ evs ∧
      ((filter (λ e, is_Some (library_answer e)) evs = [] ∧ rc = 1)
       ∨ (∃ args status,
            filter (λ e, is_Some (library_answer e)) evs =
              [EvGetWorkspaceSize args status] ∧
            rc = 1 ∧
            (status = CTC_STATUS_SUCCESS → alloc_ok env SWorkspace = false))
       ∨ (∃ args largs status,
            filter (λ e, is_Some (library_answer e)) evs =
              [EvGetWorkspaceSize args CTC_STATUS_SUCCESS;
               EvComputeCtcLoss largs status] ∧
            alloc_ok env SWorkspace = true ∧
            ((status = CTC_STATUS_SUCCESS ∧ rc = 0)
             ∨ (status ≠ CTC_STATUS_SUCCESS ∧ rc = 1))))).
  { intros Hok.
    destruct (tail_trace env s0 in_act in_lab in_il a l i Ha Hl Hi Hh Hda Hiok Hlok Hok)
      as (rc & s' & pre & h & args & post & Hrun & Ht & Hpre & _ & Hafter).
    set (status := (get_workspace_size env h args).1) in *.
    exists rc, s', (pre ++ EvGetWorkspaceSize args status :: post).
    split; [done|]. split; [done|].
    rewrite filter_app, (filter_library_answer_none pre Hpre), app_nil_l.
    rewrite filter_cons_True by (simpl; eauto).
    destruct Hafter as [(Hst & -> & _ & ->)|[(Hst & Hws & -> & Hp)|
      (Hst & Hws & h' & largs & size & ws & post' & -> & Hp & _ & Hfail & Hsucc)]].
    - right. left. exists args, status. split; [done|]. split; [done|]. done.
    - right. left. exists args, status.
      rewrite (filter_library_answer_none post Hp). done.
    - right. right. exists args, largs, (compute_ctc_loss env h' largs).
      rewrite filter_cons_False by (simpl; intros [? ?]; done).
      rewrite filter_cons_True by (simpl; eauto).
      rewrite (filter_library_answer_none post' Hp), Hst.
      split; [done|]. split; [done|].
      destruct (decide (compute_ctc_loss env h' largs = CTC_STATUS_SUCCESS)) as [E|E].
      + left. split; [done|]. by apply Hsucc.
      + right. split; [done|]. by apply Hfail. }
  assert (H2 : allocations_ok env a s0 2 = true).
  { apply allocations_ok_intro. intros site Hlt _.
    destruct site; simpl in Hlt; try lia. done. }
  destruct (first_failure env a s0 2 H2) as [Hall|(site & Hge & Hok & Hat & Hfail)].
  { apply Htail. apply (allocations_ok_mono _ _ _ 8 10); [lia|done]. }
  destruct (decide (site = SWorkspace)) as [->|Hws].
  { apply Htail. apply (allocations_ok_mono _ _ _ 8 9); [lia|done]. }
  assert (Hearly : (site_stage site < 8)%nat) by (destruct site; simpl; try lia; done).
  destruct (oom_exit_before_query env s0 in_act in_lab in_il a site)
    as (s' & Hrun & [_ (pre & fail & rel & Ht & Hf & Hp & _ & Hr)]); try done.
  { intros ->. simpl in Hge. lia. }
  exists 1, s', (pre ++ [fail] ++ rel ++ [EvErr PyExc_MemoryError (oom_message site)]).
  split; [done|]. split; [done|]. left. split; [|done].
  apply filter_library_answer_none.
  rewrite !Forall_app. repeat split.
  - apply (library_answer_early (site_stage site)); [lia|done].
  - repeat constructor. by apply (library_answer_failed_attempt site).
  - by apply library_answer_release.
  - by repeat constructor.
Qed.

Lemma library_call_protocol_witness :
  ∃ rc s' evs,
    run_ctc_cost_cpu (sample_env [] CTC_STATUS_SUCCESS CTC_STATUS_UNKNOWN_ERROR)
      0 1 2 sample_state = Some (rc, s') ∧
    trace s' = evs ∧
    (length (filter (λ e, is_Some (library_answer e)) evs) ≤ 2)%nat.
Proof.
  destruct (library_call_protocol
              (sample_env [] CTC_STATUS_SUCCESS CTC_STATUS_UNKNOWN_ERROR)
              sample_state 0 1 2 eq_refl eq_refl)
    as (rc & s' & evs & H1 & H2 & H3).
  exists rc, s', evs. split; [exact H1|]. split; [exact H2|].
  destruct H3 as [(-> & _)|[(? & ? & -> & _)|(? & ? & ? & -> & _)]]; simpl; lia.
Defined.

(** ** From the call to each block, with the contents of the buffers *)

Lemma inputs_kept_released a s0 s o :
  inputs_kept a s0 s →
  (∀ y, o = Some y →
        (out_costs s0 = Some y ∧ costs_reusable (minibatch_of a) s0 = false)
        ∨ (out_gradients s0 = Some y ∧ gradients_reusable a s0 = false)) →
  ∀ y w, objs s0 !! y = Some w →
         (out_costs s0 = Some y → costs_reusable (minibatch_of a) s0 = true) →
         (out_gradients s0 = Some y → gradients_reusable a s0 = true) →
         objs (released o s) !! y = Some w.
Proof.
  intros Hk Ho y w Hy Hc Hg.
  unfold released. destruct o as [old|]; [|by apply Hk].
  destruct (objs s !! old) as [oo|]; [|by apply Hk]. cbn.
  rewrite lookup_drop_ref_ne; [by apply Hk|].
  intros ->. destruct (Ho old eq_refl) as [[E1 E2]|[E1 E2]].
  - rewrite (Hc E1) in E2. discriminate.
  - rewrite (Hg E1) in E2. discriminate.
Qed.

Lemma inputs_kept_released_new a s0 s o z v :
  inputs_kept a s0 s →
  (∀ y, o = Some y →
        (out_costs s0 = Some y ∧ costs_reusable (minibatch_of a) s0 = false)
        ∨ (out_gradients s0 = Some y ∧ gradients_reusable a s0 = false)) →
  z = fresh_key (objs (released o s)) →
  ∀ y w, objs s0 !! y = Some w →
         (out_costs s0 = Some y → costs_reusable (minibatch_of a) s0 = true) →
         (out_gradients s0 = Some y → gradients_reusable a s0 = true) →
         (<[z := v]> (objs (released o s))) !! y = Some w.
Proof.
  intros Hk Ho -> y w Hy Hc Hg.
  pose proof (inputs_kept_released a s0 s o Hk Ho y w Hy Hc Hg) as Hrel.
  rewrite lookup_insert_ne; [done|].
  intros E. pose proof (fresh_key_lookup (objs (released o s))) as F.
  rewrite E in F. congruence.
Qed.

Lemma same_array_refl v : same_array v v.
Proof. by repeat split. Qed.

Lemma same_array_trans v1 v2 v3 :
  same_array v1 v2 → same_array v2 v3 → same_array v1 v3.
Proof.
  intros (? & ? & ? & ? & ?) (? & ? & ? & ? & ?). repeat split; congruence.
Qed.

Lemma write_items_same ob new (m : gmap nat PyArrayObject) y v :
  m !! y = Some v →
  ∃ v', write_items ob new m !! y = Some v' ∧ same_array v v'.
Proof.
  intros Hy. destruct (decide (y = ob)) as [->|Hne].
  - rewrite (lookup_write_items _ _ _ _ Hy). eexists. split; [done|].
    repeat split; cbn. apply overwrite_length.
  - rewrite lookup_write_items_ne by done. exists v. split; [done|].
    apply same_array_refl.
Qed.

Lemma lookup_written env args s y v :
  objs s !! y = Some v →
  ∃ v', objs (written env args s) !! y = Some v' ∧ same_array v v'.
Proof.
  intros Hy. unfold written. cbn.
  destruct (write_items_same (ls_costs args)
              (ctc_outputs env (heap s) (objs s) args).1 _ _ _ Hy)
    as (v1 & H1 & S1).
  destruct (write_items_same (ls_gradients args)
              (ctc_outputs env (heap s) (objs s) args).2 _ _ _ H1)
    as (v2 & H2 & S2).
  exists v2. split; [done|]. by apply (same_array_trans _ v1).
Qed.

Lemma inputs_arrays_kept a s0 s : inputs_kept a s0 s → arrays_kept a s0 s.
Proof.
  intros Hk y v Hy Hc Hg. exists v. split; [by apply Hk|].
  split; [apply same_array_refl|done].
Qed.

(** The computation changes, of the arrays of the caller, the elements of
    the output arrays only. *)
Lemma arrays_kept_written env args a s0 s :
  inputs_kept a s0 s → handles_apart s0 s →
  out_costs s = Some (ls_costs args) →
  out_gradients s = Some (ls_gradients args) →
  arrays_kept a s0 (written env args s).
Proof.
  intros Hk Hap Hc Hg y v Hy Hcy Hgy.
  destruct (lookup_written env args s y v (Hk y v Hy Hcy Hgy)) as (v' & Hv' & Hs).
  exists v'. split; [done|]. split; [done|].
  intros Hnc Hng. destruct (Hap y ltac:(eauto) Hnc Hng) as (H1 & H2).
  rewrite lookup_written_other in Hv' by congruence.
  rewrite (Hk y v Hy Hcy Hgy) in Hv'. congruence.
Qed.

Lemma allocations_ok_failed env a s k site :
  allocations_ok env a s k = true →
  (site_stage site < k)%nat → attempted a s site = true →
  alloc_ok env site = false → False.
Proof.
  intros Hok Hk Hat Hfail.
  pose proof (allocations_ok_site env a s k site Hok Hk Hat). congruence.
Qed.

Section Kept.

Variable env : Env.
Variable s0 : State.
Variables (in_act in_lab in_il : nat).
Variables (a l i : PyArrayObject).

Hypothesis Ha : objs s0 !! in_act = Some a.
Hypothesis Hl : objs s0 !! in_lab = Some l.
Hypothesis Hi : objs s0 !! in_il = Some i.
Hypothesis Hh : handles_ok in_act s0 = true.
Hypothesis Hda : activations_ok a = true.
Hypothesis Hiok : lengths_ok i = true.
Hypothesis Hlok : labels_ok l = true.

(** Up to line 150. *)
Lemma reach_labels_kept :
  allocations_ok env a s0 4 = true →
  ∃ copy act il s,
    ctc_cost_cpu env in_act in_lab in_il s0 =
      entry_from_labels env (fresh_key (heap s0)) in_act in_lab
        (context_at env copy (Some il) None None None) act s ∧
    Reached s0 in_act a (context_at env copy (Some il) None None None) 4 s ∧
    (c_contiguous a = true → copy = None ∧ act = in_act) ∧
    (c_contiguous a = false →
       copy = Some (fresh_key (objs s0)) ∧ act = fresh_key (objs s0)) ∧
    marshalled l i (context_at env copy (Some il) None None None) (heap s).
Proof.
  intros Hok.
  destruct (reach_input_lengths env s0 in_act in_lab in_il a Ha Hh
              (allocations_ok_mono _ _ _ 3 4 ltac:(lia) Hok))
    as (copy & act & s & Heq & [HI Ho Hc Hg] & Hcont).
  destruct (lengths_ok_dims _ Hiok) as (N & Hd & Hlen & HN).
  pose proof (allocations_ok_site env a s0 4 SInputLengths Hok
        ltac:(simpl; lia) eq_refl) as Hil.
  rewrite Heq. unfold entry_from_input_lengths.
  rewrite (bind_Next _ _ _ _ _
    (obtain_input_lengths_ok env in_il i N _ s (Ho _ _ Hi) Hd Hlen HN Hil)).
  cbv zeta. set (p := fresh_key (heap s)).
  exists copy, act, p. eexists. split; [reflexivity|].
  split; [|split; [exact (proj1 Hcont)|split; [exact (proj2 Hcont)|]]].
  - constructor; try done.
    apply (Inv_malloc _ _ _ _ (context_at env copy None None None None)
             (context_at env copy (Some p) None None None) 3 4);
      [exact HI|lia|simpl; lia|reflexivity|reflexivity].
  - split; [|split]; intros q Hq; try discriminate Hq.
    injection Hq as <-. cbn. rewrite lookup_insert_eq. cbn.
    by rewrite <- Hlen, firstn_all.
Qed.

(** Up to line 163. *)
Lemma reach_costs_kept :
  allocations_ok env a s0 6 = true →
  ∃ copy act il fl ll s,
    ctc_cost_cpu env in_act in_lab in_il s0 =
      entry_from_costs env (fresh_key (heap s0)) in_act
        (context_at env copy (Some il) (Some fl) (Some ll) None) act s ∧
    Reached s0 in_act a (context_at env copy (Some il) (Some fl) (Some ll) None) 6 s ∧
    (c_contiguous a = true → copy = None ∧ act = in_act) ∧
    (c_contiguous a = false →
       copy = Some (fresh_key (objs s0)) ∧ act = fresh_key (objs s0)) ∧
    marshalled l i (context_at env copy (Some il) (Some fl) (Some ll) None) (heap s).
Proof.
  intros Hok.
  destruct (reach_labels_kept (allocations_ok_mono _ _ _ 4 6 ltac:(lia) Hok))
    as (copy & act & il & s & Heq & [HI Ho Hc Hg] & Hc1 & Hc2 & (Hmi & _ & _)).
  destruct (labels_ok_dims _ Hlok) as (R & C & Hd & Hlen & HR & HC & HRC & Hrows).
  pose proof (allocations_ok_site env a s0 6 SFlatLabels Hok
        ltac:(simpl; lia) eq_refl) as Hfl.
  pose proof (allocations_ok_site env a s0 6 SLabelLengths Hok
        ltac:(simpl; lia) eq_refl) as Hll.
  rewrite Heq. unfold entry_from_labels.
  rewrite (bind_Next _ _ _ _ _
    (obtain_labels_ok env in_lab l R C _ s (Ho _ _ Hl) Hd Hlen HR HC HRC Hfl Hll)).
  cbv zeta. set (fl := fresh_key (heap s)).
  set (b0 := mk_block SFlatLabels _ (replicate _ _)).
  set (ll := fresh_key (<[fl := b0]> (heap s))).
  pose proof (fresh_key_lookup (heap s)) as Hfl0. fold fl in Hfl0.
  pose proof (fresh_key_lookup (<[fl := b0]> (heap s))) as Hfresh.
  fold ll in Hfresh. apply lookup_insert_None in Hfresh as [Hll0 Hne].
  set (m := matrix_rows R C (items l)).
  exists copy, act, il, fl, ll. eexists. split; [reflexivity|].
  split; [|split; [exact Hc1|split; [exact Hc2|]]].
  - constructor; try done.
    assert (HI1 : Inv s0 in_act a (fresh_key (heap s0))
                    (context_at env copy (Some il) (Some fl) None None) 5
                    (log (EvMalloc SFlatLabels (4 * Z.of_nat (R * C)) (Some fl))
                       (upd_heap <[fl := flat_block R C m]> s))).
    { apply (Inv_malloc _ _ _ _ (context_at env copy (Some il) None None None)
               (context_at env copy (Some il) (Some fl) None None) 4 5);
        [exact HI|lia|simpl; lia|cbn; apply Permutation_swap|reflexivity]. }
    apply (Inv_log _ _ _ _ _ _ _ (EvMalloc SLabelLengths (4 * Z.of_nat R) (Some ll)));
      [simpl; lia|done|].
    apply (Inv_mono _ _ _ _ _ 5%nat 6%nat); [lia|].
    refine (Inv_new_buffer _ _ _ _ (context_at env copy (Some il) (Some fl) None None)
              (context_at env copy (Some il) (Some fl) (Some ll) None) 5 _ ll
              (lengths_block R m) HI1 _ _ _).
    + cbn. by rewrite lookup_insert_ne.
    + cbn. change [il; fl; ll] with ([il; fl] ++ [ll]).
      symmetry. apply Permutation_cons_append.
    + reflexivity.
  - specialize (Hmi il eq_refl).
    assert (il ≠ fl) by (intros ->; by rewrite Hfl0 in Hmi).
    assert (il ≠ ll) by (intros ->; by rewrite Hll0 in Hmi).
    split; [|split]; intros q Hq; injection Hq as <-; cbn.
    + by rewrite !lookup_insert_ne.
    + rewrite lookup_insert_ne, lookup_insert_eq by done. cbn.
      by rewrite Hrows, Hlen.
    + rewrite lookup_insert_eq. cbn. by rewrite Hrows.
Qed.

(** Up to line 190. *)
Lemma reach_gradients_kept :
  allocations_ok env a s0 7 = true →
  ∃ copy act il fl ll costs s,
    ctc_cost_cpu env in_act in_lab in_il s0 =
      entry_from_gradients env (fresh_key (heap s0)) in_act
        (context_at env copy (Some il) (Some fl) (Some ll) None) act costs
        (alphabet_of a) (minibatch_of a) s ∧
    Inv s0 in_act a (fresh_key (heap s0))
      (context_at env copy (Some il) (Some fl) (Some ll) None) 7 s ∧
    out_costs s = Some costs ∧
    costs_reusable (minibatch_of a) s = true ∧
    gradients_reusable a s = gradients_reusable a s0 ∧
    (c_contiguous a = true → copy = None ∧ act = in_act) ∧
    (c_contiguous a = false →
       copy = Some (fresh_key (objs s0)) ∧ act = fresh_key (objs s0)) ∧
    marshalled l i (context_at env copy (Some il) (Some fl) (Some ll) None) (heap s) ∧
    inputs_kept a s0 s ∧
    out_gradients s = out_gradients s0 ∧
    (costs_reusable (minibatch_of a) s0 = true → out_costs s = out_costs s0) ∧
    handles_apart s0 s.
Proof.
  intros Hok.
  destruct (reach_costs_kept (allocations_ok_mono _ _ _ 6 7 ltac:(lia) Hok))
    as (copy & act & il & fl & ll & s & Heq & HR & Hc1 & Hc2 & Hm).
  pose proof (costs_reusable_reached s0 in_act a Hh _ _ _ (minibatch_of a) HR) as Hcr.
  pose proof (gradients_reusable_reached s0 in_act a Hh _ _ _ HR) as Hgr.
  destruct HR as [HI Ho Hc Hg].
  destruct (activations_ok_dims _ Hda) as (t & b & n & Hd).
  pose proof (inv_act _ _ _ _ _ _ _ HI) as Hact.
  assert (Hk : inputs_kept a s0 s) by (intros y v Hy _ _; by apply Ho).
  rewrite Heq. unfold entry_from_costs.
  rewrite (bind_Next _ _ _ _ _ (PyArray_DIMS_ok in_act a 1 b s Hact ltac:(by rewrite Hd))).
  rewrite (bind_Next _ _ _ _ _ (PyArray_DIMS_ok in_act a 2 n s Hact ltac:(by rewrite Hd))).
  cbv zeta.
  assert (to_int b = minibatch_of a) as -> by (unfold minibatch_of; by rewrite Hd).
  assert (to_int n = alphabet_of a) as -> by (unfold alphabet_of; by rewrite Hd).
  destruct (costs_reusable (minibatch_of a) s) eqn:Hre.
  - destruct (costs_reusable_handle _ _ Hre) as (c & oc & Hoc & _).
    rewrite (bind_Next _ _ _ _ _ (prepare_costs_reuse env _ _ s c Hre Hoc)).
    exists copy, act, il, fl, ll, c, s. split; [reflexivity|].
    split; [apply (Inv_mono _ _ _ _ _ 6%nat 7%nat); [lia|exact HI]|].
    repeat (split; [done|]).
    intros y _ Hny Hng. split; congruence.
  - pose proof (allocations_ok_site env a s0 7 SCosts Hok
        ltac:(simpl; lia) ltac:(simpl; by rewrite <- Hcr)) as Hcosts.
    assert (Hlive : ∀ c, out_costs s = Some c → is_Some (objs s !! c)).
    { intros c Hcs. by destruct (inv_costs _ _ _ _ _ _ _ HI c Hcs). }
    rewrite (bind_Next _ _ _ _ _ (prepare_costs_replace env _ _ s Hre Hlive Hcosts)).
    pose proof (Inv_costs_replaced _ _ _ _ _ _ HI) as HI'.
    eexists copy, act, il, fl, ll, _, _. split; [reflexivity|].
    split; [exact HI'|]. split; [reflexivity|].
    split; [|split; [|split; [exact Hc1|split; [exact Hc2|split; [|split; [|split; [|split]]]]]]].
    + unfold costs_reusable, costs_replaced. cbn.
      rewrite lookup_insert_eq. by rewrite bool_decide_eq_true_2.
    + rewrite <- Hgr. unfold gradients_reusable, costs_replaced. cbn.
      rewrite out_gradients_released.
      destruct (out_gradients s) as [g|] eqn:Hgs; [|done].
      destruct (inv_grads _ _ _ _ _ _ _ (Inv_costs_dropped _ _ _ _ _ _ _ HI ltac:(lia)) g)
        as ([og Hog] & _).
      { cbn. by rewrite out_gradients_released. }
      cbn in Hog. rewrite lookup_insert_ne.
      * rewrite Hog. unfold released in Hog.
        destruct (out_costs s) as [old|] eqn:Hold; [|by rewrite Hog].
        destruct (inv_costs _ _ _ _ _ _ _ HI old Hold) as ([oo Hoo] & _ & Hne).
        rewrite Hoo in Hog. cbn in Hog.
        rewrite lookup_drop_ref_ne in Hog by congruence. by rewrite Hog.
      * intros E. pose proof (fresh_key_lookup (objs (released (out_costs s) s))) as F.
        rewrite E in F. congruence.
    + unfold costs_replaced. cbn. by rewrite heap_released.
    + intros y v Hy Hny Hng. unfold costs_replaced. cbn.
      apply (inputs_kept_released_new a s0 s (out_costs s)); try done.
      intros y' Hy'. left. split; congruence.
    + unfold costs_replaced. cbn. by rewrite out_gradients_released.
    + intros E. congruence.
    + intros y [v Hy] Hny Hng. unfold costs_replaced. cbn.
      rewrite out_gradients_released. split; [|congruence].
      intros E. injection E as E.
      assert (objs (released (out_costs s) s) !! y = Some v) as Hrel.
      { apply (inputs_kept_released a s0 s (out_costs s)); try done.
        intros y' Hy'. left. split; congruence. }
      pose proof (fresh_key_lookup (objs (released (out_costs s) s))) as F.
      rewrite E in F. congruence.
Qed.

(** Up to line 216. *)
Lemma reach_query_kept :
  allocations_ok env a s0 8 = true →
  ∃ copy act il fl ll costs gradients s,
    ctc_cost_cpu env in_act in_lab in_il s0 =
      query_and_compute env (fresh_key (heap s0))
        (context_at env copy (Some il) (Some fl) (Some ll) None) act gradients costs
        (alphabet_of a) (minibatch_of a) s ∧
    Inv s0 in_act a (fresh_key (heap s0))
      (context_at env copy (Some il) (Some fl) (Some ll) None) 8 s ∧
    out_costs s = Some costs ∧ out_gradients s = Some gradients ∧
    costs_reusable (minibatch_of a) s = true ∧
    gradients_reusable a s = true ∧
    (c_contiguous a = true → copy = None ∧ act = in_act) ∧
    (c_contiguous a = false →
       copy = Some (fresh_key (objs s0)) ∧ act = fresh_key (objs s0)) ∧
    marshalled l i (context_at env copy (Some il) (Some fl) (Some ll) None) (heap s) ∧
    inputs_kept a s0 s ∧
    handles_kept a s0 s ∧
    handles_apart s0 s.
Proof.
  intros Hok.
  destruct (reach_gradients_kept (allocations_ok_mono _ _ _ 7 8 ltac:(lia) Hok))
    as (copy & act & il & fl & ll & costs & s & Heq & HI & Hoc & Hcr & Hgr
        & Hc1 & Hc2 & Hm & Hk & Hg0 & Hc0 & Hap).
  destruct (activations_ok_dims _ Hda) as (t & b & n & Hd).
  pose proof (inv_act _ _ _ _ _ _ _ HI) as Hact.
  rewrite Heq. unfold entry_from_gradients.
  destruct (gradients_reusable a s) eqn:Hre.
  - destruct (gradients_reusable_handle _ _ Hre) as (g & og & Hog & _).
    rewrite (bind_Next _ _ _ _ _
      (prepare_gradients_reuse env in_act a t b n _ s g Hact Hd Hre Hog)).
    exists copy, act, il, fl, ll, costs, g, s. split; [reflexivity|].
    split; [apply (Inv_mono _ _ _ _ _ 7%nat 8%nat); [lia|exact HI]|]. done.
  - pose proof (allocations_ok_site env a s0 8 SGradients Hok
        ltac:(simpl; lia) ltac:(simpl; by rewrite <- Hgr)) as Hgrads.
    assert (Hlive : ∀ g, out_gradients s = Some g →
                         is_Some (objs s !! g) ∧ g ≠ in_act).
    { intros g Hgs. by apply (inv_grads _ _ _ _ _ _ _ HI). }
    rewrite (bind_Next _ _ _ _ _
      (prepare_gradients_replace env in_act a t b n _ s Hact Hd Hre Hlive Hgrads)).
    pose proof (Inv_gradients_replaced _ _ _ _ _ (dims a) _ HI) as HI'.
    eexists copy, act, il, fl, ll, costs, _, _. split; [reflexivity|].
    split; [exact HI'|]. split; [cbn; by rewrite out_costs_released|].
    split; [reflexivity|].
    split; [|split; [|split; [exact Hc1|split; [exact Hc2|split; [|split; [|split]]]]]].
    + destruct (costs_reusable_handle _ _ Hcr) as (c & oc & Hc & Hocl & Hdc).
      unfold costs_reusable, gradients_replaced. cbn.
      rewrite out_costs_released, Hc.
      assert (objs (released (out_gradients s) s) !! c = Some oc) as Hrel.
      { unfold released. destruct (out_gradients s) as [old|] eqn:Hold; [|done].
        destruct (Hlive old eq_refl) as ([oo Hoo] & _). rewrite Hoo. cbn.
        destruct (inv_costs _ _ _ _ _ _ _ HI c Hc) as (_ & _ & Hne).
        rewrite lookup_drop_ref_ne by congruence. done. }
      rewrite lookup_insert_ne.
      * rewrite Hrel. by rewrite bool_decide_eq_true_2.
      * intros E. pose proof (fresh_key_lookup (objs (released (out_gradients s) s))) as F.
        rewrite E in F. congruence.
    + unfold gradients_reusable, gradients_replaced. cbn.
      rewrite lookup_insert_eq. cbn. rewrite Hd. cbn.
      by rewrite bool_decide_eq_true_2.
    + unfold gradients_replaced. cbn. by rewrite heap_released.
    + intros y v Hy Hny Hng. unfold gradients_replaced. cbn.
      apply (inputs_kept_released_new a s0 s (out_gradients s)); try done.
      intros y' Hy'. right. split; congruence.
    + split.
      * intros E. cbn. rewrite out_costs_released. by apply Hc0.
      * intros E. congruence.
    + intros y [v Hy] Hny Hng. unfold gradients_replaced. cbn.
      rewrite out_costs_released.
      split; [exact (proj1 (Hap y ltac:(eauto) Hny Hng))|].
      intros E. injection E as E.
      assert (objs (released (out_gradients s) s) !! y = Some v) as Hrel.
      { apply (inputs_kept_released a s0 s (out_gradients s)); try done.
        intros y' Hy'. right. split; congruence. }
      pose proof (fresh_key_lookup (objs (released (out_gradients s) s))) as F.
      rewrite E in F. congruence.
Qed.

(** The costs output keeps its shape when the gradients array is dropped. *)
Lemma costs_reusable_gradients_lost s0' in_act' a' ctx_p context k s n shape :
  Inv s0' in_act' a' ctx_p context k s →
  costs_reusable n (gradients_lost shape s) = costs_reusable n s.
Proof.
  intros HI. unfold costs_reusable, gradients_lost. cbn.
  rewrite out_costs_released.
  destruct (out_costs s) as [c|] eqn:Hc; [|done].
  unfold released. destruct (out_gradients s) as [old|] eqn:Hold; [|done].
  destruct (objs s !! old) as [oo|] eqn:Hoo; [|done]. cbn.
  destruct (inv_costs _ _ _ _ _ _ _ HI c Hc) as (_ & _ & Hne).
  rewrite lookup_drop_ref_ne by congruence. done.
Qed.

End Kept.

(** ** The final state of every call *)

Section Shape.

Variable env : Env.
Variable s0 : State.
Variables (in_act in_lab in_il : nat).
Variables (a l i : PyArrayObject).

Hypothesis Ha : objs s0 !! in_act = Some a.
Hypothesis Hl : objs s0 !! in_lab = Some l.
Hypothesis Hi : objs s0 !! in_il = Some i.
Hypothesis Hh : handles_ok in_act s0 = true.
Hypothesis Hda : activations_ok a = true.
Hypothesis Hiok : lengths_ok i = true.
Hypothesis Hlok : labels_ok l = true.

Lemma copy_is_fresh copy act :
  (c_contiguous a = true → copy = None ∧ act = in_act) →
  (c_contiguous a = false →
     copy = Some (fresh_key (objs s0)) ∧ act = fresh_key (objs s0)) →
  ∀ c, copy = Some c → c = fresh_key (objs s0).
Proof.
  intros H1 H2 c Hc. destruct (c_contiguous a).
  - destruct (H1 eq_refl). congruence.
  - destruct (H2 eq_refl). congruence.
Qed.

(** Line 138. *)
Lemma ends_copy_failed :
  alloc_ok env SContext = true →
  c_contiguous a = false → alloc_ok env SActivationsCopy = false →
  ends_as env s0 in_act in_lab in_il a.
Proof.
  intros Hctx Hc Hcopy.
  set (s1 := log (EvMalloc SContext sizeof_ctc_context_t (Some (fresh_key (heap s0))))
               (upd_heap <[fresh_key (heap s0) := ctx_block]> s0)).
  assert (HI1 : Inv s0 in_act a (fresh_key (heap s0))
                  (ctc_context_init (fresh_context env)) 2 s1).
  { by apply (Inv_init env). }
  exists 1, (raised PyExc_MemoryError
               "Could not create a contiguous copy of activations array."
               (log (EvGetContiguous in_act None) s1)),
    (ctc_context_init (fresh_context env)), 3%nat,
    (log (EvGetContiguous in_act None) s1).
  split; [|split; [|split; [|split; [|split; [|split]]]]].
  - apply run_Return. rewrite ctc_cost_cpu_eq, malloc_ok by done. cbv zeta.
    unfold entry_from_activations. cbv zeta.
    erewrite bind_Return; [reflexivity|].
    by apply (obtain_activations_fail env in_act a).
  - apply Inv_log; [simpl; lia|done|].
    by apply (Inv_mono _ _ _ _ _ 2%nat 3%nat); [lia|].
  - apply inputs_arrays_kept. intros y v Hy _ _. exact Hy.
  - split; intros _; reflexivity.
  - intros c Hc'. discriminate Hc'.
  - intros H7. exfalso.
    apply (allocations_ok_failed env a s0 7 SActivationsCopy H7);
      [simpl; lia|simpl; by rewrite Hc|done].
  - left. split; [done|]. by eexists _, _.
Qed.

(** Line 148. *)
Lemma ends_input_lengths_failed :
  allocations_ok env a s0 3 = true → alloc_ok env SInputLengths = false →
  ends_as env s0 in_act in_lab in_il a.
Proof.
  intros Hok Hil.
  destruct (reach_input_lengths env s0 in_act in_lab in_il a Ha Hh Hok)
    as (copy & act & s & Heq & [HI Ho Hc Hg] & Hcont).
  destruct (lengths_ok_dims _ Hiok) as (N & Hd & Hlen & HN).
  set (fail := EvMalloc SInputLengths
                 (to_size_t (to_int (Z.of_nat N)) * sizeof_int mod 2 ^ 64) None).
  exists 1, (raised PyExc_MemoryError "Could not allocate storage for input lengths"
               (log fail s)),
    (context_at env copy None None None None), 4%nat, (log fail s).
  split; [|split; [|split; [|split; [|split; [|split]]]]].
  - apply run_Return. rewrite Heq. unfold entry_from_input_lengths.
    erewrite bind_Return; [reflexivity|].
    by apply (obtain_input_lengths_fail env in_il i (Z.of_nat N) [] _ s (Ho _ _ Hi)).
  - apply (Inv_malloc_failed _ _ _ _ _ 3%nat 4%nat); try done; simpl; lia.
  - apply inputs_arrays_kept. intros y v Hy _ _. by apply Ho.
  - split; intros _; [exact Hc|exact Hg].
  - exact (copy_is_fresh copy act (proj1 Hcont) (proj2 Hcont)).
  - intros H7. exfalso.
    apply (allocations_ok_failed env a s0 7 SInputLengths H7);
      [simpl; lia|done|done].
  - left. split; [done|]. by eexists _, _.
Qed.

(** Line 161, the flat labels. *)
Lemma ends_flat_labels_failed :
  allocations_ok env a s0 4 = true → alloc_ok env SFlatLabels = false →
  ends_as env s0 in_act in_lab in_il a.
Proof.
  intros Hok Hfl.
  destruct (reach_labels env s0 in_act in_lab in_il a i Ha Hi Hh Hok Hiok)
    as (copy & act & il & s & Heq & [HI Ho Hc Hg] & Hcont).
  destruct (labels_ok_dims _ Hlok) as (R & C & Hd & Hlen & HR & HC & HRC & _).
  assert (INT_MIN ≤ 0) by (unfold INT_MIN; lia).
  assert (Hrange : in_int_range (to_int (Z.of_nat R) * to_int (Z.of_nat C)) = true).
  { rewrite !to_int_id by lia. apply in_int_range_true. lia. }
  set (fail := EvMalloc SFlatLabels
                 (to_size_t (to_int (Z.of_nat R) * to_int (Z.of_nat C))
                  * sizeof_int mod 2 ^ 64) None).
  assert (HI' : Inv s0 in_act a (fresh_key (heap s0))
                  (context_at env copy (Some il) None None None) 5 (log fail s)).
  { apply (Inv_malloc_failed _ _ _ _ _ 4%nat 5%nat); try done; simpl; lia. }
  exists 1, (raised PyExc_MemoryError
               "Could not allocate storage for labels and their lengths"
               (destroyed (context_at env copy (Some il) None None None) (log fail s))),
    (context_at env copy (Some il) None None None), 5%nat, (log fail s).
  split; [|split; [exact HI'|split; [|split; [|split; [|split]]]]].
  - apply run_Return. rewrite Heq. unfold entry_from_labels.
    erewrite bind_Return; [reflexivity|].
    apply (obtain_labels_fail_flat env in_lab l _ _ _ s (Ho _ _ Hl) Hd Hrange Hfl).
    exact (destroy_Inv _ _ _ _ _ _ _ HI').
  - apply inputs_arrays_kept. intros y v Hy _ _. by apply Ho.
  - split; intros _; [exact Hc|exact Hg].
  - exact (copy_is_fresh copy act (proj1 Hcont) (proj2 Hcont)).
  - intros H7. exfalso.
    apply (allocations_ok_failed env a s0 7 SFlatLabels H7);
      [simpl; lia|done|done].
  - right. left. split; [done|]. by eexists _, _.
Qed.

(** Line 161, the label lengths. *)
Lemma ends_label_lengths_failed :
  allocations_ok env a s0 5 = true → alloc_ok env SLabelLengths = false →
  ends_as env s0 in_act in_lab in_il a.
Proof.
  intros Hok Hll.
  destruct (reach_labels env s0 in_act in_lab in_il a i Ha Hi Hh
              (allocations_ok_mono _ _ _ 4 5 ltac:(lia) Hok) Hiok)
    as (copy & act & il & s & Heq & [HI Ho Hc Hg] & Hcont).
  pose proof (allocations_ok_site env a s0 5 SFlatLabels Hok
        ltac:(simpl; lia) eq_refl) as Hfl.
  destruct (labels_ok_dims _ Hlok) as (R & C & Hd & Hlen & HR & HC & HRC & _).
  assert (INT_MIN ≤ 0) by (unfold INT_MIN; lia).
  assert (Hrange : in_int_range (to_int (Z.of_nat R) * to_int (Z.of_nat C)) = true).
  { rewrite !to_int_id by lia. apply in_int_range_true. lia. }
  set (fl := fresh_key (heap s)).
  set (e1 := EvMalloc SFlatLabels
               (to_size_t (to_int (Z.of_nat R) * to_int (Z.of_nat C))
                * sizeof_int mod 2 ^ 64) (Some fl)).
  set (fail := EvMalloc SLabelLengths
                 (to_size_t (to_int (Z.of_nat R)) * sizeof_int mod 2 ^ 64) None).
  assert (HI' : Inv s0 in_act a (fresh_key (heap s0))
                  (context_at env copy (Some il) None None None) 6
                  (log (EvFree fl) (log fail (log e1 s)))).
  { apply Inv_log; [simpl; lia|done|].
    apply Inv_log; [simpl; lia|done|].
    apply (Inv_malloc_failed _ _ _ _ _ 4%nat 6%nat); try done; simpl; lia. }
  exists 1, (raised PyExc_MemoryError
               "Could not allocate storage for labels and their lengths"
               (destroyed (context_at env copy (Some il) None None None)
                  (log (EvFree fl) (log fail (log e1 s))))),
    (context_at env copy (Some il) None None None), 6%nat,
    (log (EvFree fl) (log fail (log e1 s))).
  split; [|split; [exact HI'|split; [|split; [|split; [|split]]]]].
  - apply run_Return. rewrite Heq. unfold entry_from_labels.
    erewrite bind_Return; [reflexivity|].
    apply (obtain_labels_fail_lengths env in_lab l _ _ _ s (Ho _ _ Hl) Hd Hrange Hfl Hll).
    exact (destroy_Inv _ _ _ _ _ _ _ HI').
  - apply inputs_arrays_kept. intros y v Hy _ _. by apply Ho.
  - split; intros _; [exact Hc|exact Hg].
  - exact (copy_is_fresh copy act (proj1 Hcont) (proj2 Hcont)).
  - intros H7. exfalso.
    apply (allocations_ok_failed env a s0 7 SLabelLengths H7);
      [simpl; lia|done|done].
  - right. left. split; [done|]. by eexists _, _.
Qed.

(** Line 185. *)
Lemma ends_costs_failed :
  allocations_ok env a s0 6 = true →
  costs_reusable (minibatch_of a) s0 = false → alloc_ok env SCosts = false →
  ends_as env s0 in_act in_lab in_il a.
Proof.
  intros Hok Hre Hcosts.
  destruct (reach_costs env s0 in_act in_lab in_il a l i Ha Hl Hi Hh Hok Hiok Hlok)
    as (copy & act & il & fl & ll & s & Heq & HR & Hcont).
  pose proof (costs_reusable_reached s0 in_act a Hh _ _ _ (minibatch_of a) HR) as Hcr.
  destruct HR as [HI Ho Hc Hg].
  destruct (activations_ok_dims _ Hda) as (t & b & n & Hd).
  pose proof (inv_act _ _ _ _ _ _ _ HI) as Hact.
  pose proof (Inv_costs_lost _ _ _ _ _ _ HI) as HI'.
  exists 1, (raised PyExc_MemoryError "Could not allocate storage for CTC costs"
               (destroyed (context_at env copy (Some il) (Some fl) (Some ll) None)
                  (costs_lost (minibatch_of a) s))),
    (context_at env copy (Some il) (Some fl) (Some ll) None), 7%nat,
    (costs_lost (minibatch_of a) s).
  split; [|split; [exact HI'|split; [|split; [|split; [|split]]]]].
  - apply run_Return. rewrite Heq. unfold entry_from_costs.
    rewrite (bind_Next _ _ _ _ _ (PyArray_DIMS_ok in_act a 1 b s Hact ltac:(by rewrite Hd))).
    rewrite (bind_Next _ _ _ _ _ (PyArray_DIMS_ok in_act a 2 n s Hact ltac:(by rewrite Hd))).
    cbv zeta.
    assert (to_int b = minibatch_of a) as -> by (unfold minibatch_of; by rewrite Hd).
    erewrite bind_Return; [reflexivity|].
    apply prepare_costs_fail; try done.
    + by rewrite Hcr.
    + intros c Hcs. by destruct (inv_costs _ _ _ _ _ _ _ HI c Hcs).
    + exact (destroy_Inv _ _ _ _ _ _ _ HI').
  - apply inputs_arrays_kept.
    intros y v Hy Hny Hng. unfold costs_lost. cbn.
    apply (inputs_kept_released a s0 s (out_costs s)); try done.
    + intros y' v' Hy' _ _. by apply Ho.
    + intros y' Hy'. left. split; congruence.
  - split.
    + intros E. congruence.
    + intros _. unfold costs_lost. cbn. rewrite out_gradients_released. exact Hg.
  - exact (copy_is_fresh copy act (proj1 Hcont) (proj2 Hcont)).
  - intros H7. exfalso.
    apply (allocations_ok_failed env a s0 7 SCosts H7);
      [simpl; lia|simpl; by rewrite Hre|done].
  - right. left. split; [done|]. by eexists _, _.
Qed.

(** Line 211. *)
Lemma ends_gradients_failed :
  allocations_ok env a s0 7 = true →
  gradients_reusable a s0 = false → alloc_ok env SGradients = false →
  ends_as env s0 in_act in_lab in_il a.
Proof.
  intros Hok Hre Hgrads.
  destruct (reach_gradients_kept env s0 in_act in_lab in_il a l i
              Ha Hl Hi Hh Hda Hiok Hlok Hok)
    as (copy & act & il & fl & ll & costs & s & Heq & HI & Hoc & Hcr & Hgr
        & Hc1 & Hc2 & Hm & Hk & Hg0 & Hc0 & Hap).
  destruct (activations_ok_dims _ Hda) as (t & b & n & Hd).
  pose proof (inv_act _ _ _ _ _ _ _ HI) as Hact.
  pose proof (Inv_gradients_lost _ _ _ _ _ (dims a) _ HI) as HI'.
  exists 1, (raised PyExc_MemoryError "Could not allocate storage for CTC gradients!"
               (destroyed (context_at env copy (Some il) (Some fl) (Some ll) None)
                  (gradients_lost (dims a) s))),
    (context_at env copy (Some il) (Some fl) (Some ll) None), 8%nat,
    (gradients_lost (dims a) s).
  split; [|split; [exact HI'|split; [|split; [|split; [|split]]]]].
  - apply run_Return. rewrite Heq. unfold entry_from_gradients.
    erewrite bind_Return; [reflexivity|].
    apply (prepare_gradients_fail env in_act a t b n); try done.
    + by rewrite Hgr.
    + intros g Hgs. by apply (inv_grads _ _ _ _ _ _ _ HI).
    + exact (destroy_Inv _ _ _ _ _ _ _ HI').
  - apply inputs_arrays_kept.
    intros y v Hy Hny Hng. unfold gradients_lost. cbn.
    apply (inputs_kept_released a s0 s (out_gradients s)); try done.
    intros y' Hy'. right. split; congruence.
  - split.
    + intros E. unfold gradients_lost. cbn. rewrite out_costs_released. by apply Hc0.
    + intros E. congruence.
  - exact (copy_is_fresh copy act Hc1 Hc2).
  - intros _.
    by rewrite (costs_reusable_gradients_lost _ _ _ _ _ _ _ _ _ HI).
  - right. left. split; [done|]. by eexists _, _.
Qed.

(** Lines 217-251. *)
Lemma ends_tail :
  allocations_ok env a s0 8 = true →
  ends_as env s0 in_act in_lab in_il a.
Proof.
  intros Hok.
  destruct (reach_query_kept env s0 in_act in_lab in_il a l i
              Ha Hl Hi Hh Hda Hiok Hlok Hok)
    as (copy & act & il & fl & ll & costs & grads & s & Heq & HI & Hoc & Hog
        & Hcr & Hgr & Hc1 & Hc2 & Hm & Hk & Hhk & Hap).
  set (context := context_at env copy (Some il) (Some fl) (Some ll) None) in *.
  set (mb := minibatch_of a) in *. set (al := alphabet_of a) in *.
  pose proof (copy_is_fresh copy act Hc1 Hc2) as Hfresh.
  pose proof (inputs_arrays_kept _ _ _ Hk) as Hak.
  assert (HIq : Inv s0 in_act a (fresh_key (heap s0)) context 9
                  (queried env context al mb s)).
  { apply Inv_log; [simpl; lia|done|].
    by apply (Inv_mono _ _ _ _ _ 8%nat 9%nat); [lia|]. }
  set (status := (get_workspace_size env (heap s) (ws_args context al mb)).1).
  destruct (decide (status = CTC_STATUS_SUCCESS)) as [Hst|Hst];
    [destruct (alloc_ok env SWorkspace) eqn:Hws|].
  - set (ws := fresh_key (heap s)).
    set (context' := set_workspace (Some ws) context).
    set (sw := with_workspace env context al mb s).
    set (largs := compute_args context act grads costs al mb s).
    assert (HIw : Inv s0 in_act a (fresh_key (heap s0)) context' 10 sw).
    { unfold sw, with_workspace, context', ws. cbv zeta.
      change (heap s) with (heap (queried env context al mb s)).
      apply (Inv_malloc _ _ _ _ context _ 9 10);
        [exact HIq|lia|simpl; lia|reflexivity|reflexivity]. }
    assert (HIc : Inv s0 in_act a (fresh_key (heap s0)) context' 11
                    (computed env context act grads costs al mb s)).
    { apply Inv_log; [simpl; lia|done|].
      apply Inv_written; [|exact Hoc|exact Hog].
      by apply (Inv_mono _ _ _ _ _ 10%nat 11%nat); [lia|]. }
    set (status2 := compute_ctc_loss env (heap sw) largs).
    assert (Hkc : arrays_kept a s0 (computed env context act grads costs al mb s)).
    { change (arrays_kept a s0 (written env largs sw)).
      by apply arrays_kept_written. }
    assert (Hcc : allocations_ok env a s0 7 = true →
                  costs_reusable mb (computed env context act grads costs al mb s) = true).
    { intros _. change (costs_reusable mb (written env largs sw) = true).
      by rewrite costs_reusable_written. }
    destruct (decide (status2 = CTC_STATUS_SUCCESS)) as [Hst2|Hst2].
    + pose proof (heap_destroyed_Inv _ _ _ _ _ _ _ HIc) as Hheap.
      exists 0, (log (EvFree (fresh_key (heap s0)))
                   (upd_heap (delete (fresh_key (heap s0)))
                      (destroyed context'
                         (computed env context act grads costs al mb s)))),
        context', 11%nat, (computed env context act grads costs al mb s).
      split; [|split; [exact HIc|split; [exact Hkc|split; [exact Hhk|
        split; [exact Hfresh|split; [exact Hcc|]]]]]].
      * apply run_Return. rewrite Heq.
        apply query_and_compute_success; try done.
        -- exact (destroy_Inv _ _ _ _ _ _ _ HIc).
        -- change (is_Some (heap (destroyed context'
                     (computed env context act grads costs al mb s))
                   !! fresh_key (heap s0))).
           rewrite Hheap, lookup_insert_eq. eauto.
      * right. right. done.
    + exists 1, (raised PyExc_RuntimeError
                   (library_error env "Failed to compute CTC loss function!" status2)
                   (computed env context act grads costs al mb s)),
        context', 11%nat, (computed env context act grads costs al mb s).
      split; [|split; [exact HIc|split; [exact Hkc|split; [exact Hhk|
        split; [exact Hfresh|split; [exact Hcc|]]]]]].
      * apply run_Return. rewrite Heq.
        by apply query_and_compute_compute_failed.
      * left. split; [done|]. by eexists _, _.
  - set (fail := EvMalloc SWorkspace (workspace_size env context al mb s) None).
    assert (HI' : Inv s0 in_act a (fresh_key (heap s0)) context 10
                    (log fail (queried env context al mb s))).
    { apply (Inv_malloc_failed _ _ _ _ _ 9%nat 10%nat); try done; simpl; lia. }
    exists 1, (raised PyExc_MemoryError "Failed to allocate memory for CTC workspace!"
                 (destroyed context (log fail (queried env context al mb s)))),
      context, 10%nat, (log fail (queried env context al mb s)).
    split; [|split; [exact HI'|split; [exact Hak|split; [exact Hhk|
      split; [exact Hfresh|split; [by intros _|]]]]]].
    + apply run_Return. rewrite Heq.
      apply query_and_compute_workspace_failed; try done.
      exact (destroy_Inv _ _ _ _ _ _ _ HI').
    + right. left. split; [done|]. by eexists _, _.
  - exists 1, (raised PyExc_RuntimeError
                 (library_error env "Failed to obtain CTC workspace size!" status)
                 (queried env context al mb s)),
      context, 9%nat, (queried env context al mb s).
    split; [|split; [exact HIq|split; [exact Hak|split; [exact Hhk|
      split; [exact Hfresh|split; [by intros _|]]]]]].
    + apply run_Return. rewrite Heq.
      by apply query_and_compute_query_failed.
    + left. split; [done|]. by eexists _, _.
Qed.

End Shape.

(** Every well-formed call ends in one of the three ways. *)
Lemma call_ends_as env s0 in_act in_lab in_il a :
  call_ok in_act in_lab in_il s0 = true →
  objs s0 !! in_act = Some a →
  alloc_ok env SContext = true →
  ends_as env s0 in_act in_lab in_il a.
Proof.
  intros Hcall Ha Hctx.
  destruct (call_ok_elim _ _ _ _ Hcall) as (a' & l & i & Ha' & Hl & Hi & Hda & Hlok & Hiok & Hh).
  assert (a' = a) as -> by congruence.
  assert (H2 : allocations_ok env a s0 2 = true).
  { apply allocations_ok_intro. intros site Hlt _.
    destruct site; simpl in Hlt; try lia. done. }
  destruct (first_failure env a s0 2 H2) as [Hall|(site & Hge & Hok & Hat & Hfail)].
  { apply (ends_tail env s0 in_act in_lab in_il a l i); try done.
    apply (allocations_ok_mono _ _ _ 8 10); [lia|done]. }
  destruct site.
  - simpl in Hge. lia.
  - apply (ends_copy_failed env s0 in_act in_lab in_il a); try done.
    simpl in Hat. by apply negb_true_iff in Hat.
  - by apply (ends_input_lengths_failed env s0 in_act in_lab in_il a i).
  - by apply (ends_flat_labels_failed env s0 in_act in_lab in_il a l i).
  - by apply (ends_label_lengths_failed env s0 in_act in_lab in_il a l i).
  - apply (ends_costs_failed env s0 in_act in_lab in_il a l i); try done.
    simpl in Hat. by apply negb_true_iff in Hat.
  - apply (ends_gradients_failed env s0 in_act in_lab in_il a l i); try done.
    simpl in Hat. by apply negb_true_iff in Hat.
  - apply (ends_tail env s0 in_act in_lab in_il a l i); try done.
Qed.

Section ExitState.

Variable s0 : State.
Variable in_act : nat.
Variable a : PyArrayObject.
Variable ctx_p : nat.
Variables (context : ctc_context_t) (k : nat) (s : State) (rc : Z) (s' : State).

Hypothesis HI : Inv s0 in_act a ctx_p context k s.
Hypothesis Hexit : exit_state ctx_p context s rc s'.

Lemma exit_state_objs y :
  activations_copy context ≠ Some y → objs s' !! y = objs s !! y.
Proof.
  intros Hy.
  destruct Hexit as [(_ & exc & msg & ->)|[(_ & exc & msg & ->)|(_ & ->)]]; cbn.
  - done.
  - by apply (objs_destroyed_other s0 in_act a ctx_p context k).
  - by apply (objs_destroyed_other s0 in_act a ctx_p context k).
Qed.

Lemma exit_state_handles :
  out_costs s' = out_costs s ∧ out_gradients s' = out_gradients s.
Proof.
  destruct Hexit as [(_ & exc & msg & ->)|[(_ & exc & msg & ->)|(_ & ->)]]; cbn;
    unfold destroyed;
    rewrite ?out_costs_released, ?out_costs_freed,
      ?out_gradients_released, ?out_gradients_freed; done.
Qed.

Lemma exit_state_costs n :
  costs_reusable n s' = costs_reusable n s.
Proof.
  destruct Hexit as [(_ & exc & msg & ->)|[(_ & exc & msg & ->)|(_ & ->)]].
  - done.
  - exact (costs_reusable_destroyed _ _ _ _ _ _ _ n HI).
  - exact (costs_reusable_destroyed _ _ _ _ _ _ _ n HI).
Qed.

Lemma exit_state_heap :
  (∀ p b, heap s0 !! p = Some b → heap s' !! p = Some b) ∧
  (rc = 1 → heap s' !! ctx_p = Some ctx_block) ∧
  (rc = 0 → heap s' = heap s0).
Proof.
  pose proof (inv_ctx0 _ _ _ _ _ _ _ HI) as Hc0.
  pose proof (heap_destroyed_Inv _ _ _ _ _ _ _ HI) as Hd.
  destruct Hexit as [(-> & exc & msg & ->)|[(-> & exc & msg & ->)|(-> & ->)]]; cbn.
  - split; [|split; [|done]].
    + intros p b Hp. rewrite <- Hp. apply (inv_frame _ _ _ _ _ _ _ HI).
      * intros Hin. destruct (inv_live _ _ _ _ _ _ _ HI p Hin) as (_ & E & _).
        congruence.
      * intros ->. congruence.
    + intros _. by destruct HI.
  - rewrite Hd. split; [|split; [|done]].
    + intros p b Hp. rewrite lookup_insert_ne; [done|]. intros <-. congruence.
    + intros _. apply lookup_insert_eq.
  - rewrite Hd, delete_insert_id by done. done.
Qed.

End ExitState.

(** ** What a call leaves of the caller's memory *)



(** X12.  The blocks that were on the heap at the call are untouched by it.  The
    context structure allocated at line 118 is freed on the way to
    [return 0] only: after a return of 1 it is still allocated. *)
Theorem caller_heap_untouched (env : Env) (s0 : State)
    (in_act in_lab in_il : nat) :
  call_ok in_act in_lab in_il s0 = true →
  alloc_ok env SContext = true →
  ∃ rc s',
    run_ctc_cost_cpu env in_act in_lab in_il s0 = Some (rc, s') ∧
    (∀ p b, heap s0 !! p = Some b → heap s' !! p = Some b) ∧
    heap s0 !! fresh_key (heap s0) = None ∧
    (rc = 1 → heap s' !! fresh_key (heap s0) = Some ctx_block) ∧
    (rc = 0 → heap s' = heap s0).
Proof.
  intros Hcall Hctx.
  destruct (call_ok_elim _ _ _ _ Hcall) as (a & _ & _ & Ha & _).
  destruct (call_ends_as env s0 in_act in_lab in_il a Hcall Ha Hctx)
    as (rc & s' & context & k & s & Hrun & HI & Hk & Hhk & Hfresh & Hcost & Hexit).
  destruct (exit_state_heap s0 in_act a _ context k s rc s' HI Hexit)
    as (H1 & H2 & H3).
  exists rc, s'. split; [done|]. split; [done|].
  split; [apply fresh_key_lookup|done].
Qed.

Lemma caller_heap_untouched_witness :
  ∃ s',
    run_ctc_cost_cpu (sample_env [] CTC_STATUS_MEMOPS_FAILED CTC_STATUS_SUCCESS)
      0 1 2 owning_state = Some (1, s') ∧
    heap s' !! 5%nat = heap owning_state !! 5%nat ∧
    heap s' !! 6%nat = heap owning_state !! 6%nat ∧
    heap s' !! 7%nat = Some ctx_block.
Proof.
  destruct (caller_heap_untouched
              (sample_env [] CTC_STATUS_MEMOPS_FAILED CTC_STATUS_SUCCESS)
              owning_state 0 1 2 eq_refl eq_refl) as (rc & s' & H1 & H2 & _ & H3 & _).
  assert (rc = 1) as ->.
  { pose proof H1 as H. vm_compute in H. by injection H as <- _. }
  exists s'. split; [exact H1|].
  split; [exact (H2 5%nat _ eq_refl)|].
  split; [exact (H2 6%nat _ eq_refl)|]. exact (H3 eq_refl).
Defined.

(** X13.  However the call ends, an output handle is NULL or points to a live
    array that is neither the activations nor the array of the other
    handle: no handle is left dangling, also when the call fails after it
    dropped the old array. *)
Theorem output_handles_valid (env : Env) (s0 : State)
    (in_act in_lab in_il : nat) :
  call_ok in_act in_lab in_il s0 = true →
  alloc_ok env SContext = true →
  ∃ rc s',
    run_ctc_cost_cpu env in_act in_lab in_il s0 = Some (rc, s') ∧
    (∀ x, out_costs s' = Some x →
          is_Some (objs s' !! x) ∧ x ≠ in_act ∧ out_gradients s' ≠ Some x) ∧
    (∀ x, out_gradients s' = Some x →
          is_Some (objs s' !! x) ∧ x ≠ in_act).
Proof.
  intros Hcall Hctx.
  destruct (call_ok_elim _ _ _ _ Hcall) as (a & _ & _ & Ha & _).
  destruct (call_ends_as env s0 in_act in_lab in_il a Hcall Ha Hctx)
    as (rc & s' & context & k & s & Hrun & HI & Hk & Hhk & Hfresh & Hcost & Hexit).
  destruct (exit_state_handles _ _ _ _ _ Hexit) as (Hc & Hg).
  exists rc, s'. split; [done|]. split.
  - intros x Hx. rewrite Hc in Hx. rewrite Hg.
    destruct (inv_costs _ _ _ _ _ _ _ HI x Hx) as (Hlive & Hne & Hng).
    split; [|done].
    rewrite (exit_state_objs s0 in_act a _ context k s rc s' HI Hexit); [done|].
    intros Hcopy. destruct (inv_copy _ _ _ _ _ _ _ HI _ Hcopy) as (_ & _ & ? & _).
    congruence.
  - intros x Hx. rewrite Hg in Hx.
    destruct (inv_grads _ _ _ _ _ _ _ HI x Hx) as (Hlive & Hne).
    split; [|done].
    rewrite (exit_state_objs s0 in_act a _ context k s rc s' HI Hexit); [done|].
    intros Hcopy. destruct (inv_copy _ _ _ _ _ _ _ HI _ Hcopy) as (_ & _ & _ & ?).
    congruence.
Qed.

Lemma output_handles_valid_witness :
  ∃ rc s',
    run_ctc_cost_cpu (sample_env [SGradients] CTC_STATUS_SUCCESS CTC_STATUS_SUCCESS)
      0 1 2 sample_state = Some (rc, s') ∧
    (∀ x, out_costs s' = Some x → is_Some (objs s' !! x)) ∧
    (∀ x, out_gradients s' = Some x → is_Some (objs s' !! x)).
Proof.
  destruct (output_handles_valid
              (sample_env [SGradients] CTC_STATUS_SUCCESS CTC_STATUS_SUCCESS)
              sample_state 0 1 2 eq_refl eq_refl) as (rc & s' & H1 & H2 & H3).
  exists rc, s'. split; [exact H1|]. split.
  - intros x Hx. exact (proj1 (H2 x Hx)).
  - intros x Hx. exact (proj1 (H3 x Hx)).
Defined.

(** ** The state in which the library is called *)

(** X14.  When every allocation before the size query succeeds, the call is, from
    line 217 on, [query_and_compute] run in a state in which the three
    buffers of the context are distinct live blocks holding the input
    lengths, element by element, the flattened labels and the label
    lengths of the label matrix; the [activations] pointer is the caller's
    array when that is contiguous and otherwise a contiguous copy with its
    shape and elements; and the two output handles point to arrays of the
    shapes [batch] and of the activations.  The workspace pointer is still
    NULL and the options are those of the fresh block. *)
Theorem marshalled_before_query (env : Env) (s0 : State)
    (in_act in_lab in_il : nat) (a l i : PyArrayObject) :
  call_ok in_act in_lab in_il s0 = true →
  objs s0 !! in_act = Some a →
  objs s0 !! in_lab = Some l →
  objs s0 !! in_il = Some i →
  allocations_ok env a s0 8 = true →
  ∃ context act gradients costs s il fl ll oa,
    ctc_cost_cpu env in_act in_lab in_il s0 =
      query_and_compute env (fresh_key (heap s0)) context act gradients costs
        (alphabet_of a) (minibatch_of a) s ∧
    options context = options (fresh_context env) ∧
    workspace context = None ∧
    input_lengths context = Some il ∧
    flat_labels context = Some fl ∧
    label_lengths context = Some ll ∧
    NoDup [il; fl; ll] ∧
    b_cells <$> heap s !! il = Some (Some <$> items i) ∧
    b_cells <$> heap s !! fl =
      Some ((Some <$> spec_flat_labels (label_rows l)) ++
            replicate (length (items l)
                       - length (spec_flat_labels (label_rows l))) None) ∧
    b_cells <$> heap s !! ll = Some (Some <$> spec_label_lengths (label_rows l)) ∧
    objs s !! act = Some oa ∧
    items oa = items a ∧ dims oa = dims a ∧ c_contiguous oa = true ∧
    (c_contiguous a = true → act = in_act) ∧
    out_costs s = Some costs ∧
    dims <$> objs s !! costs = Some [minibatch_of a] ∧
    out_gradients s = Some gradients ∧
    dims <$> objs s !! gradients = Some (dims a).
Proof.
  intros Hcall Ha Hl Hi Hok.
  destruct (call_ok_elim _ _ _ _ Hcall)
    as (a' & l' & i' & Ha' & Hl' & Hi' & Hda & Hlok & Hiok & Hh).
  assert (a' = a) as -> by congruence.
  assert (l' = l) as -> by congruence.
  assert (i' = i) as -> by congruence.
  destruct (reach_query_kept env s0 in_act in_lab in_il a l i
              Ha Hl Hi Hh Hda Hiok Hlok Hok)
    as (copy & act & il & fl & ll & costs & grads & s & Heq & HI & Hoc & Hog
        & Hcr & Hgr & Hc1 & Hc2 & (Hmi & Hmf & Hml) & Hk & Hhk & Hap).
  destruct (costs_reusable_handle _ _ Hcr) as (c & oc & Hc & Hocl & Hdc).
  destruct (gradients_reusable_handle _ _ Hgr) as (g & og & Hg & Hogl & _ & Hdg).
  assert (c = costs) as -> by congruence.
  assert (g = grads) as -> by congruence.
  assert (∃ oa, objs s !! act = Some oa ∧ items oa = items a ∧ dims oa = dims a ∧
                c_contiguous oa = true) as (oa & Hoa & ? & ? & ?).
  { destruct (c_contiguous a) eqn:Hcc.
    - destruct (Hc1 eq_refl) as (_ & ->). exists a.
      split; [by destruct HI|done].
    - destruct (Hc2 eq_refl) as (-> & ->).
      destruct (inv_copy _ _ _ _ _ _ _ HI _ eq_refl) as (Hcopy & _).
      exists (copy_of a). done. }
  exists (context_at env copy (Some il) (Some fl) (Some ll) None),
    act, grads, costs, s, il, fl, ll, oa.
  split; [exact Heq|]. split; [done|]. split; [done|]. split; [done|].
  split; [done|]. split; [done|].
  split; [exact (inv_nodup _ _ _ _ _ _ _ HI)|].
  split; [exact (Hmi il eq_refl)|]. split; [exact (Hmf fl eq_refl)|].
  split; [exact (Hml ll eq_refl)|].
  split; [done|]. split; [done|]. split; [done|]. split; [done|].
  split; [intros Hcc; by destruct (Hc1 Hcc)|].
  split; [done|]. split; [by rewrite Hocl, <- Hdc|].
  split; [done|]. by rewrite Hogl, <- Hdg.
Qed.

Lemma marshalled_before_query_witness :
  ∃ context act gradients costs s il fl ll,
    ctc_cost_cpu (sample_env [] CTC_STATUS_SUCCESS CTC_STATUS_SUCCESS) 0 1 2
      sample_state =
      query_and_compute (sample_env [] CTC_STATUS_SUCCESS CTC_STATUS_SUCCESS)
        0 context act gradients costs 3 2 s ∧
    input_lengths context = Some il ∧
    flat_labels context = Some fl ∧
    label_lengths context = Some ll ∧
    b_cells <$> heap s !! il = Some [Some 2; Some 2] ∧
    b_cells <$> heap s !! fl =
      Some [Some 3; Some 5; None; None; None; None; None; None] ∧
    b_cells <$> heap s !! ll = Some [Some 2; Some 0].
Proof.
  destruct (marshalled_before_query
              (sample_env [] CTC_STATUS_SUCCESS CTC_STATUS_SUCCESS)
              sample_state 0 1 2 sample_activations sample_labels sample_lengths
              eq_refl eq_refl eq_refl eq_refl eq_refl)
    as (context & act & gradients & costs & s & il & fl & ll & oa
        & H1 & _ & _ & H2 & H3 & H4 & _ & H5 & H6 & H7 & _).
  exists context, act, gradients, costs, s, il, fl, ll.
  repeat split; assumption.
Defined.

(** ** Output arrays that can be reused *)

Lemma handles_ok_intro in_act s :
  (∀ x, out_costs s = Some x →
        is_Some (objs s !! x) ∧ x ≠ in_act ∧ out_gradients s ≠ Some x) →
  (∀ x, out_gradients s = Some x → is_Some (objs s !! x) ∧ x ≠ in_act) →
  handles_ok in_act s = true.
Proof.
  intros Hc Hg. unfold handles_ok, live.
  apply andb_true_intro. split.
  - destruct (out_costs s) as [c|]; [|done].
    destruct (Hc c eq_refl) as ([oc ->] & Hne & Hng).
    apply andb_true_intro. split.
    + apply andb_true_intro. split; [done|]. by apply negb_true_iff, Nat.eqb_neq.
    + destruct (out_gradients s) as [g|]; [|done].
      apply negb_true_iff, Nat.eqb_neq. congruence.
  - destruct (out_gradients s) as [g|]; [|done].
    destruct (Hg g eq_refl) as ([og ->] & Hne).
    apply andb_true_intro. split; [done|]. by apply negb_true_iff, Nat.eqb_neq.
Qed.

(** X15.  An output array of the required shape is reused by the whole call: the
    handle still points to it when the call returns, whether with 0 or with
    1, and the array it points to is the same object, with its reference
    count, shape, element type and number of elements.  The values of its
    elements are the library's to write. *)
Theorem reusable_outputs_kept (env : Env) (s0 : State)
    (in_act in_lab in_il : nat) (a : PyArrayObject) :
  call_ok in_act in_lab in_il s0 = true →
  objs s0 !! in_act = Some a →
  alloc_ok env SContext = true →
  ∃ rc s',
    run_ctc_cost_cpu env in_act in_lab in_il s0 = Some (rc, s') ∧
    (∀ c oc, out_costs s0 = Some c → objs s0 !! c = Some oc →
             dims oc = [minibatch_of a] →
             out_costs s' = Some c ∧
             ∃ oc', objs s' !! c = Some oc' ∧ same_array oc oc') ∧
    (∀ g og, out_gradients s0 = Some g → objs s0 !! g = Some og →
             length (dims og) = 3%nat → dims og = dims a →
             out_gradients s' = Some g ∧
             ∃ og', objs s' !! g = Some og' ∧ same_array og og').
Proof.
  intros Hcall Ha Hctx.
  destruct (call_ok_elim _ _ _ _ Hcall) as (a' & l & i & Ha' & _ & _ & _ & _ & _ & Hh).
  destruct (call_ends_as env s0 in_act in_lab in_il a Hcall Ha Hctx)
    as (rc & s' & context & k & s & Hrun & HI & Hk & (Hkc & Hkg) & Hfresh & Hcost & Hexit).
  destruct (exit_state_handles _ _ _ _ _ Hexit) as (Hc & Hg).
  assert (Hobj : ∀ y v, objs s0 !! y = Some v →
            (out_costs s0 = Some y → costs_reusable (minibatch_of a) s0 = true) →
            (out_gradients s0 = Some y → gradients_reusable a s0 = true) →
            ∃ v', objs s' !! y = Some v' ∧ same_array v v').
  { intros y v Hy H1 H2.
    rewrite (exit_state_objs s0 in_act a _ context k s rc s' HI Hexit).
    - destruct (Hk y v Hy H1 H2) as (v' & Hv' & Hs & _). by exists v'.
    - intros Hcopy. apply Hfresh in Hcopy. subst y.
      pose proof (fresh_key_lookup (objs s0)). congruence. }
  exists rc, s'. split; [done|]. split.
  - intros c oc Hoc Hobjc Hd.
    assert (Hre : costs_reusable (minibatch_of a) s0 = true).
    { unfold costs_reusable. rewrite Hoc, Hobjc. by apply bool_decide_eq_true_2. }
    split; [by rewrite Hc, (Hkc Hre)|].
    apply Hobj; [done|done|].
    intros E. by destruct (handles_ok_costs _ _ _ Hh Hoc) as (_ & _ & ?).
  - intros g og Hog Hobjg Hn Hd.
    assert (Hre : gradients_reusable a s0 = true).
    { unfold gradients_reusable. rewrite Hog, Hobjg.
      apply andb_true_intro. split; [by apply Nat.eqb_eq|by apply bool_decide_eq_true_2]. }
    split; [by rewrite Hg, (Hkg Hre)|].
    apply Hobj; [done| |done].
    intros E. by destruct (handles_ok_costs _ _ _ Hh E) as (_ & _ & ?).
Qed.

(** Both outputs are there, of the required shapes, and the computation
    succeeds: the handles are kept, and so are the reference counts and the
    shapes of the two arrays. *)
Lemma reusable_outputs_kept_witness :
  ∃ rc s' oc og,
    run_ctc_cost_cpu (sample_env [] CTC_STATUS_SUCCESS CTC_STATUS_SUCCESS)
      0 1 2 ready_state = Some (rc, s') ∧
    out_costs s' = Some 3%nat ∧ objs s' !! 3%nat = Some oc ∧
    ob_refcnt oc = 1%nat ∧ dims oc = [2] ∧
    out_gradients s' = Some 4%nat ∧ objs s' !! 4%nat = Some og ∧
    ob_refcnt og = 1%nat ∧ dims og = [2; 2; 3].
Proof.
  destruct (reusable_outputs_kept
              (sample_env [] CTC_STATUS_SUCCESS CTC_STATUS_SUCCESS)
              ready_state 0 1 2 sample_activations eq_refl eq_refl eq_refl)
    as (rc & s' & H1 & H2 & H3).
  destruct (H2 3%nat (zeros [2]) eq_refl eq_refl eq_refl)
    as (H4 & oc & H5 & Hr1 & Hd1 & _).
  destruct (H3 4%nat (zeros [2; 2; 3]) eq_refl eq_refl eq_refl eq_refl)
    as (H6 & og & H7 & Hr2 & Hd2 & _).
  exists rc, s', oc, og. repeat split; assumption.
Defined.

(** X16.  When a call has returned 0, a second call on the same arguments (the
    inputs not being output arrays) is well-formed again and reuses both
    output arrays: when it returns, with whatever code, the handles are as
    the first call left them and point to the same two array objects, with
    their reference counts, shapes, element types and numbers of elements
    (the values of the elements are the library's to write). *)
Theorem second_call_reuses_outputs (env env2 : Env) (s0 s1 : State)
    (in_act in_lab in_il : nat) :
  call_ok in_act in_lab in_il s0 = true →
  out_costs s0 ≠ Some in_lab → out_costs s0 ≠ Some in_il →
  out_gradients s0 ≠ Some in_lab → out_gradients s0 ≠ Some in_il →
  run_ctc_cost_cpu env in_act in_lab in_il s0 = Some (0, s1) →
  alloc_ok env2 SContext = true →
  call_ok in_act in_lab in_il s1 = true ∧
  ∃ rc s2 c g oc og,
    run_ctc_cost_cpu env2 in_act in_lab in_il s1 = Some (rc, s2) ∧
    out_costs s1 = Some c ∧ out_gradients s1 = Some g ∧
    out_costs s2 = Some c ∧ out_gradients s2 = Some g ∧
    objs s1 !! c = Some oc ∧ objs s1 !! g = Some og ∧
    (∃ oc', objs s2 !! c = Some oc' ∧ same_array oc oc') ∧
    (∃ og', objs s2 !! g = Some og' ∧ same_array og og').
Proof.
  intros Hcall Hcl Hci Hgl Hgi Hrun Hctx2.
  destruct (call_ok_elim _ _ _ _ Hcall) as (a & l & i & Ha & Hl & Hi & Hda & Hlok & Hiok & Hh).
  destruct (alloc_ok env SContext) eqn:Hctx; last first.
  { unfold run_ctc_cost_cpu in Hrun.
    rewrite ctc_cost_cpu_eq, malloc_fail in Hrun by done. discriminate. }
  (* the first call *)
  destruct (call_ends_as env s0 in_act in_lab in_il a Hcall Ha Hctx)
    as (rc1 & s1' & context & k & s & Hrun1 & HI & Hk & Hhk & Hfresh & Hcost & Hexit).
  assert (rc1 = 0 ∧ s1' = s1) as (-> & ->) by (split; congruence).
  destruct (call_outcome env s0 in_act in_lab in_il a Hcall Ha Hctx)
    as [(site & s1' & Hrun1' & _)|[(msg & status & e & s1' & Hrun1' & _)|
        (s1' & Hrun1' & [_ _ _ Hcre Hgre _])]]; try congruence.
  assert (s1' = s1) as -> by congruence.
  destruct (exit_state_handles _ _ _ _ _ Hexit) as (Hc & Hg).
  assert (Hobj : ∀ y, y ≠ fresh_key (objs s0) → objs s1 !! y = objs s !! y).
  { intros y Hy. apply (exit_state_objs s0 in_act a _ context k s 0 s1 HI Hexit).
    intros Hcopy. by apply Hfresh in Hcopy. }
  assert (Hlive0 : ∀ y v, objs s0 !! y = Some v → y ≠ fresh_key (objs s0)).
  { intros y v Hy ->. pose proof (fresh_key_lookup (objs s0)). congruence. }
  assert (Hin : ∀ y v, objs s0 !! y = Some v →
                       out_costs s0 ≠ Some y → out_gradients s0 ≠ Some y →
                       objs s1 !! y = Some v).
  { intros y v Hy Hny Hng. rewrite (Hobj _ (Hlive0 _ _ Hy)).
    destruct (Hk y v Hy) as (v' & Hv' & _ & Hsame); [congruence|congruence|].
    by rewrite Hv', (Hsame Hny Hng). }
  assert (Ha1 : objs s1 !! in_act = Some a).
  { rewrite (Hobj _ (Hlive0 _ _ Ha)). by destruct HI. }
  assert (Hl1 : objs s1 !! in_lab = Some l) by (by apply Hin).
  assert (Hi1 : objs s1 !! in_il = Some i) by (by apply Hin).
  assert (Hnc : ∀ x, out_costs s = Some x → activations_copy context ≠ Some x).
  { intros x Hx Hcopy.
    destruct (inv_copy _ _ _ _ _ _ _ HI _ Hcopy) as (_ & _ & ? & _). congruence. }
  assert (Hng : ∀ x, out_gradients s = Some x → activations_copy context ≠ Some x).
  { intros x Hx Hcopy.
    destruct (inv_copy _ _ _ _ _ _ _ HI _ Hcopy) as (_ & _ & _ & ?). congruence. }
  assert (Hh1 : handles_ok in_act s1 = true).
  { apply handles_ok_intro.
    - intros x Hx. rewrite Hc in Hx. rewrite Hg.
      destruct (inv_costs _ _ _ _ _ _ _ HI x Hx) as (Hlive & Hne & Hngr).
      split; [|done].
      by rewrite (exit_state_objs s0 in_act a _ context k s 0 s1 HI Hexit _ (Hnc x Hx)).
    - intros x Hx. rewrite Hg in Hx.
      destruct (inv_grads _ _ _ _ _ _ _ HI x Hx) as (Hlive & Hne).
      split; [|done].
      by rewrite (exit_state_objs s0 in_act a _ context k s 0 s1 HI Hexit _ (Hng x Hx)). }
  assert (Hcall1 : call_ok in_act in_lab in_il s1 = true).
  { unfold call_ok. rewrite Ha1, Hl1, Hi1, Hda, Hlok, Hiok, Hh1. done. }
  split; [exact Hcall1|].
  (* the second call *)
  destruct (call_ends_as env2 s1 in_act in_lab in_il a Hcall1 Ha1 Hctx2)
    as (rc & s2 & context2 & k2 & s' & Hrun2 & HI2 & Hk2 & (Hkc & Hkg) & Hfresh2
        & Hcost2 & Hexit2).
  destruct (exit_state_handles _ _ _ _ _ Hexit2) as (Hc2 & Hg2).
  destruct (costs_reusable_handle _ _ Hcre) as (c & oc & Hoc & Hobjc & _).
  destruct (gradients_reusable_handle _ _ Hgre) as (g & og & Hog & Hobjg & _).
  assert (Hobj2 : ∀ y v, objs s1 !! y = Some v →
                         ∃ v', objs s2 !! y = Some v' ∧ same_array v v').
  { intros y v Hy.
    rewrite (exit_state_objs s1 in_act a _ context2 k2 s' rc s2 HI2 Hexit2).
    - destruct (Hk2 y v Hy) as (v' & Hv' & Hs & _); [done|done|]. by exists v'.
    - intros Hcopy. apply Hfresh2 in Hcopy. subst y.
      pose proof (fresh_key_lookup (objs s1)). congruence. }
  exists rc, s2, c, g, oc, og. split; [done|]. split; [done|]. split; [done|].
  split; [by rewrite Hc2, (Hkc Hcre)|]. split; [by rewrite Hg2, (Hkg Hgre)|].
  split; [done|]. split; [done|].
  split; [exact (Hobj2 _ _ Hobjc)|exact (Hobj2 _ _ Hobjg)].
Qed.

(** The first call computes, the second ends on a failure of the library:
    the handles and the shapes of the two arrays are those the first call
    left. *)
Lemma second_call_reuses_outputs_witness :
  ∃ s1 rc s2 c g oc' og',
    run_ctc_cost_cpu (sample_env [] CTC_STATUS_SUCCESS CTC_STATUS_SUCCESS)
      0 1 2 sample_state = Some (0, s1) ∧
    run_ctc_cost_cpu (sample_env [] CTC_STATUS_SUCCESS CTC_STATUS_INVALID_VALUE)
      0 1 2 s1 = Some (rc, s2) ∧
    out_costs s1 = Some c ∧ out_gradients s1 = Some g ∧
    out_costs s2 = Some c ∧ out_gradients s2 = Some g ∧
    objs s2 !! c = Some oc' ∧ objs s2 !! g = Some og' ∧
    dims <$> objs s1 !! c = Some (dims oc') ∧
    dims <$> objs s1 !! g = Some (dims og').
Proof.
  assert (∃ s1, run_ctc_cost_cpu (sample_env [] CTC_STATUS_SUCCESS CTC_STATUS_SUCCESS)
                  0 1 2 sample_state = Some (0, s1)) as [s1 Hrun].
  { eexists. vm_compute. reflexivity. }
  destruct (second_call_reuses_outputs
              (sample_env [] CTC_STATUS_SUCCESS CTC_STATUS_SUCCESS)
              (sample_env [] CTC_STATUS_SUCCESS CTC_STATUS_INVALID_VALUE)
              sample_state s1 0 1 2 eq_refl
              ltac:(discriminate) ltac:(discriminate)
              ltac:(discriminate) ltac:(discriminate) Hrun eq_refl)
    as (_ & rc & s2 & c & g & oc & og & H1 & H2 & H3 & H4 & H5 & H6 & H7
        & (oc' & H8 & _ & Hd1 & _) & (og' & H9 & _ & Hd2 & _)).
  exists s1, rc, s2, c, g, oc', og'.
  rewrite H6, H7, Hd1, Hd2. repeat split; assumption.
Defined.

(** ** The reference to an output array that is replaced *)

(** X17.  When the costs array (lines 170-176) or the gradients array (lines
    191-202) is present but of the wrong shape, the wrapper gives up
    exactly one reference to it before it allocates the new one: the trace
    gains one decref of the old array followed by the allocation, and an
    old array that someone else still holds (two references or more)
    survives, with one reference less, next to the new array. *)
Theorem replaced_output_drops_reference (env : Env) (in_act : nat)
    (a : PyArrayObject) (cost_size : Z) (context : ctc_context_t) (s : State) :
  objs s !! in_act = Some a →
  activations_ok a = true →
  (∀ c oc,
     out_costs s = Some c → objs s !! c = Some oc →
     dims oc ≠ [cost_size] → alloc_ok env SCosts = true →
     ∃ z s',
       prepare_costs env cost_size context s = Next z s' ∧
       out_costs s' = Some z ∧
       trace s' = trace s ++ [EvDecref c; EvZeros SCosts [cost_size] (Some z)] ∧
       ((2 ≤ ob_refcnt oc)%nat →
        z ≠ c ∧
        objs s' !! c =
          Some {| ob_refcnt := pred (ob_refcnt oc); dims := dims oc;
                  c_contiguous := c_contiguous oc; descr := descr oc;
                  items := items oc |})) ∧
  (∀ g og,
     out_gradients s = Some g → objs s !! g = Some og → g ≠ in_act →
     dims og ≠ dims a → alloc_ok env SGradients = true →
     ∃ z s',
       prepare_gradients env in_act context s = Next z s' ∧
       out_gradients s' = Some z ∧
       trace s' = trace s ++ [EvDecref g; EvZeros SGradients (dims a) (Some z)] ∧
       ((2 ≤ ob_refcnt og)%nat →
        z ≠ g ∧
        objs s' !! g =
          Some {| ob_refcnt := pred (ob_refcnt og); dims := dims og;
                  c_contiguous := c_contiguous og; descr := descr og;
                  items := items og |})).
Proof.
  intros Ha Hda.
  destruct (activations_ok_dims _ Hda) as (t & b & n & Hd).
  split.
  - intros c oc Hc Hoc Hdims Hok.
    assert (Hre : costs_reusable cost_size s = false).
    { unfold costs_reusable. rewrite Hc, Hoc. by apply bool_decide_eq_false_2. }
    assert (Hlive : ∀ x, out_costs s = Some x → is_Some (objs s !! x)).
    { intros x Hx. assert (x = c) as -> by congruence. eauto. }
    eexists _, _. split; [by apply prepare_costs_replace|].
    unfold costs_replaced. cbn. rewrite Hc. cbn. rewrite Hoc. cbn.
    split; [done|]. split; [by rewrite <- app_assoc|].
    intros Hn. unfold drop_ref.
    destruct (Nat.leb_spec (ob_refcnt oc) 1) as [|_]; [lia|].
    assert (fresh_key
              (<[c := {| ob_refcnt := pred (ob_refcnt oc); dims := dims oc;
                         c_contiguous := c_contiguous oc; descr := descr oc;
                         items := items oc |}]> (objs s)) ≠ c) as Hne.
    { intros E. pose proof (fresh_key_lookup
        (<[c := {| ob_refcnt := pred (ob_refcnt oc); dims := dims oc;
                   c_contiguous := c_contiguous oc; descr := descr oc;
                   items := items oc |}]> (objs s))) as F.
      rewrite E, lookup_insert_eq in F. discriminate. }
    split; [done|]. rewrite lookup_insert_ne by done. apply lookup_insert_eq.
  - intros g og Hg Hog Hgne Hdims Hok.
    assert (Hre : gradients_reusable a s = false).
    { unfold gradients_reusable. rewrite Hg, Hog.
      apply andb_false_intro2. by apply bool_decide_eq_false_2. }
    assert (Hlive : ∀ x, out_gradients s = Some x →
                         is_Some (objs s !! x) ∧ x ≠ in_act).
    { intros x Hx. assert (x = g) as -> by congruence. eauto. }
    eexists _, _.
    split; [by apply (prepare_gradients_replace env in_act a t b n)|].
    unfold gradients_replaced. cbn. rewrite Hg. cbn. rewrite Hog. cbn.
    split; [done|]. split; [by rewrite <- app_assoc|].
    intros Hn. unfold drop_ref.
    destruct (Nat.leb_spec (ob_refcnt og) 1) as [|_]; [lia|].
    assert (fresh_key
              (<[g := {| ob_refcnt := pred (ob_refcnt og); dims := dims og;
                         c_contiguous := c_contiguous og; descr := descr og;
                         items := items og |}]> (objs s)) ≠ g) as Hne.
    { intros E. pose proof (fresh_key_lookup
        (<[g := {| ob_refcnt := pred (ob_refcnt og); dims := dims og;
                   c_contiguous := c_contiguous og; descr := descr og;
                   items := items og |}]> (objs s))) as F.
      rewrite E, lookup_insert_eq in F. discriminate. }
    split; [done|]. rewrite lookup_insert_ne by done. apply lookup_insert_eq.
Qed.

Lemma replaced_output_drops_reference_witness :
  ∃ z s',
    prepare_costs (sample_env [] CTC_STATUS_SUCCESS CTC_STATUS_SUCCESS) 2
      leftover_context stale_state = Next z s' ∧
    out_costs s' = Some z ∧ z ≠ 3%nat ∧
    ob_refcnt <$> objs s' !! 3%nat = Some 1%nat.
Proof.
  destruct (replaced_output_drops_reference
              (sample_env [] CTC_STATUS_SUCCESS CTC_STATUS_SUCCESS)
              0 sample_activations 2 leftover_context stale_state
              eq_refl eq_refl) as (H & _).
  destruct (H 3%nat shared_costs eq_refl eq_refl ltac:(discriminate) eq_refl)
    as (z & s' & H1 & H2 & _ & H3).
  destruct (H3 ltac:(simpl; lia)) as (H4 & H5).
  exists z, s'. split; [exact H1|]. split; [exact H2|]. split; [exact H4|].
  rewrite H5. reflexivity.
Defined.


(** ** The sizes of the whole call *)

(** C9.  A well-formed call returns, whatever the label matrix and the
    input lengths are.  In its trace every size query and every
    computation is called with, as batch size and alphabet size, dimensions
    1 and 2 of the activations (converted to [npy_int]: unchanged when they
    fit), and every costs array it requests has that batch size as its
    length.  These calls are made: once the allocations up to the costs
    block succeed, the costs output is a live array of the length of the
    batch, however the call ends; once those before the size query succeed,
    the size query is in the trace, with these sizes; once it succeeded and
    the workspace is allocated, the computation is in the trace, with these
    sizes; and a computation that succeeds makes the call return 0, with
    the costs output of that length. *)
Theorem sizes_from_activations (env : Env) (s0 : State)
    (in_act in_lab in_il : nat) (a : PyArrayObject) :
  call_ok in_act in_lab in_il s0 = true →
  objs s0 !! in_act = Some a →
  alloc_ok env SContext = true →
  ∃ rc s' evs,
    run_ctc_cost_cpu env in_act in_lab in_il s0 = Some (rc, s') ∧
    trace s' = trace s0 ++ evs ∧
    (∀ args status, EvGetWorkspaceSize args status ∈ evs →
       ws_minibatch args = minibatch_of a ∧
       ws_alphabet_size args = alphabet_of a) ∧
    (∀ args status, EvComputeCtcLoss args status ∈ evs →
       ls_minibatch args = minibatch_of a ∧
       ls_alphabet_size args = alphabet_of a) ∧
    (∀ shape res, EvZeros SCosts shape res ∈ evs → shape = [minibatch_of a]) ∧
    (rc = 0 →
     ∃ c oc, out_costs s' = Some c ∧ objs s' !! c = Some oc ∧
             dims oc = [minibatch_of a]) ∧
    (∀ t b n, dims a = [t; b; n] →
       INT_MIN ≤ b ≤ INT_MAX → INT_MIN ≤ n ≤ INT_MAX →
       minibatch_of a = b ∧ alphabet_of a = n) ∧
    (allocations_ok env a s0 7 = true →
     ∃ c oc, out_costs s' = Some c ∧ objs s' !! c = Some oc ∧
             dims oc = [minibatch_of a]) ∧
    (allocations_ok env a s0 8 = true →
     ∃ args status, EvGetWorkspaceSize args status ∈ evs ∧
                    ws_minibatch args = minibatch_of a ∧
                    ws_alphabet_size args = alphabet_of a) ∧
    (∀ args, EvGetWorkspaceSize args CTC_STATUS_SUCCESS ∈ evs →
             alloc_ok env SWorkspace = true →
             ∃ largs status, EvComputeCtcLoss largs status ∈ evs ∧
                             ls_minibatch largs = minibatch_of a ∧
                             ls_alphabet_size largs = alphabet_of a) ∧
    (∀ largs, EvComputeCtcLoss largs CTC_STATUS_SUCCESS ∈ evs → rc = 0).
Proof.
  intros Hcall Ha Hctx.
  destruct (call_sizes env s0 in_act in_lab in_il a Hcall Ha Hctx)
    as (rc & s' & evs & Hrun & Ht & Hs & Hc).
  destruct (library_calls_made env s0 in_act in_lab in_il a Hcall Ha Hctx)
    as (rc2 & s2 & evs2 & Hrun2 & Ht2 & Hq & Hcomp & Hsucc).
  assert (rc2 = rc ∧ s2 = s') as (-> & ->) by (split; congruence).
  assert (evs2 = evs) as ->.
  { rewrite Ht in Ht2. by apply app_inv_head in Ht2. }
  destruct (call_ends_as env s0 in_act in_lab in_il a Hcall Ha Hctx)
    as (rc3 & s3 & context & k & s & Hrun3 & HI & _ & _ & _ & Hcost & Hexit).
  assert (rc3 = rc ∧ s3 = s') as (-> & ->) by (split; congruence).
  rewrite Forall_forall in Hs.
  assert (Hout : costs_reusable (minibatch_of a) s' = true →
                 ∃ c oc, out_costs s' = Some c ∧ objs s' !! c = Some oc ∧
                         dims oc = [minibatch_of a]).
  { intros H. destruct (costs_reusable_handle _ _ H) as (c & oc & ? & ? & ?).
    by exists c, oc. }
  exists rc, s', evs. split; [done|]. split; [done|].
  split; [|split; [|split; [|split; [|split; [|split; [|split; [|split]]]]]]].
  - intros args status Hin. exact (Hs _ Hin).
  - intros args status Hin. exact (Hs _ Hin).
  - intros shape res Hin. exact (Hs _ Hin).
  - intros Hrc. by apply Hout, Hc.
  - intros t b n Hd Hb Hn. split.
    + by apply (minibatch_of_dims a t b n).
    + by apply (alphabet_of_dims a t b n).
  - intros H7. apply Hout.
    rewrite (exit_state_costs s0 in_act a _ context k s rc s' HI Hexit).
    by apply Hcost.
  - intros H8. destruct (Hq H8) as (args & status & Hin).
    exists args, status. split; [done|]. exact (Hs _ Hin).
  - intros args Hin Hws. destruct (Hcomp args Hin Hws) as (largs & status & Hin').
    exists largs, status. split; [done|]. exact (Hs _ Hin').
  - exact Hsucc.
Qed.

(** Three rows of labels and five input lengths for a batch of two: the
    call returns 0, the size query and the computation are made with the
    sizes of the activations, and the costs output has length 2. *)
Lemma sizes_from_activations_witness :
  ∃ s' evs,
    run_ctc_cost_cpu (sample_env [] CTC_STATUS_SUCCESS CTC_STATUS_SUCCESS)
      0 1 2 mismatched_state = Some (0, s') ∧
    trace s' = evs ∧
    (∃ args status, EvGetWorkspaceSize args status ∈ evs ∧
                    ws_minibatch args = 2 ∧ ws_alphabet_size args = 3) ∧
    (∃ largs status, EvComputeCtcLoss largs status ∈ evs ∧
                     ls_minibatch largs = 2 ∧ ls_alphabet_size largs = 3) ∧
    (∀ shape res, EvZeros SCosts shape res ∈ evs → shape = [2]) ∧
    (∃ c oc, out_costs s' = Some c ∧ objs s' !! c = Some oc ∧ dims oc = [2]).
Proof.
  destruct (sizes_from_activations
              (sample_env [] CTC_STATUS_SUCCESS CTC_STATUS_SUCCESS)
              mismatched_state 0 1 2 sample_activations eq_refl eq_refl eq_refl)
    as (rc & s' & evs & H1 & H2 & H3 & H4 & H5 & H6 & _ & H7 & H8 & H9 & _).
  assert (rc = 0) as ->.
  { pose proof H1 as H. vm_compute in H. by injection H as <- _. }
  destruct (H8 eq_refl) as (args & status & Hin & Hsz).
  assert (Hst : status = CTC_STATUS_SUCCESS).
  { pose proof H1 as H1'. vm_compute in H1'. injection H1' as <-.
    vm_compute in H2. subst evs.
    rewrite !elem_of_cons, elem_of_nil in Hin.
    clear -Hin.
    repeat (destruct Hin as [Hin|Hin]; [try discriminate Hin; congruence|]).
    destruct Hin. }
  subst status.
  destruct (H9 args Hin eq_refl) as (largs & status2 & Hin2 & Hsz2).
  exists s', evs. split; [exact H1|]. split; [exact H2|].
  split; [exists args, CTC_STATUS_SUCCESS; split; [exact Hin|exact Hsz]|].
  split; [exists largs, status2; split; [exact Hin2|exact Hsz2]|].
  split; [exact H5|]. exact (H7 eq_refl).
Defined.
